(** * Simulation core of the narrative training simulator

    A shallow embedding of the two game components of the repository:
    - the default game (the [App] component, [PERIOD_DURATION = 90]);
    - the stricter Innovatec game ([InnovatecGame], [PERIOD_DURATION = 30]).

    Numbers are modelled as [Z] (the code only ever adds and compares
    integers), strings as [string], optional fields as [option], the
    [history] and [scenarioSchedule] objects as [gmap]s.

    A React component is modelled as a record of its state cells.  A
    handler or an effect is a function from the cells of the render it
    closes over to the cells after its updates, applied in the order the
    setters are called; a functional update [setX(prev => ...)] reads the
    value the earlier updates of the same handler left.

    Calls into the services outside the core (the Timelogger, the mechanic
    engine and its log synchronisation) have no effect on these cells;
    what they return to the handler is an argument of the handler.  The
    draws of [Math.random()] are arguments too. *)

From Stdlib Require Import ZArith Ascii String List Lia Bool Sorted.
From stdpp Require Import base option list gmap strings pretty.

Open Scope Z_scope.

(** ** Data model *)

Definition TimeSlotType := string.

Inductive CommitmentStatus := pending | fulfilled | broken.

Record Commitment := {
  description : string;
  dayDue : Z;
  c_status : CommitmentStatus
}.

Inductive StakeholderStatus := normal | critical.

Record Stakeholder := {
  sh_id : string;
  name : string;
  role : string;
  trust : Z;
  support : Z;
  minSupport : Z;
  maxSupport : Z;
  sh_status : StakeholderStatus;
  mood : string;
  lastMetDay : option Z;
  commitments : list Commitment
}.

Record Consequences := {
  trustChange : option Z;
  supportChange : option Z;
  budgetChange : option Z;
  reputationChange : option Z;
  projectProgressChange : option Z;
  dialogueResponse : string;
  expected_actions : option (list string)
}.

Record ScenarioOption := {
  option_id : string;
  text : string;
  consequences : Consequences
}.

Record ScenarioNode := {
  node_id : string;
  n_stakeholderRole : string;
  dialogue : string;
  options : list ScenarioOption
}.

Record ContingentRules := {
  budgetBelow : option Z;
  trustBelow : option Z;
  supportBelow : option Z;
  r_stakeholderRole : option string
}.

Record MeetingSequence := {
  sequence_id : string;
  stakeholderRole : string;
  nodes : list string;
  initialDialogue : string;
  finalDialogue : string;
  isInevitable : bool;
  isContingent : bool;
  contingentRules : option ContingentRules;
  triggerMap : option (Z * TimeSlotType)
}.

Record PlayerAction := {
  label : string;
  cost : string;
  action : string
}.

Record DecisionLogEntry := {
  d_day : Z;
  d_timeSlot : TimeSlotType;
  d_stakeholder : string;
  d_nodeId : string;
  d_choiceId : string;
  d_choiceText : string;
  d_consequences : Consequences
}.

Record InboxEmail := {
  email_id : string;
  dayReceived : Z;
  isRead : bool
}.

Record EmailTemplate := {
  t_email_id : string;
  trigger_type : string;
  trigger_stakeholder_id : string;
  grants_information : option string
}.

Record CalendarEntry := {
  stakeholderName : string;
  m_day : Z;
  m_slot : TimeSlotType
}.

(** The entry the Timelogger service hands back for a finished scenario,
    the entries of the player-action log and the assignments of the weekly
    schedule are opaque to the core. *)
Definition ProcessLogEntry := string.
Definition PlayerActionLogEntry := string.
Definition ScheduleAssignment := string.

(** The mechanic-engine buffers ([mechanicEvents], [canonicalActions],
    [expectedActions], [comparisons]) are filled by the engine service and
    its synchronisation hook; they are not cells of this record. *)
Record GameState := {
  playerName : string;
  day : Z;
  timeSlot : TimeSlotType;
  budget : Z;
  reputation : Z;
  projectProgress : Z;
  stakeholders : list Stakeholder;
  completedSequences : list string;
  completedScenarios : list string;
  eventsLog : list string;
  history : gmap Z (list Stakeholder);
  scenarioSchedule : gmap string (Z * TimeSlotType);
  criticalWarnings : list string;
  inbox : list InboxEmail;
  calendar : list CalendarEntry;
  decisionLog : list DecisionLogEntry;
  processLog : list ProcessLogEntry;
  playerActionsLog : list PlayerActionLogEntry;
  playerNotes : string;
  weeklySchedule : list ScheduleAssignment;
  readDocuments : list string;
  stakeholder_preferences : gmap string string
}.

Inductive GameStatus := playing | won | lost.

Record DirectorObjectives := {
  minProgress : Z;
  requiredStakeholdersRoles : list string;
  minTrustWithRequired : Z;
  maxDeadline : Z;
  minBudget : Z;
  minReputation : Z
}.

(** The authored constants and catalogues of one game ([constants],
    [data/scenarios], [data/emails]).  [TIME_SLOTS] is the non-empty list
    [first_slot :: later_slots]. *)
Record Content := {
  first_slot : TimeSlotType;
  later_slots : list TimeSlotType;
  SECRETARY_ROLE : string;
  DIRECTOR_OBJECTIVES : DirectorObjectives;
  sequences : list MeetingSequence;
  scenarios : list ScenarioNode;
  EMAIL_TEMPLATES : list EmailTemplate
}.

Definition TIME_SLOTS (K : Content) : list TimeSlotType :=
  first_slot K :: later_slots K.

#[global] Instance CommitmentStatus_eq_dec : EqDecision CommitmentStatus.
Proof. solve_decision. Defined.
#[global] Instance StakeholderStatus_eq_dec : EqDecision StakeholderStatus.
Proof. solve_decision. Defined.
#[global] Instance GameStatus_eq_dec : EqDecision GameStatus.
Proof. solve_decision. Defined.

(** ** Record updates ([{ ...x, field: v }]) *)

Definition set_c_status (c : Commitment) (v : CommitmentStatus) : Commitment :=
  {| description := description c; dayDue := dayDue c; c_status := v |}.

Definition set_trust_support (sh : Stakeholder) (t s : Z) : Stakeholder :=
  {| sh_id := sh_id sh; name := name sh; role := role sh; trust := t;
     support := s; minSupport := minSupport sh; maxSupport := maxSupport sh;
     sh_status := sh_status sh; mood := mood sh; lastMetDay := lastMetDay sh;
     commitments := commitments sh |}.

Definition set_commitments_trust (sh : Stakeholder) (cs : list Commitment) (t : Z)
  : Stakeholder :=
  {| sh_id := sh_id sh; name := name sh; role := role sh; trust := t;
     support := support sh; minSupport := minSupport sh;
     maxSupport := maxSupport sh; sh_status := sh_status sh; mood := mood sh;
     lastMetDay := lastMetDay sh; commitments := cs |}.

Definition set_lastMetDay (sh : Stakeholder) (d : Z) : Stakeholder :=
  {| sh_id := sh_id sh; name := name sh; role := role sh; trust := trust sh;
     support := support sh; minSupport := minSupport sh;
     maxSupport := maxSupport sh; sh_status := sh_status sh; mood := mood sh;
     lastMetDay := Some d; commitments := commitments sh |}.

Definition set_sh_status (sh : Stakeholder) (v : StakeholderStatus) : Stakeholder :=
  {| sh_id := sh_id sh; name := name sh; role := role sh; trust := trust sh;
     support := support sh; minSupport := minSupport sh;
     maxSupport := maxSupport sh; sh_status := v; mood := mood sh;
     lastMetDay := lastMetDay sh; commitments := commitments sh |}.

Definition set_clock (g : GameState) (d : Z) (t : TimeSlotType)
    (h : gmap Z (list Stakeholder)) : GameState :=
  {| playerName := playerName g; day := d; timeSlot := t; budget := budget g;
     reputation := reputation g; projectProgress := projectProgress g;
     stakeholders := stakeholders g;
     completedSequences := completedSequences g;
     completedScenarios := completedScenarios g; eventsLog := eventsLog g;
     history := h; scenarioSchedule := scenarioSchedule g;
     criticalWarnings := criticalWarnings g; inbox := inbox g;
     calendar := calendar g; decisionLog := decisionLog g;
     processLog := processLog g; playerActionsLog := playerActionsLog g;
     playerNotes := playerNotes g;
     weeklySchedule := weeklySchedule g; readDocuments := readDocuments g;
     stakeholder_preferences := stakeholder_preferences g |}.

Definition set_stakeholders (g : GameState) (v : list Stakeholder) : GameState :=
  {| playerName := playerName g; day := day g; timeSlot := timeSlot g;
     budget := budget g; reputation := reputation g;
     projectProgress := projectProgress g; stakeholders := v;
     completedSequences := completedSequences g;
     completedScenarios := completedScenarios g; eventsLog := eventsLog g;
     history := history g; scenarioSchedule := scenarioSchedule g;
     criticalWarnings := criticalWarnings g; inbox := inbox g;
     calendar := calendar g; decisionLog := decisionLog g;
     processLog := processLog g; playerActionsLog := playerActionsLog g;
     playerNotes := playerNotes g;
     weeklySchedule := weeklySchedule g; readDocuments := readDocuments g;
     stakeholder_preferences := stakeholder_preferences g |}.

Definition set_eventsLog (g : GameState) (v : list string) : GameState :=
  {| playerName := playerName g; day := day g; timeSlot := timeSlot g;
     budget := budget g; reputation := reputation g;
     projectProgress := projectProgress g; stakeholders := stakeholders g;
     completedSequences := completedSequences g;
     completedScenarios := completedScenarios g; eventsLog := v;
     history := history g; scenarioSchedule := scenarioSchedule g;
     criticalWarnings := criticalWarnings g; inbox := inbox g;
     calendar := calendar g; decisionLog := decisionLog g;
     processLog := processLog g; playerActionsLog := playerActionsLog g;
     playerNotes := playerNotes g;
     weeklySchedule := weeklySchedule g; readDocuments := readDocuments g;
     stakeholder_preferences := stakeholder_preferences g |}.

Definition set_completedSequences (g : GameState) (v : list string) : GameState :=
  {| playerName := playerName g; day := day g; timeSlot := timeSlot g;
     budget := budget g; reputation := reputation g;
     projectProgress := projectProgress g; stakeholders := stakeholders g;
     completedSequences := v;
     completedScenarios := completedScenarios g; eventsLog := eventsLog g;
     history := history g; scenarioSchedule := scenarioSchedule g;
     criticalWarnings := criticalWarnings g; inbox := inbox g;
     calendar := calendar g; decisionLog := decisionLog g;
     processLog := processLog g; playerActionsLog := playerActionsLog g;
     playerNotes := playerNotes g;
     weeklySchedule := weeklySchedule g; readDocuments := readDocuments g;
     stakeholder_preferences := stakeholder_preferences g |}.

Definition set_criticalWarnings (g : GameState) (v : list string) : GameState :=
  {| playerName := playerName g; day := day g; timeSlot := timeSlot g;
     budget := budget g; reputation := reputation g;
     projectProgress := projectProgress g; stakeholders := stakeholders g;
     completedSequences := completedSequences g;
     completedScenarios := completedScenarios g; eventsLog := eventsLog g;
     history := history g; scenarioSchedule := scenarioSchedule g;
     criticalWarnings := v; inbox := inbox g;
     calendar := calendar g; decisionLog := decisionLog g;
     processLog := processLog g; playerActionsLog := playerActionsLog g;
     playerNotes := playerNotes g;
     weeklySchedule := weeklySchedule g; readDocuments := readDocuments g;
     stakeholder_preferences := stakeholder_preferences g |}.

Definition set_inbox (g : GameState) (v : list InboxEmail) : GameState :=
  {| playerName := playerName g; day := day g; timeSlot := timeSlot g;
     budget := budget g; reputation := reputation g;
     projectProgress := projectProgress g; stakeholders := stakeholders g;
     completedSequences := completedSequences g;
     completedScenarios := completedScenarios g; eventsLog := eventsLog g;
     history := history g; scenarioSchedule := scenarioSchedule g;
     criticalWarnings := criticalWarnings g; inbox := v;
     calendar := calendar g; decisionLog := decisionLog g;
     processLog := processLog g; playerActionsLog := playerActionsLog g;
     playerNotes := playerNotes g;
     weeklySchedule := weeklySchedule g; readDocuments := readDocuments g;
     stakeholder_preferences := stakeholder_preferences g |}.

Definition set_calendar_log (g : GameState) (v : list CalendarEntry)
    (l : list PlayerActionLogEntry) : GameState :=
  {| playerName := playerName g; day := day g; timeSlot := timeSlot g;
     budget := budget g; reputation := reputation g;
     projectProgress := projectProgress g; stakeholders := stakeholders g;
     completedSequences := completedSequences g;
     completedScenarios := completedScenarios g; eventsLog := eventsLog g;
     history := history g; scenarioSchedule := scenarioSchedule g;
     criticalWarnings := criticalWarnings g; inbox := inbox g;
     calendar := v; decisionLog := decisionLog g;
     processLog := processLog g; playerActionsLog := l;
     playerNotes := playerNotes g;
     weeklySchedule := weeklySchedule g; readDocuments := readDocuments g;
     stakeholder_preferences := stakeholder_preferences g |}.

Definition set_day_eventsLog (g : GameState) (d : Z) (v : list string) : GameState :=
  {| playerName := playerName g; day := d; timeSlot := timeSlot g;
     budget := budget g; reputation := reputation g;
     projectProgress := projectProgress g; stakeholders := stakeholders g;
     completedSequences := completedSequences g;
     completedScenarios := completedScenarios g; eventsLog := v;
     history := history g; scenarioSchedule := scenarioSchedule g;
     criticalWarnings := criticalWarnings g; inbox := inbox g;
     calendar := calendar g; decisionLog := decisionLog g;
     processLog := processLog g; playerActionsLog := playerActionsLog g;
     playerNotes := playerNotes g;
     weeklySchedule := weeklySchedule g; readDocuments := readDocuments g;
     stakeholder_preferences := stakeholder_preferences g |}.

Definition set_scenarioSchedule (g : GameState) (v : gmap string (Z * TimeSlotType)) : GameState :=
  {| playerName := playerName g; day := day g; timeSlot := timeSlot g;
     budget := budget g; reputation := reputation g;
     projectProgress := projectProgress g; stakeholders := stakeholders g;
     completedSequences := completedSequences g;
     completedScenarios := completedScenarios g; eventsLog := eventsLog g;
     history := history g; scenarioSchedule := v;
     criticalWarnings := criticalWarnings g; inbox := inbox g;
     calendar := calendar g; decisionLog := decisionLog g;
     processLog := processLog g; playerActionsLog := playerActionsLog g;
     playerNotes := playerNotes g; weeklySchedule := weeklySchedule g;
     readDocuments := readDocuments g;
     stakeholder_preferences := stakeholder_preferences g |}.

Definition set_weeklySchedule (g : GameState) (v : list ScheduleAssignment) : GameState :=
  {| playerName := playerName g; day := day g; timeSlot := timeSlot g;
     budget := budget g; reputation := reputation g;
     projectProgress := projectProgress g; stakeholders := stakeholders g;
     completedSequences := completedSequences g;
     completedScenarios := completedScenarios g; eventsLog := eventsLog g;
     history := history g; scenarioSchedule := scenarioSchedule g;
     criticalWarnings := criticalWarnings g; inbox := inbox g;
     calendar := calendar g; decisionLog := decisionLog g;
     processLog := processLog g; playerActionsLog := playerActionsLog g;
     playerNotes := playerNotes g; weeklySchedule := v;
     readDocuments := readDocuments g;
     stakeholder_preferences := stakeholder_preferences g |}.

Definition set_playerNotes (g : GameState) (v : string) : GameState :=
  {| playerName := playerName g; day := day g; timeSlot := timeSlot g;
     budget := budget g; reputation := reputation g;
     projectProgress := projectProgress g; stakeholders := stakeholders g;
     completedSequences := completedSequences g;
     completedScenarios := completedScenarios g; eventsLog := eventsLog g;
     history := history g; scenarioSchedule := scenarioSchedule g;
     criticalWarnings := criticalWarnings g; inbox := inbox g;
     calendar := calendar g; decisionLog := decisionLog g;
     processLog := processLog g; playerActionsLog := playerActionsLog g;
     playerNotes := v; weeklySchedule := weeklySchedule g;
     readDocuments := readDocuments g;
     stakeholder_preferences := stakeholder_preferences g |}.

Definition set_readDocuments (g : GameState) (v : list string) : GameState :=
  {| playerName := playerName g; day := day g; timeSlot := timeSlot g;
     budget := budget g; reputation := reputation g;
     projectProgress := projectProgress g; stakeholders := stakeholders g;
     completedSequences := completedSequences g;
     completedScenarios := completedScenarios g; eventsLog := eventsLog g;
     history := history g; scenarioSchedule := scenarioSchedule g;
     criticalWarnings := criticalWarnings g; inbox := inbox g;
     calendar := calendar g; decisionLog := decisionLog g;
     processLog := processLog g; playerActionsLog := playerActionsLog g;
     playerNotes := playerNotes g; weeklySchedule := weeklySchedule g;
     readDocuments := v;
     stakeholder_preferences := stakeholder_preferences g |}.

Definition set_playerName (g : GameState) (v : string) : GameState :=
  {| playerName := v; day := day g; timeSlot := timeSlot g;
     budget := budget g; reputation := reputation g;
     projectProgress := projectProgress g; stakeholders := stakeholders g;
     completedSequences := completedSequences g;
     completedScenarios := completedScenarios g; eventsLog := eventsLog g;
     history := history g; scenarioSchedule := scenarioSchedule g;
     criticalWarnings := criticalWarnings g; inbox := inbox g;
     calendar := calendar g; decisionLog := decisionLog g;
     processLog := processLog g; playerActionsLog := playerActionsLog g;
     playerNotes := playerNotes g; weeklySchedule := weeklySchedule g;
     readDocuments := readDocuments g;
     stakeholder_preferences := stakeholder_preferences g |}.

Definition set_inbox_preferences_log (g : GameState) (v : list InboxEmail)
    (p : gmap string string) (l : list PlayerActionLogEntry) : GameState :=
  {| playerName := playerName g; day := day g; timeSlot := timeSlot g;
     budget := budget g; reputation := reputation g;
     projectProgress := projectProgress g; stakeholders := stakeholders g;
     completedSequences := completedSequences g;
     completedScenarios := completedScenarios g; eventsLog := eventsLog g;
     history := history g; scenarioSchedule := scenarioSchedule g;
     criticalWarnings := criticalWarnings g; inbox := v;
     calendar := calendar g; decisionLog := decisionLog g;
     processLog := processLog g; playerActionsLog := l;
     playerNotes := playerNotes g; weeklySchedule := weeklySchedule g;
     readDocuments := readDocuments g; stakeholder_preferences := p |}.

Definition set_isRead (e : InboxEmail) (v : bool) : InboxEmail :=
  {| email_id := email_id e; dayReceived := dayReceived e; isRead := v |}.

(** ** JavaScript helpers *)

(** [Array.prototype.indexOf]: first position of [x], [-1] when absent. *)
Fixpoint indexOf (l : list string) (x : string) : Z :=
  match l with
  | [] => -1
  | y :: r =>
      if bool_decide (y = x) then 0
      else let i := indexOf r x in if i <? 0 then -1 else i + 1
  end.

(** [Array.prototype.includes] on strings. *)
Definition includes (l : list string) (x : string) : bool :=
  existsb (fun y => bool_decide (y = x)) l.

(** [a ?? b] on an optional number. *)
Definition orZero (o : option Z) : Z := default 0 o.

(** [typeof o === 'number'] on an optional number. *)
Definition isNumber (o : option Z) : bool :=
  match o with Some _ => true | None => false end.

(** Truthiness of a nullable object. *)
Definition isSet {A : Type} (o : option A) : bool :=
  match o with Some _ => true | None => false end.

(** Truthiness of a string: the empty string is falsy. *)
Definition truthy (s : string) : bool := negb (bool_decide (s = "")).

(** [s.replace(/pat/g, rep)] for a literal pattern: [skip] counts the
    characters of a match still to be dropped. *)
Fixpoint replaceAll_go (pat rep s : string) (skip : nat) : string :=
  match s with
  | EmptyString => EmptyString
  | String c r =>
      match skip with
      | S k => replaceAll_go pat rep r k
      | O =>
          if String.prefix pat s
          then rep +:+ replaceAll_go pat rep r (Nat.pred (String.length pat))
          else String c (replaceAll_go pat rep r O)
      end
  end.

Definition replaceAll (pat rep s : string) : string := replaceAll_go pat rep s O.

(** [l.sort(cmp)]: the sort is stable; an element goes before the first
    element of the sorted rest that does not compare below it. *)
Fixpoint insertWith {A : Type} (cmp : A -> A -> Z) (x : A) (l : list A) : list A :=
  match l with
  | [] => [x]
  | y :: r => if cmp x y <=? 0 then x :: l else y :: insertWith cmp x r
  end.

Definition sortWith {A : Type} (cmp : A -> A -> Z) (l : list A) : list A :=
  foldr (insertWith cmp) [] l.

(** [\d]: an ASCII decimal digit, with its value. *)
Definition digitValue (c : ascii) : option Z :=
  let n := Z.of_N (Ascii.N_of_ascii c) in
  if (48 <=? n) && (n <=? 57) then Some (n - 48) else None.

(** Where a left-to-right scan for [/_(\d+)$/] stands: [InRun v] is inside
    a run of digits that follows an underscore, [v] being its value so
    far; [LooseRun] is inside a run of digits that follows no underscore. *)
Inductive OrderScan := Elsewhere | AfterUnderscore | InRun (v : Z) | LooseRun.

Definition orderScanStep (st : OrderScan) (c : ascii) : OrderScan :=
  match digitValue c with
  | Some d =>
      match st with
      | AfterUnderscore => InRun d
      | InRun v => InRun (10 * v + d)
      | Elsewhere | LooseRun => LooseRun
      end
  | None =>
      if bool_decide (c = "_"%char) then AfterUnderscore else Elsewhere
  end.

Fixpoint orderScan (st : OrderScan) (s : string) : OrderScan :=
  match s with
  | EmptyString => st
  | String c r => orderScan (orderScanStep st c) r
  end.


(** [Array.prototype.find] is [List.find]; [s.role === r] on strings is
    [bool_decide]. *)
Definition findByRole (r : string) (l : list Stakeholder) : option Stakeholder :=
  find (fun s => bool_decide (role s = r)) l.

Definition isBroken (c : Commitment) : bool := bool_decide (c_status c = broken).

Definition brokenCount (cs : list Commitment) : Z :=
  Z.of_nat (length (filter (fun c => isBroken c = true) cs)).

(** ** The default game ([App]) *)

Module App.

Definition PERIOD_DURATION : Z := 90.

Inductive AppStep := version_selection | splash | game.

#[global] Instance AppStep_eq_dec : EqDecision AppStep.
Proof. solve_decision. Defined.

(** The state cells of the component. *)
Record State := {
  appStep : AppStep;
  gameState : GameState;
  characterInFocus : option Stakeholder;
  currentDialogue : string;
  playerActions : list PlayerAction;
  isLoading : bool;
  activeTab : string;
  countdown : Z;
  isTimerPaused : bool;
  gameStatus : GameStatus;
  endGameMessage : string;
  currentMeeting : option (MeetingSequence * nat);
  warningPopupMessage : option string
}.

Definition setGameState (v : GameState) (s : State) : State :=
  {| appStep := appStep s; gameState := v;
     characterInFocus := characterInFocus s;
     currentDialogue := currentDialogue s; playerActions := playerActions s;
     isLoading := isLoading s; activeTab := activeTab s;
     countdown := countdown s; isTimerPaused := isTimerPaused s;
     gameStatus := gameStatus s; endGameMessage := endGameMessage s;
     currentMeeting := currentMeeting s;
     warningPopupMessage := warningPopupMessage s |}.

Definition setCharacterInFocus (v : option Stakeholder) (s : State) : State :=
  {| appStep := appStep s; gameState := gameState s;
     characterInFocus := v;
     currentDialogue := currentDialogue s; playerActions := playerActions s;
     isLoading := isLoading s; activeTab := activeTab s;
     countdown := countdown s; isTimerPaused := isTimerPaused s;
     gameStatus := gameStatus s; endGameMessage := endGameMessage s;
     currentMeeting := currentMeeting s;
     warningPopupMessage := warningPopupMessage s |}.

Definition setCurrentDialogue (v : string) (s : State) : State :=
  {| appStep := appStep s; gameState := gameState s;
     characterInFocus := characterInFocus s;
     currentDialogue := v; playerActions := playerActions s;
     isLoading := isLoading s; activeTab := activeTab s;
     countdown := countdown s; isTimerPaused := isTimerPaused s;
     gameStatus := gameStatus s; endGameMessage := endGameMessage s;
     currentMeeting := currentMeeting s;
     warningPopupMessage := warningPopupMessage s |}.

Definition setPlayerActions (v : list PlayerAction) (s : State) : State :=
  {| appStep := appStep s; gameState := gameState s;
     characterInFocus := characterInFocus s;
     currentDialogue := currentDialogue s; playerActions := v;
     isLoading := isLoading s; activeTab := activeTab s;
     countdown := countdown s; isTimerPaused := isTimerPaused s;
     gameStatus := gameStatus s; endGameMessage := endGameMessage s;
     currentMeeting := currentMeeting s;
     warningPopupMessage := warningPopupMessage s |}.

Definition setIsLoading (v : bool) (s : State) : State :=
  {| appStep := appStep s; gameState := gameState s;
     characterInFocus := characterInFocus s;
     currentDialogue := currentDialogue s; playerActions := playerActions s;
     isLoading := v; activeTab := activeTab s;
     countdown := countdown s; isTimerPaused := isTimerPaused s;
     gameStatus := gameStatus s; endGameMessage := endGameMessage s;
     currentMeeting := currentMeeting s;
     warningPopupMessage := warningPopupMessage s |}.

Definition setActiveTab (v : string) (s : State) : State :=
  {| appStep := appStep s; gameState := gameState s;
     characterInFocus := characterInFocus s;
     currentDialogue := currentDialogue s; playerActions := playerActions s;
     isLoading := isLoading s; activeTab := v;
     countdown := countdown s; isTimerPaused := isTimerPaused s;
     gameStatus := gameStatus s; endGameMessage := endGameMessage s;
     currentMeeting := currentMeeting s;
     warningPopupMessage := warningPopupMessage s |}.

Definition setCountdown (v : Z) (s : State) : State :=
  {| appStep := appStep s; gameState := gameState s;
     characterInFocus := characterInFocus s;
     currentDialogue := currentDialogue s; playerActions := playerActions s;
     isLoading := isLoading s; activeTab := activeTab s;
     countdown := v; isTimerPaused := isTimerPaused s;
     gameStatus := gameStatus s; endGameMessage := endGameMessage s;
     currentMeeting := currentMeeting s;
     warningPopupMessage := warningPopupMessage s |}.

Definition setIsTimerPaused (v : bool) (s : State) : State :=
  {| appStep := appStep s; gameState := gameState s;
     characterInFocus := characterInFocus s;
     currentDialogue := currentDialogue s; playerActions := playerActions s;
     isLoading := isLoading s; activeTab := activeTab s;
     countdown := countdown s; isTimerPaused := v;
     gameStatus := gameStatus s; endGameMessage := endGameMessage s;
     currentMeeting := currentMeeting s;
     warningPopupMessage := warningPopupMessage s |}.

Definition setGameStatus (v : GameStatus) (s : State) : State :=
  {| appStep := appStep s; gameState := gameState s;
     characterInFocus := characterInFocus s;
     currentDialogue := currentDialogue s; playerActions := playerActions s;
     isLoading := isLoading s; activeTab := activeTab s;
     countdown := countdown s; isTimerPaused := isTimerPaused s;
     gameStatus := v; endGameMessage := endGameMessage s;
     currentMeeting := currentMeeting s;
     warningPopupMessage := warningPopupMessage s |}.

Definition setEndGameMessage (v : string) (s : State) : State :=
  {| appStep := appStep s; gameState := gameState s;
     characterInFocus := characterInFocus s;
     currentDialogue := currentDialogue s; playerActions := playerActions s;
     isLoading := isLoading s; activeTab := activeTab s;
     countdown := countdown s; isTimerPaused := isTimerPaused s;
     gameStatus := gameStatus s; endGameMessage := v;
     currentMeeting := currentMeeting s;
     warningPopupMessage := warningPopupMessage s |}.

Definition setCurrentMeeting (v : option (MeetingSequence * nat)) (s : State) : State :=
  {| appStep := appStep s; gameState := gameState s;
     characterInFocus := characterInFocus s;
     currentDialogue := currentDialogue s; playerActions := playerActions s;
     isLoading := isLoading s; activeTab := activeTab s;
     countdown := countdown s; isTimerPaused := isTimerPaused s;
     gameStatus := gameStatus s; endGameMessage := endGameMessage s;
     currentMeeting := v;
     warningPopupMessage := warningPopupMessage s |}.

Definition setWarningPopupMessage (v : option string) (s : State) : State :=
  {| appStep := appStep s; gameState := gameState s;
     characterInFocus := characterInFocus s;
     currentDialogue := currentDialogue s; playerActions := playerActions s;
     isLoading := isLoading s; activeTab := activeTab s;
     countdown := countdown s; isTimerPaused := isTimerPaused s;
     gameStatus := gameStatus s; endGameMessage := endGameMessage s;
     currentMeeting := currentMeeting s;
     warningPopupMessage := v |}.

Definition setAppStep (v : AppStep) (s : State) : State :=
  {| appStep := v; gameState := gameState s;
     characterInFocus := characterInFocus s;
     currentDialogue := currentDialogue s; playerActions := playerActions s;
     isLoading := isLoading s; activeTab := activeTab s;
     countdown := countdown s; isTimerPaused := isTimerPaused s;
     gameStatus := gameStatus s; endGameMessage := endGameMessage s;
     currentMeeting := currentMeeting s;
     warningPopupMessage := warningPopupMessage s |}.

(** [sequenceId.match(/_(\d+)$/)]: the number written after the last
    underscore when the id ends in an underscore and digits, else 0. *)
Definition getSequenceOrder (sequenceId : string) : Z :=
  match orderScan Elsewhere sequenceId with
  | InRun v => v
  | _ => 0
  end.

Record StaffMember := {
  staff_id : string;
  staff_name : string
}.

Section WithContent.
Context (K : Content).

(** In the handlers below [cl] is the render the handler closes over (what
    it reads) and [s] the state its updates are applied to, in order. *)

Definition setPersonalizedDialogue (cl : State) (dialogue : string) (s : State) : State :=
  setCurrentDialogue
    (replaceAll "{playerName}" (playerName (gameState cl)) dialogue) s.

Definition shouldTriggerContingentSequence
    (sequence : MeetingSequence) (state : GameState) : bool :=
  if negb (isContingent sequence) then false else
  match contingentRules sequence with
  | None => false
  | Some rules =>
      if match budgetBelow rules with
         | Some b => budget state >=? b
         | None => false
         end
      then false
      else if isNumber (trustBelow rules) || isNumber (supportBelow rules)
      then
        let roleToCheck :=
          default (stakeholderRole sequence) (r_stakeholderRole rules) in
        match findByRole roleToCheck (stakeholders state) with
        | None => false
        | Some stakeholder =>
            if match trustBelow rules with
               | Some t => trust stakeholder >=? t
               | None => false
               end
            then false
            else if match supportBelow rules with
                    | Some v => support stakeholder >=? v
                    | None => false
                    end
            then false
            else true
        end
      else true
  end.

Definition startSequence (cl : State) (sequence : MeetingSequence)
    (stakeholder : Stakeholder)
    (pauseTimer : option bool) (actionLabel actionCost : option string)
    (s : State) : State :=
  let actionLabel := default "Comenzar Reunion" actionLabel in
  let actionCost := default "Tiempo" actionCost in
  let s := setActiveTab "interaction" s in
  let s := setCharacterInFocus (Some stakeholder) s in
  let s := setCurrentMeeting (Some (sequence, 0%nat)) s in
  let s := setPersonalizedDialogue cl (initialDialogue sequence) s in
  let s := setPlayerActions
      [{| label := actionLabel; cost := actionCost;
          action := "start_meeting_sequence" |}] s in
  let shouldPause :=
    default (isInevitable sequence || isContingent sequence) pauseTimer in
  if shouldPause then setIsTimerPaused true s else s.

(** The effect that ends the game or raises warnings. *)
Definition warningStep (criticalWarnings : list string)
    (acc : list string * list Stakeholder * bool) (s : Stakeholder)
    : list string * list Stakeholder * bool :=
  let '(newWarnings, updatedStakeholders, stakeholdersWereUpdated) := acc in
  if (trust s <? minTrustWithRequired (DIRECTOR_OBJECTIVES K))
     && negb (bool_decide (sh_status s = critical))
  then
    let warningMsg :=
      "Crisis de Gobernabilidad: " +:+ name s +:+ " (" +:+ role s
      +:+ ") está boicoteando activamente su gestión." in
    if negb (includes criticalWarnings warningMsg)
    then (newWarnings ++ [warningMsg],
          map (fun sh => if bool_decide (name sh = name s)
                         then set_sh_status sh critical else sh)
              updatedStakeholders,
          true)
    else acc
  else acc.

Definition statusEffect (st : State) : State :=
  if negb (bool_decide (gameStatus st = playing))
     || negb (bool_decide (appStep st = game))
  then st
  else
    let g := gameState st in
    if projectProgress g >=? minProgress (DIRECTOR_OBJECTIVES K)
    then
      setGameStatus won
        (setEndGameMessage
           "¡Gestión Exitosa! Has logrado alinear a los tres sectores. El CESFAM opera con un equilibrio razonable entre calidad, normativa y comunidad."
           st)
    else
      let requiredStakeholders :=
        filter (fun s => includes
                  (requiredStakeholdersRoles (DIRECTOR_OBJECTIVES K)) (role s) = true)
               (stakeholders g) in
      let '(newWarnings, updatedStakeholders, stakeholdersWereUpdated) :=
        fold_left (warningStep (criticalWarnings g)) requiredStakeholders
                  ([], stakeholders g, false) in
      let newWarnings :=
        if (day g >? maxDeadline (DIRECTOR_OBJECTIVES K))
           && negb (includes (criticalWarnings g) "Gestión Fallida: Plazo Excedido.")
        then newWarnings ++ ["Gestión Fallida: Plazo Excedido."]
        else newWarnings in
      match newWarnings with
      | [] => st
      | w :: _ =>
          let prev := gameState st in
          let prev := if stakeholdersWereUpdated
                      then set_stakeholders prev updatedStakeholders else prev in
          let s := setGameState
              (set_criticalWarnings prev (criticalWarnings prev ++ newWarnings)) st in
          let s := setWarningPopupMessage (Some w) s in
          setIsTimerPaused true s
      end.

(** The scheduler effect. *)
Definition inevitableDue (g : GameState) (seq : MeetingSequence) : bool :=
  isInevitable seq
  && negb (includes (completedSequences g) (sequence_id seq))
  && bool_decide (fst <$> scenarioSchedule g !! sequence_id seq = Some (day g))
  && bool_decide (snd <$> scenarioSchedule g !! sequence_id seq = Some (timeSlot g)).

Definition contingentDue (g : GameState) (seq : MeetingSequence) : bool :=
  isContingent seq
  && negb (includes (completedSequences g) (sequence_id seq))
  && shouldTriggerContingentSequence seq g.

Definition schedulerEffect (st : State) : State :=
  if negb (bool_decide (appStep st = game))
     || negb (bool_decide (gameStatus st = playing))
     || isSet (currentMeeting st)
  then st
  else
    let g := gameState st in
    let inevitableSeq := find (inevitableDue g) (sequences K) in
    let contingentSeq := find (contingentDue g) (sequences K) in
    let sequenceToStart :=
      match inevitableSeq with Some s => Some s | None => contingentSeq end in
    match sequenceToStart with
    | None => st
    | Some sequenceToStart =>
        match findByRole (stakeholderRole sequenceToStart) (stakeholders g) with
        | Some stakeholder =>
            let label := if isInevitable sequenceToStart
                         then "Atender Situacion Inevitable"
                         else "Atender Evento Contingente" in
            startSequence st sequenceToStart stakeholder
              (Some true) (Some label) (Some "Obligatorio") st
        | None => st
        end
    end.

(** The clock. *)
Definition advanceTime (currentState : GameState) : GameState :=
  let nextSlotIndex := indexOf (TIME_SLOTS K) (timeSlot currentState) + 1 in
  let overflow := nextSlotIndex >=? Z.of_nat (length (TIME_SLOTS K)) in
  let nextSlotIndex := if overflow then 0 else nextSlotIndex in
  let nextDay := if overflow then day currentState + 1 else day currentState in
  let history' :=
    if overflow
    then <[day currentState := stakeholders currentState]> (history currentState)
    else history currentState in
  let nextSlot :=
    default (first_slot K) (TIME_SLOTS K !! Z.to_nat nextSlotIndex) in
  let newState := set_clock currentState nextDay nextSlot history' in
  if nextDay >? day currentState then
    let newEvents := ["Ha comenzado el día " +:+ pretty nextDay +:+ "."] in
    let newState :=
      set_stakeholders newState
        (map (fun sh =>
                let updatedCommitments :=
                  map (fun c =>
                         if bool_decide (c_status c = pending)
                            && (nextDay >? dayDue c)
                         then set_c_status c broken else c)
                      (commitments sh) in
                let newlyBroken :=
                  brokenCount updatedCommitments - brokenCount (commitments sh) in
                let newTrust := Z.max 0 (trust sh - newlyBroken * 20) in
                set_commitments_trust sh updatedCommitments newTrust)
             (stakeholders newState)) in
    set_eventsLog newState (eventsLog newState ++ newEvents)
  else set_eventsLog newState (eventsLog newState ++ []).

Definition presentScenario (cl : State) (scenario : ScenarioNode) (s : State) : State :=
  let s := match findByRole (n_stakeholderRole scenario)
                             (stakeholders (gameState cl)) with
           | Some activeStakeholder =>
               setCharacterInFocus (Some activeStakeholder) s
           | None => s
           end in
  let s := setPersonalizedDialogue cl (dialogue scenario) s in
  setPlayerActions
    (map (fun opt => {| label := text opt; action := option_id opt;
                        cost := "Decisión" |})
         (options scenario)) s.

Definition advanceTimeAndUpdateFocus (cl : State)
    (justCompletedSequenceId : option string) (s : State) : State :=
  let gameState0 := gameState cl in
  let stateAfterMeetingEnd := gameState0 in
  let stateAfterMeetingEnd :=
    match justCompletedSequenceId with
    | Some id =>
        if truthy id && negb (includes (completedSequences stateAfterMeetingEnd) id)
        then set_completedSequences stateAfterMeetingEnd
               (completedSequences stateAfterMeetingEnd ++ [id])
        else stateAfterMeetingEnd
    | None => stateAfterMeetingEnd
    end in
  let stateAfterMeetingEnd :=
    match characterInFocus cl with
    | Some focus =>
        if negb (bool_decide (role focus = SECRETARY_ROLE K))
        then set_stakeholders stateAfterMeetingEnd
               (map (fun sh => if bool_decide (name sh = name focus)
                               then set_lastMetDay sh (day gameState0) else sh)
                    (stakeholders stateAfterMeetingEnd))
        else stateAfterMeetingEnd
    | None => stateAfterMeetingEnd
    end in
  let newState := advanceTime stateAfterMeetingEnd in
  let s := setGameState newState s in
  let s := setCharacterInFocus None s in
  setCountdown PERIOD_DURATION s.

(** One firing of the one-second timer. *)
Definition tick (st : State) : State :=
  if isTimerPaused st
     || negb (bool_decide (activeTab st = "interaction"))
     || negb (bool_decide (gameStatus st = playing))
     || negb (bool_decide (appStep st = game))
  then st
  else if countdown st <=? 1
  then setCountdown PERIOD_DURATION (advanceTimeAndUpdateFocus st None st)
  else setCountdown (countdown st - 1) st.

Definition handleExecuteWeek (st : State) : State :=
  let prev := gameState st in
  let jumpDays := 5 in
  let s := setGameState
      (set_day_eventsLog prev (day prev + jumpDays)
         (eventsLog prev ++
            ["Semana Ejecutada. Avanzado al día "
             +:+ pretty (day prev + jumpDays) +:+ "."])) st in
  let s := setWarningPopupMessage (Some "Semana ejecutada con éxito.") s in
  setActiveTab "interaction" s.

Definition handleSetupScheduleWar (st : State) : State :=
  let s := setActiveTab "schedule" st in
  let s := setCurrentMeeting None s in
  let s := setCharacterInFocus None s in
  setWarningPopupMessage (Some "¡PROPUESTAS DE JEFATURAS CARGADAS!") s.

(** Applying the consequences of a chosen option ([setGameState(prev => ...)]
    in [handlePlayerAction]). *)
Definition applyConsequences (focus : Stakeholder) (scenario : ScenarioNode)
    (opt : ScenarioOption) (action : PlayerAction)
    (processLog0 : option ProcessLogEntry) (prev : GameState) : GameState :=
  let consequences := consequences opt in
  let newStakeholders :=
    map (fun sh =>
           if bool_decide (name sh = name focus)
           then set_trust_support sh
                  (Z.max 0 (Z.min 100 (trust sh + orZero (trustChange consequences))))
                  (Z.max (minSupport sh)
                     (Z.min (maxSupport sh)
                        (support sh + orZero (supportChange consequences))))
           else sh)
        (stakeholders prev) in
  let decisionEntry :=
    {| d_day := day prev; d_timeSlot := timeSlot prev;
       d_stakeholder := name focus; d_nodeId := node_id scenario;
       d_choiceId := option_id opt; d_choiceText := text opt;
       d_consequences := consequences |} in
  {| playerName := playerName prev; day := day prev; timeSlot := timeSlot prev;
     budget := budget prev + orZero (budgetChange consequences);
     reputation :=
       Z.max 0 (Z.min 100 (reputation prev + orZero (reputationChange consequences)));
     projectProgress :=
       Z.max 0 (Z.min 100
         (projectProgress prev + orZero (projectProgressChange consequences)));
     stakeholders := newStakeholders;
     completedSequences := completedSequences prev;
     completedScenarios := completedScenarios prev ++ [node_id scenario];
     eventsLog := eventsLog prev ++ ["Decisión: " +:+ label action];
     history := history prev; scenarioSchedule := scenarioSchedule prev;
     criticalWarnings := criticalWarnings prev; inbox := inbox prev;
     calendar := calendar prev;
     decisionLog := decisionLog prev ++ [decisionEntry];
     processLog := match processLog0 with
                   | Some e => processLog prev ++ [e]
                   | None => processLog prev
                   end;
     playerActionsLog := playerActionsLog prev;
     playerNotes := playerNotes prev;
     weeklySchedule := weeklySchedule prev; readDocuments := readDocuments prev;
     stakeholder_preferences := stakeholder_preferences prev |}.

(** [processLog0] is what [finalizeLogging(action.action)] returned. *)
Definition handlePlayerAction (st : State) (action0 : PlayerAction)
    (processLog0 : option ProcessLogEntry) : State :=
  if negb (bool_decide (gameStatus st = playing)) then st
  else if bool_decide (action action0 = "open_conflicted_schedule")
  then handleSetupScheduleWar st
  else
    let s := setIsLoading true st in
    match characterInFocus st with
    | None => setIsLoading false s
    | Some focus =>
        let afterSwitch :=
          if bool_decide (action action0 = "conclude_meeting") then
            let justCompletedSequenceId :=
              match currentMeeting st with
              | Some (sequence, _) => Some (sequence_id sequence)
              | None => None
              end in
            let s := setCurrentMeeting None s in
            let s := advanceTimeAndUpdateFocus st justCompletedSequenceId s in
            setIsLoading false s
          else
            let currentScenarioId :=
              match currentMeeting st with
              | Some (sequence, nodeIndex) => nodes sequence !! nodeIndex
              | None => Some ""
              end in
            match find (fun sc => bool_decide (Some (node_id sc) = currentScenarioId))
                       (scenarios K) with
            | Some scenario =>
                match find (fun o => bool_decide (option_id o = action action0))
                           (options scenario) with
                | Some opt =>
                    let s := setGameState
                        (applyConsequences focus scenario opt action0
                           processLog0 (gameState s)) s in
                    let s := setPersonalizedDialogue st
                        (dialogueResponse (consequences opt)) s in
                    let s :=
                      match currentMeeting st with
                      | Some (sequence, nodeIndex) =>
                          if Z.of_nat nodeIndex >=? Z.of_nat (length (nodes sequence)) - 1
                          then setPlayerActions
                                 [{| label := "Finalizar Discusión";
                                     cost := "Continuar";
                                     action := "end_meeting_sequence" |}] s
                          else setPlayerActions
                                 [{| label := "Continuar...";
                                     cost := "Continuar";
                                     action := "continue_meeting_sequence" |}] s
                      | None =>
                          setPlayerActions
                            [{| label := "Concluir Reunión"; cost := "Finalizar";
                                action := "conclude_meeting" |}] s
                      end in
                    let s := setCountdown PERIOD_DURATION s in
                    setIsLoading false s
                | None => setIsLoading false s
                end
            | None => setIsLoading false s
            end in
        match currentMeeting st with
        | Some (sequence, nodeIndex) =>
            if bool_decide (action action0 = "start_meeting_sequence") then
              let s := match find (fun sc => bool_decide
                                      (Some (node_id sc) = nodes sequence !! 0%nat))
                                  (scenarios K) with
                       | Some scenario => presentScenario st scenario s
                       | None => s
                       end in
              setIsLoading false s
            else if bool_decide (action action0 = "continue_meeting_sequence") then
              let nextNodeIndex := (nodeIndex + 1)%nat in
              let s := setCurrentMeeting (Some (sequence, nextNodeIndex)) s in
              let s := match find (fun sc => bool_decide
                                      (Some (node_id sc) = nodes sequence !! nextNodeIndex))
                                  (scenarios K) with
                       | Some nextScenario => presentScenario st nextScenario s
                       | None => s
                       end in
              setIsLoading false s
            else if bool_decide (action action0 = "end_meeting_sequence") then
              let s := setPersonalizedDialogue st (finalDialogue sequence) s in
              let s := setPlayerActions
                  [{| label := "Concluir Reunión"; cost := "Finalizar";
                      action := "conclude_meeting" |}] s in
              setIsLoading false s
            else afterSwitch
        | None => afterSwitch
        end
    end.

Definition handleManualAdvance (st : State) : State :=
  advanceTimeAndUpdateFocus st None st.

(** The first state of a session: the schedule holds the two fixed
    entries and then the trigger point of every inevitable or contingent
    sequence that has one.  [INITIAL_GAME_STATE] is the constant of that
    name. *)
Definition createInitialGameState (INITIAL_GAME_STATE : GameState) : GameState :=
  let initialSchedule : gmap string (Z * TimeSlotType) :=
    <["AZUL_MEETING_BLOCKED" := (1, "tarde")]>
      (<["EVENT_STORM" := (1, "tarde")]> ∅) in
  let initialSchedule :=
    fold_left
      (fun sched seq =>
         match triggerMap seq with
         | Some tm =>
             if isInevitable seq || isContingent seq
             then <[sequence_id seq := tm]> sched else sched
         | None => sched
         end)
      (sequences K) initialSchedule in
  set_scenarioSchedule INITIAL_GAME_STATE initialSchedule.

Definition handleStartGame (name0 : string) (st : State) : State :=
  let s := setGameState (set_playerName (gameState st) name0) st in
  setAppStep game s.

(** The effect that runs when the game is entered: the timer starts and
    the start-up emails not yet in the inbox are filed. *)
Definition welcomeEffect (st : State) : State :=
  if negb (bool_decide (appStep st = game)) then st
  else
    let s := setIsTimerPaused false st in
    let prev := gameState s in
    let welcomeEmails :=
      List.filter (fun t => bool_decide (trigger_stakeholder_id t = "system-startup"))
        (EMAIL_TEMPLATES K) in
    let newEmails :=
      map (fun t => {| email_id := t_email_id t; dayReceived := 1; isRead := false |})
        (List.filter
           (fun t => negb (existsb (fun e => bool_decide (email_id e = t_email_id t))
                             (inbox prev)))
           welcomeEmails) in
    if (0 <? Z.of_nat (length newEmails))
    then setGameState (set_inbox prev (inbox prev ++ newEmails)) s
    else s.

Definition handleUpdateSchedule (newSchedule : list ScheduleAssignment) (st : State)
  : State :=
  setGameState (set_weeklySchedule (gameState st) newSchedule) st.

Definition handleUpdateNotes (notes : string) (st : State) : State :=
  setGameState (set_playerNotes (gameState st) notes) st.

Definition proactiveFor (stakeholder : Stakeholder) (seq : MeetingSequence) : bool :=
  bool_decide (stakeholderRole seq = role stakeholder)
  && negb (isInevitable seq) && negb (isContingent seq).

(** [ranAtOnce] tells whether React had run the countdown updater, which
    sets the handler's [timeAdvanced] flag, by the time the handler reads
    the flag.  The result is the handler's return value with the state. *)
Definition handleMapInteract (st : State) (staff : StaffMember) (ranAtOnce : bool)
  : State * bool :=
  let MOVEMENT_COST := 6 in
  let newVal := countdown st - MOVEMENT_COST in
  let s := setCountdown (if newVal <=? 0 then 0 else newVal) st in
  let timeAdvanced := ranAtOnce && (newVal <=? 0) in
  if timeAdvanced then (advanceTimeAndUpdateFocus st None s, false)
  else
    let g := gameState st in
    match find (inevitableDue g) (sequences K) with
    | Some _ =>
        (setWarningPopupMessage
           (Some "Hay un evento inevitable pendiente. Debes atenderlo antes de iniciar uno proactivo.")
           s, false)
    | None =>
        match find (contingentDue g) (sequences K) with
        | Some _ =>
            (setWarningPopupMessage
               (Some "Hay un evento contingente pendiente. Debes atenderlo antes de iniciar uno proactivo.")
               s, false)
        | None =>
            match find (fun sh => bool_decide (sh_id sh = staff_id staff))
                       (stakeholders g) with
            | Some stakeholder =>
                let s := setCharacterInFocus (Some stakeholder) s in
                let s := setActiveTab "interaction" s in
                let proactiveSequence :=
                  find (fun seq => negb (includes (completedSequences g)
                                           (sequence_id seq)))
                       (sortWith
                          (fun a b => getSequenceOrder (sequence_id a)
                                      - getSequenceOrder (sequence_id b))
                          (List.filter (proactiveFor stakeholder) (sequences K))) in
                match proactiveSequence with
                | Some sequence =>
                    (startSequence st sequence stakeholder (Some false) None None s,
                     true)
                | None =>
                    let s := setPersonalizedDialogue st
                        ("(El " +:+ staff_name staff
                         +:+ " parece ocupado o no tiene nada urgente que tratar contigo en este momento).")
                        s in
                    (setPlayerActions
                       [{| label := "Volver"; cost := "Gratis";
                           action := "conclude_meeting" |}] s,
                     true)
                end
            | None =>
                (setWarningPopupMessage
                   (Some ("INSPECCION RAPIDA: " +:+ staff_name staff)) s,
                 true)
            end
        end
    end.

Definition handleCallStakeholder (stakeholder : Stakeholder) (st : State) : State :=
  let s := setCharacterInFocus (Some stakeholder) st in
  let s := setActiveTab "interaction" s in
  let s := setPersonalizedDialogue st
      ("(Por teléfono) Aló, ¿Director? Aquí " +:+ name stakeholder +:+ ".") s in
  setPlayerActions
    [{| label := "Solo quería confirmar..."; cost := "Corto";
        action := "conclude_meeting" |}] s.

Definition handleMarkEmailAsRead (emailId : string) (st : State) : State :=
  let prev := gameState st in
  setGameState
    (set_inbox prev
       (map (fun e => if bool_decide (email_id e = emailId)
                      then set_isRead e true else e)
            (inbox prev))) st.

Definition handleMarkDocumentAsRead (docId : string) (st : State) : State :=
  let prev := gameState st in
  if includes (readDocuments prev) docId then st
  else setGameState (set_readDocuments prev (readDocuments prev ++ [docId])) st.

Definition handleUpdateScenarioSchedule (id : string) (day0 : Z)
    (slot : TimeSlotType) (st : State) : State :=
  let prev := gameState st in
  setGameState
    (set_scenarioSchedule prev (<[id := (day0, slot)]> (scenarioSchedule prev))) st.

End WithContent.
End App.

(** ** The stricter game ([InnovatecGame]) *)

Module Innovatec.

Definition PERIOD_DURATION : Z := 30.

Inductive SchedulingState :=
  none | selecting_slot | selecting_stakeholder | confirming_schedule.

(** The state cells of the component. *)
Record State := {
  isGameStarted : bool;
  gameState : GameState;
  secretary : option Stakeholder;
  characterInFocus : option Stakeholder;
  currentDialogue : string;
  playerActions : list PlayerAction;
  isLoading : bool;
  activeTab : string;
  schedulingState : SchedulingState;
  selectedSlot : option (Z * TimeSlotType);
  stakeholderToSchedule : option Stakeholder;
  countdown : Z;
  isTimerPaused : bool;
  gameStatus : GameStatus;
  endGameMessage : string;
  currentMeeting : option (MeetingSequence * nat);
  warningPopupMessage : option string
}.

Definition setGameState (v : GameState) (s : State) : State :=
  {| isGameStarted := isGameStarted s; gameState := v;
     secretary := secretary s; characterInFocus := characterInFocus s;
     currentDialogue := currentDialogue s; playerActions := playerActions s;
     isLoading := isLoading s; activeTab := activeTab s;
     schedulingState := schedulingState s; selectedSlot := selectedSlot s;
     stakeholderToSchedule := stakeholderToSchedule s;
     countdown := countdown s; isTimerPaused := isTimerPaused s;
     gameStatus := gameStatus s; endGameMessage := endGameMessage s;
     currentMeeting := currentMeeting s;
     warningPopupMessage := warningPopupMessage s |}.

Definition setCharacterInFocus (v : option Stakeholder) (s : State) : State :=
  {| isGameStarted := isGameStarted s; gameState := gameState s;
     secretary := secretary s; characterInFocus := v;
     currentDialogue := currentDialogue s; playerActions := playerActions s;
     isLoading := isLoading s; activeTab := activeTab s;
     schedulingState := schedulingState s; selectedSlot := selectedSlot s;
     stakeholderToSchedule := stakeholderToSchedule s;
     countdown := countdown s; isTimerPaused := isTimerPaused s;
     gameStatus := gameStatus s; endGameMessage := endGameMessage s;
     currentMeeting := currentMeeting s;
     warningPopupMessage := warningPopupMessage s |}.

Definition setCurrentDialogue (v : string) (s : State) : State :=
  {| isGameStarted := isGameStarted s; gameState := gameState s;
     secretary := secretary s; characterInFocus := characterInFocus s;
     currentDialogue := v; playerActions := playerActions s;
     isLoading := isLoading s; activeTab := activeTab s;
     schedulingState := schedulingState s; selectedSlot := selectedSlot s;
     stakeholderToSchedule := stakeholderToSchedule s;
     countdown := countdown s; isTimerPaused := isTimerPaused s;
     gameStatus := gameStatus s; endGameMessage := endGameMessage s;
     currentMeeting := currentMeeting s;
     warningPopupMessage := warningPopupMessage s |}.

Definition setPlayerActions (v : list PlayerAction) (s : State) : State :=
  {| isGameStarted := isGameStarted s; gameState := gameState s;
     secretary := secretary s; characterInFocus := characterInFocus s;
     currentDialogue := currentDialogue s; playerActions := v;
     isLoading := isLoading s; activeTab := activeTab s;
     schedulingState := schedulingState s; selectedSlot := selectedSlot s;
     stakeholderToSchedule := stakeholderToSchedule s;
     countdown := countdown s; isTimerPaused := isTimerPaused s;
     gameStatus := gameStatus s; endGameMessage := endGameMessage s;
     currentMeeting := currentMeeting s;
     warningPopupMessage := warningPopupMessage s |}.

Definition setIsLoading (v : bool) (s : State) : State :=
  {| isGameStarted := isGameStarted s; gameState := gameState s;
     secretary := secretary s; characterInFocus := characterInFocus s;
     currentDialogue := currentDialogue s; playerActions := playerActions s;
     isLoading := v; activeTab := activeTab s;
     schedulingState := schedulingState s; selectedSlot := selectedSlot s;
     stakeholderToSchedule := stakeholderToSchedule s;
     countdown := countdown s; isTimerPaused := isTimerPaused s;
     gameStatus := gameStatus s; endGameMessage := endGameMessage s;
     currentMeeting := currentMeeting s;
     warningPopupMessage := warningPopupMessage s |}.

Definition setSchedulingState (v : SchedulingState) (s : State) : State :=
  {| isGameStarted := isGameStarted s; gameState := gameState s;
     secretary := secretary s; characterInFocus := characterInFocus s;
     currentDialogue := currentDialogue s; playerActions := playerActions s;
     isLoading := isLoading s; activeTab := activeTab s;
     schedulingState := v; selectedSlot := selectedSlot s;
     stakeholderToSchedule := stakeholderToSchedule s;
     countdown := countdown s; isTimerPaused := isTimerPaused s;
     gameStatus := gameStatus s; endGameMessage := endGameMessage s;
     currentMeeting := currentMeeting s;
     warningPopupMessage := warningPopupMessage s |}.

Definition setSelectedSlot (v : option (Z * TimeSlotType)) (s : State) : State :=
  {| isGameStarted := isGameStarted s; gameState := gameState s;
     secretary := secretary s; characterInFocus := characterInFocus s;
     currentDialogue := currentDialogue s; playerActions := playerActions s;
     isLoading := isLoading s; activeTab := activeTab s;
     schedulingState := schedulingState s; selectedSlot := v;
     stakeholderToSchedule := stakeholderToSchedule s;
     countdown := countdown s; isTimerPaused := isTimerPaused s;
     gameStatus := gameStatus s; endGameMessage := endGameMessage s;
     currentMeeting := currentMeeting s;
     warningPopupMessage := warningPopupMessage s |}.

Definition setStakeholderToSchedule (v : option Stakeholder) (s : State) : State :=
  {| isGameStarted := isGameStarted s; gameState := gameState s;
     secretary := secretary s; characterInFocus := characterInFocus s;
     currentDialogue := currentDialogue s; playerActions := playerActions s;
     isLoading := isLoading s; activeTab := activeTab s;
     schedulingState := schedulingState s; selectedSlot := selectedSlot s;
     stakeholderToSchedule := v; countdown := countdown s;
     isTimerPaused := isTimerPaused s; gameStatus := gameStatus s;
     endGameMessage := endGameMessage s; currentMeeting := currentMeeting s;
     warningPopupMessage := warningPopupMessage s |}.

Definition setCountdown (v : Z) (s : State) : State :=
  {| isGameStarted := isGameStarted s; gameState := gameState s;
     secretary := secretary s; characterInFocus := characterInFocus s;
     currentDialogue := currentDialogue s; playerActions := playerActions s;
     isLoading := isLoading s; activeTab := activeTab s;
     schedulingState := schedulingState s; selectedSlot := selectedSlot s;
     stakeholderToSchedule := stakeholderToSchedule s; countdown := v;
     isTimerPaused := isTimerPaused s; gameStatus := gameStatus s;
     endGameMessage := endGameMessage s; currentMeeting := currentMeeting s;
     warningPopupMessage := warningPopupMessage s |}.

Definition setIsTimerPaused (v : bool) (s : State) : State :=
  {| isGameStarted := isGameStarted s; gameState := gameState s;
     secretary := secretary s; characterInFocus := characterInFocus s;
     currentDialogue := currentDialogue s; playerActions := playerActions s;
     isLoading := isLoading s; activeTab := activeTab s;
     schedulingState := schedulingState s; selectedSlot := selectedSlot s;
     stakeholderToSchedule := stakeholderToSchedule s;
     countdown := countdown s; isTimerPaused := v;
     gameStatus := gameStatus s; endGameMessage := endGameMessage s;
     currentMeeting := currentMeeting s;
     warningPopupMessage := warningPopupMessage s |}.

Definition setGameStatus (v : GameStatus) (s : State) : State :=
  {| isGameStarted := isGameStarted s; gameState := gameState s;
     secretary := secretary s; characterInFocus := characterInFocus s;
     currentDialogue := currentDialogue s; playerActions := playerActions s;
     isLoading := isLoading s; activeTab := activeTab s;
     schedulingState := schedulingState s; selectedSlot := selectedSlot s;
     stakeholderToSchedule := stakeholderToSchedule s;
     countdown := countdown s; isTimerPaused := isTimerPaused s;
     gameStatus := v; endGameMessage := endGameMessage s;
     currentMeeting := currentMeeting s;
     warningPopupMessage := warningPopupMessage s |}.

Definition setEndGameMessage (v : string) (s : State) : State :=
  {| isGameStarted := isGameStarted s; gameState := gameState s;
     secretary := secretary s; characterInFocus := characterInFocus s;
     currentDialogue := currentDialogue s; playerActions := playerActions s;
     isLoading := isLoading s; activeTab := activeTab s;
     schedulingState := schedulingState s; selectedSlot := selectedSlot s;
     stakeholderToSchedule := stakeholderToSchedule s;
     countdown := countdown s; isTimerPaused := isTimerPaused s;
     gameStatus := gameStatus s; endGameMessage := v;
     currentMeeting := currentMeeting s;
     warningPopupMessage := warningPopupMessage s |}.

Definition setCurrentMeeting (v : option (MeetingSequence * nat)) (s : State) : State :=
  {| isGameStarted := isGameStarted s; gameState := gameState s;
     secretary := secretary s; characterInFocus := characterInFocus s;
     currentDialogue := currentDialogue s; playerActions := playerActions s;
     isLoading := isLoading s; activeTab := activeTab s;
     schedulingState := schedulingState s; selectedSlot := selectedSlot s;
     stakeholderToSchedule := stakeholderToSchedule s;
     countdown := countdown s; isTimerPaused := isTimerPaused s;
     gameStatus := gameStatus s; endGameMessage := endGameMessage s;
     currentMeeting := v; warningPopupMessage := warningPopupMessage s |}.

Definition setWarningPopupMessage (v : option string) (s : State) : State :=
  {| isGameStarted := isGameStarted s; gameState := gameState s;
     secretary := secretary s; characterInFocus := characterInFocus s;
     currentDialogue := currentDialogue s; playerActions := playerActions s;
     isLoading := isLoading s; activeTab := activeTab s;
     schedulingState := schedulingState s; selectedSlot := selectedSlot s;
     stakeholderToSchedule := stakeholderToSchedule s;
     countdown := countdown s; isTimerPaused := isTimerPaused s;
     gameStatus := gameStatus s; endGameMessage := endGameMessage s;
     currentMeeting := currentMeeting s; warningPopupMessage := v |}.

Definition setIsGameStarted (v : bool) (s : State) : State :=
  {| isGameStarted := v; gameState := gameState s; secretary := secretary s;
     characterInFocus := characterInFocus s;
     currentDialogue := currentDialogue s; playerActions := playerActions s;
     isLoading := isLoading s; activeTab := activeTab s;
     schedulingState := schedulingState s; selectedSlot := selectedSlot s;
     stakeholderToSchedule := stakeholderToSchedule s;
     countdown := countdown s; isTimerPaused := isTimerPaused s;
     gameStatus := gameStatus s; endGameMessage := endGameMessage s;
     currentMeeting := currentMeeting s;
     warningPopupMessage := warningPopupMessage s |}.

Definition setSecretary (v : option Stakeholder) (s : State) : State :=
  {| isGameStarted := isGameStarted s; gameState := gameState s;
     secretary := v; characterInFocus := characterInFocus s;
     currentDialogue := currentDialogue s; playerActions := playerActions s;
     isLoading := isLoading s; activeTab := activeTab s;
     schedulingState := schedulingState s; selectedSlot := selectedSlot s;
     stakeholderToSchedule := stakeholderToSchedule s;
     countdown := countdown s; isTimerPaused := isTimerPaused s;
     gameStatus := gameStatus s; endGameMessage := endGameMessage s;
     currentMeeting := currentMeeting s;
     warningPopupMessage := warningPopupMessage s |}.

Definition setActiveTab (v : string) (s : State) : State :=
  {| isGameStarted := isGameStarted s; gameState := gameState s;
     secretary := secretary s; characterInFocus := characterInFocus s;
     currentDialogue := currentDialogue s; playerActions := playerActions s;
     isLoading := isLoading s; activeTab := v;
     schedulingState := schedulingState s; selectedSlot := selectedSlot s;
     stakeholderToSchedule := stakeholderToSchedule s;
     countdown := countdown s; isTimerPaused := isTimerPaused s;
     gameStatus := gameStatus s; endGameMessage := endGameMessage s;
     currentMeeting := currentMeeting s;
     warningPopupMessage := warningPopupMessage s |}.

#[global] Instance SchedulingState_eq_dec : EqDecision SchedulingState.
Proof. solve_decision. Defined.

(** What the two [Math.random()] draws of one advance came to:
    [Math.floor(Math.random() * matchingTemplates.length)] and
    [Math.random() < 0.33]. *)
Record Draws := {
  templateIndex : nat;
  belowCancelThreshold : bool
}.

Definition getInitialSecretaryActions : list PlayerAction :=
  [{| label := "Agendar una Reunión"; cost := "Gratis";
      action := "schedule_meeting" |}].

(** [l.filter(m => m !== x)] where [x] is the object [l.find(p)] returned:
    the first entry satisfying [p] is dropped. *)
Fixpoint removeFound {A : Type} (p : A -> bool) (l : list A) : list A :=
  match l with
  | [] => []
  | y :: r => if p y then r else y :: removeFound p r
  end.

Section WithContent.
Context (K : Content).

Definition setPersonalizedDialogue (cl : State) (dialogue : string) (s : State) : State :=
  setCurrentDialogue
    (replaceAll "{playerName}" (playerName (gameState cl)) dialogue) s.

(** The effect that ends the game or raises warnings. *)
Definition warningStep (criticalWarnings : list string)
    (acc : list string * list Stakeholder * bool) (s : Stakeholder)
    : list string * list Stakeholder * bool :=
  let '(newWarnings, updatedStakeholders, stakeholdersWereUpdated) := acc in
  if (trust s <? minTrustWithRequired (DIRECTOR_OBJECTIVES K))
     && negb (bool_decide (sh_status s = critical))
  then
    let warningMsg :=
      "Proyecto en Riesgo Crítico: La confianza con " +:+ name s +:+ " ("
      +:+ role s +:+ ") ha colapsado, poniendo en peligro el proyecto." in
    if negb (includes criticalWarnings warningMsg)
    then (newWarnings ++ [warningMsg],
          map (fun sh => if bool_decide (name sh = name s)
                         then set_sh_status sh critical else sh)
              updatedStakeholders,
          true)
    else acc
  else acc.

Definition pushUnless (cond : bool) (known : list string) (msg : string)
    (newWarnings : list string) : list string :=
  if cond && negb (includes known msg) then newWarnings ++ [msg] else newWarnings.

Definition statusEffect (st : State) : State :=
  if negb (bool_decide (gameStatus st = playing)) || negb (isGameStarted st)
  then st
  else
    let g := gameState st in
    if projectProgress g >=? minProgress (DIRECTOR_OBJECTIVES K)
    then
      setGameStatus won
        (setEndGameMessage
           "¡Proyecto Exitoso! Has navegado las complejidades de la organización y la implementación de la plataforma de IA es un éxito. Cumpliste el plazo, te mantuviste en presupuesto y manejaste las relaciones críticas."
           st)
    else
      let requiredStakeholders :=
        filter (fun s => includes
                  (requiredStakeholdersRoles (DIRECTOR_OBJECTIVES K)) (role s) = true)
               (stakeholders g) in
      let '(newWarnings, updatedStakeholders, stakeholdersWereUpdated) :=
        fold_left (warningStep (criticalWarnings g)) requiredStakeholders
                  ([], stakeholders g, false) in
      let deadlineWarning :=
        "Proyecto en Riesgo Crítico: Plazo Excedido. El proyecto ha superado los "
        +:+ pretty (maxDeadline (DIRECTOR_OBJECTIVES K)) +:+ " días." in
      let newWarnings :=
        pushUnless (day g >? maxDeadline (DIRECTOR_OBJECTIVES K))
          (criticalWarnings g) deadlineWarning newWarnings in
      let budgetWarning :=
        "Proyecto en Riesgo Crítico: Presupuesto Agotado. El proyecto es financieramente insolvente." in
      let newWarnings :=
        pushUnless (budget g <? minBudget (DIRECTOR_OBJECTIVES K))
          (criticalWarnings g) budgetWarning newWarnings in
      let reputationWarning :=
        "Proyecto en Riesgo Crítico: Reputación Colapsada. Se ha perdido el apoyo interno y del directorio." in
      let newWarnings :=
        pushUnless (reputation g <? minReputation (DIRECTOR_OBJECTIVES K))
          (criticalWarnings g) reputationWarning newWarnings in
      match newWarnings with
      | [] => st
      | w :: _ =>
          let prev := gameState st in
          let prev := if stakeholdersWereUpdated
                      then set_stakeholders prev updatedStakeholders else prev in
          let s := setGameState
              (set_criticalWarnings prev (criticalWarnings prev ++ newWarnings)) st in
          let s := setWarningPopupMessage (Some w) s in
          setIsTimerPaused true s
      end.

(** The clock.  The callbacks of the two [map]s push onto [newEvents]; the
    list is threaded through them in evaluation order. *)
Fixpoint breakCommitments (sh : Stakeholder) (nextDay : Z)
    (cs : list Commitment) (newEvents : list string)
    : list Commitment * list string :=
  match cs with
  | [] => ([], newEvents)
  | c :: r =>
      if bool_decide (c_status c = pending) && (nextDay >? dayDue c)
      then
        let newEvents :=
          newEvents ++ ["¡Promesa a " +:+ name sh +:+ " ('" +:+ description c
                        +:+ "') rota! La confianza ha sido dañada."] in
        let '(r', newEvents) := breakCommitments sh nextDay r newEvents in
        (set_c_status c broken :: r', newEvents)
      else
        let '(r', newEvents) := breakCommitments sh nextDay r newEvents in
        (c :: r', newEvents)
  end.

Definition rolloverStakeholder (currentDay nextDay : Z) (sh : Stakeholder)
    (newEvents : list string) : Stakeholder * list string :=
  let '(updatedCommitments, newEvents) :=
    breakCommitments sh nextDay (commitments sh) newEvents in
  let newlyBrokenCount :=
    brokenCount updatedCommitments - brokenCount (commitments sh) in
  let newTrust := trust sh - newlyBrokenCount * 20 in
  let newTrust :=
    if negb (bool_decide (role sh = SECRETARY_ROLE K))
       && (default 0 (lastMetDay sh) <? currentDay - 3)
    then newTrust - 2 else newTrust in
  (set_commitments_trust sh updatedCommitments (Z.max 0 newTrust), newEvents).

Fixpoint rolloverStakeholders (currentDay nextDay : Z)
    (shs : list Stakeholder) (newEvents : list string)
    : list Stakeholder * list string :=
  match shs with
  | [] => ([], newEvents)
  | sh :: r =>
      let '(sh', newEvents) :=
        rolloverStakeholder currentDay nextDay sh newEvents in
      let '(r', newEvents) :=
        rolloverStakeholders currentDay nextDay r newEvents in
      (sh' :: r', newEvents)
  end.

Definition advanceTime (currentState : GameState) : GameState :=
  let nextSlotIndex := indexOf (TIME_SLOTS K) (timeSlot currentState) + 1 in
  let overflow := nextSlotIndex >=? Z.of_nat (length (TIME_SLOTS K)) in
  let nextSlotIndex := if overflow then 0 else nextSlotIndex in
  let nextDay := if overflow then day currentState + 1 else day currentState in
  let history' :=
    if overflow
    then <[day currentState := stakeholders currentState]> (history currentState)
    else history currentState in
  let nextSlot :=
    default (first_slot K) (TIME_SLOTS K !! Z.to_nat nextSlotIndex) in
  let newState := set_clock currentState nextDay nextSlot history' in
  if nextDay >? day currentState then
    let newEvents :=
      ["Ha comenzado el día " +:+ pretty nextDay
       +:+ ". Un nuevo día trae nuevos desafíos."] in
    let '(updatedStakeholders, newEvents) :=
      rolloverStakeholders (day currentState) nextDay
        (stakeholders newState) newEvents in
    let newState := set_stakeholders newState updatedStakeholders in
    set_eventsLog newState (eventsLog newState ++ newEvents)
  else set_eventsLog newState (eventsLog newState ++ []).

Definition returnToSecretary (cl : State) (message : string) (s : State) : State :=
  match secretary cl with
  | Some sec =>
      let s := setCharacterInFocus (Some sec) s in
      let s := setPersonalizedDialogue cl message s in
      let s := setPlayerActions getInitialSecretaryActions s in
      let s := setSchedulingState none s in
      setCountdown PERIOD_DURATION s
  | None => s
  end.

Definition presentScenario (cl : State) (scenario : ScenarioNode) (s : State) : State :=
  let s := setPersonalizedDialogue cl (dialogue scenario) s in
  setPlayerActions
    (map (fun opt => {| label := text opt; action := option_id opt;
                        cost := "Decisión" |})
         (options scenario)) s.

Definition isAvailabilityTemplateFor (previousCharacter : Stakeholder)
    (t : EmailTemplate) : bool :=
  bool_decide (trigger_type t = "ON_MEETING_COMPLETE")
  && bool_decide (trigger_stakeholder_id t = sh_id previousCharacter).

Definition advanceTimeAndUpdateFocus (cl : State)
    (justCompletedSequenceId : option string) (draws : Draws) (s : State) : State :=
  let gameState0 := gameState cl in
  let currentState := gameState0 in
  let justCompleted :=
    match justCompletedSequenceId with Some id => truthy id | None => false end in
  let currentState :=
    match justCompletedSequenceId with
    | Some id =>
        if truthy id && negb (includes (completedSequences currentState) id)
        then set_completedSequences currentState
               (completedSequences currentState ++ [id])
        else currentState
    | None => currentState
    end in
  let previousCharacter := characterInFocus cl in
  let currentState :=
    match previousCharacter with
    | Some previous =>
        if justCompleted then
          let hasAlreadyReceivedAvailabilityEmail :=
            existsb (fun inboxEmail =>
                       match find (fun t => bool_decide
                                       (t_email_id t = email_id inboxEmail))
                                  (EMAIL_TEMPLATES K) with
                       | Some template => isAvailabilityTemplateFor previous template
                       | None => false
                       end)
                    (inbox currentState) in
          if negb hasAlreadyReceivedAvailabilityEmail then
            let matchingTemplates :=
              List.filter (isAvailabilityTemplateFor previous) (EMAIL_TEMPLATES K) in
            match matchingTemplates !! templateIndex draws with
            | Some chosenTemplate =>
                let newEmail :=
                  {| email_id := t_email_id chosenTemplate;
                     dayReceived := day currentState; isRead := false |} in
                set_inbox currentState (inbox currentState ++ [newEmail])
            | None => currentState
            end
          else currentState
        else currentState
    | None => currentState
    end in
  let stateAfterMeetingEnd := currentState in
  let stateAfterMeetingEnd :=
    match previousCharacter with
    | Some previous =>
        if negb (bool_decide (role previous = SECRETARY_ROLE K))
        then set_stakeholders stateAfterMeetingEnd
               (map (fun sh => if bool_decide (name sh = name previous)
                               then set_lastMetDay sh (day currentState) else sh)
                    (stakeholders stateAfterMeetingEnd))
        else stateAfterMeetingEnd
    | None => stateAfterMeetingEnd
    end in
  let newState := advanceTime stateAfterMeetingEnd in
  let s := setGameState newState s in
  let isUpcoming := fun m : CalendarEntry =>
    bool_decide (m_day m = day newState)
    && bool_decide (m_slot m = timeSlot newState) in
  match find isUpcoming (calendar newState) with
  | Some upcomingMeeting =>
      match find (fun sh => bool_decide (name sh = stakeholderName upcomingMeeting))
                 (stakeholders newState) with
      | Some targetStakeholder =>
          let willCancel :=
            bool_decide (mood targetStakeholder = "hostile")
            && belowCancelThreshold draws in
          if willCancel then
            let latestState := gameState s in
            let s := setGameState
                (set_calendar_log latestState
                   (removeFound isUpcoming (calendar latestState))
                   (playerActionsLog latestState)) s in
            returnToSecretary cl
              ("CTO, me acaban de informar que " +:+ name targetStakeholder
               +:+ " ha cancelado la reunión. Su oficina citó circunstancias imprevistas. Parece que su humor es bastante malo.")
              s
          else
            let s := setCharacterInFocus (Some targetStakeholder) s in
            let s :=
              match find (fun seq =>
                            bool_decide (stakeholderRole seq = role targetStakeholder)
                            && negb (includes (completedSequences newState)
                                       (sequence_id seq)))
                         (sequences K) with
              | Some sequence =>
                  let s := setCurrentMeeting (Some (sequence, 0%nat)) s in
                  let s := setPersonalizedDialogue cl (initialDialogue sequence) s in
                  setPlayerActions
                    [{| label := "Comenzar Discusión"; cost := "Iniciar";
                        action := "start_meeting_sequence" |}] s
              | None =>
                  match find (fun sc =>
                                bool_decide (n_stakeholderRole sc = role targetStakeholder)
                                && negb (includes (completedScenarios newState)
                                           (node_id sc)))
                             (scenarios K) with
                  | Some scenario => presentScenario cl scenario s
                  | None =>
                      let s := setPersonalizedDialogue cl
                          "Hemos discutido todo lo necesario por ahora. Gracias por tu tiempo."
                          s in
                      setPlayerActions
                        [{| label := "Concluir Reunión"; cost := "Finalizar";
                            action := "conclude_meeting" |}] s
                  end
              end in
            setCountdown PERIOD_DURATION s
      | None => s
      end
  | None =>
      let secretaryMessage :=
        match previousCharacter with
        | Some previous =>
            if negb (bool_decide (role previous = SECRETARY_ROLE K))
            then "Su reunión con " +:+ name previous
                 +:+ " ha concluido. Ahora estamos en el bloque de "
                 +:+ timeSlot newState +:+ " del día " +:+ pretty (day newState)
                 +:+ ". La agenda está libre. ¿En qué puedo asistirle?"
            else "Hemos pasado al bloque de " +:+ timeSlot newState
                 +:+ " del día " +:+ pretty (day newState)
                 +:+ ". La agenda está libre. ¿En qué puedo asistirle?"
        | None =>
            "Hemos pasado al bloque de " +:+ timeSlot newState
            +:+ " del día " +:+ pretty (day newState)
            +:+ ". La agenda está libre. ¿En qué puedo asistirle?"
        end in
      returnToSecretary cl secretaryMessage s
  end.

(** One firing of the one-second timer. *)
Definition tick (st : State) (draws : Draws) : State :=
  if isTimerPaused st
     || negb (bool_decide (activeTab st = "interaction"))
     || negb (bool_decide (gameStatus st = playing))
     || negb (isGameStarted st)
  then st
  else if countdown st <=? 1
  then setCountdown PERIOD_DURATION (advanceTimeAndUpdateFocus st None draws st)
  else setCountdown (countdown st - 1) st.

Definition handleManualAdvance (st : State) (draws : Draws) : State :=
  if negb (bool_decide (gameStatus st = playing)) then st
  else setCountdown PERIOD_DURATION (advanceTimeAndUpdateFocus st None draws st).

(** Applying the consequences of a chosen option ([setGameState(prev => ...)]
    in [handlePlayerAction]); the decision-log entry is built from the
    render's own [gameState]. *)
Definition applyConsequences (cl : State) (focus : Stakeholder)
    (scenario : ScenarioNode) (opt : ScenarioOption) (action0 : PlayerAction)
    (processLog0 : option ProcessLogEntry) (prev : GameState) : GameState :=
  let consequences := consequences opt in
  let decisionLogEntry :=
    {| d_day := day (gameState cl); d_timeSlot := timeSlot (gameState cl);
       d_stakeholder := name focus; d_nodeId := node_id scenario;
       d_choiceId := option_id opt; d_choiceText := text opt;
       d_consequences := consequences |} in
  let newStakeholders :=
    map (fun sh =>
           if bool_decide (name sh = name focus)
           then set_trust_support sh
                  (Z.max 0 (Z.min 100 (trust sh + orZero (trustChange consequences))))
                  (Z.max (minSupport sh)
                     (Z.min (maxSupport sh)
                        (support sh + orZero (supportChange consequences))))
           else sh)
        (stakeholders prev) in
  {| playerName := playerName prev; day := day prev; timeSlot := timeSlot prev;
     budget := budget prev + orZero (budgetChange consequences);
     reputation :=
       Z.max 0 (Z.min 100 (reputation prev + orZero (reputationChange consequences)));
     projectProgress :=
       Z.max 0 (Z.min 100
         (projectProgress prev + orZero (projectProgressChange consequences)));
     stakeholders := newStakeholders;
     completedSequences := completedSequences prev;
     completedScenarios := completedScenarios prev ++ [node_id scenario];
     eventsLog := eventsLog prev
                    ++ ["Decisión con " +:+ name focus +:+ ": " +:+ label action0];
     history := history prev; scenarioSchedule := scenarioSchedule prev;
     criticalWarnings := criticalWarnings prev; inbox := inbox prev;
     calendar := calendar prev;
     decisionLog := decisionLog prev ++ [decisionLogEntry];
     processLog := match processLog0 with
                   | Some e => processLog prev ++ [e]
                   | None => processLog prev
                   end;
     playerActionsLog := playerActionsLog prev;
     playerNotes := playerNotes prev;
     weeklySchedule := weeklySchedule prev; readDocuments := readDocuments prev;
     stakeholder_preferences := stakeholder_preferences prev |}.

(** [calendar.sort((a, b) => a.day - b.day || indexOf(a.slot) - indexOf(b.slot))],
    a stable sort. *)
Definition calendarCompare (a b : CalendarEntry) : Z :=
  if bool_decide (m_day a - m_day b = 0)
  then indexOf (TIME_SLOTS K) (m_slot a) - indexOf (TIME_SLOTS K) (m_slot b)
  else m_day a - m_day b.

Fixpoint insertMeeting (x : CalendarEntry) (l : list CalendarEntry)
    : list CalendarEntry :=
  match l with
  | [] => [x]
  | y :: r => if calendarCompare x y <=? 0 then x :: l else y :: insertMeeting x r
  end.

Definition sortCalendar (l : list CalendarEntry) : list CalendarEntry :=
  foldr insertMeeting [] l.

(** [processLog0] is what [finalizeLogging(action.action)] returned,
    [logEntry0] the player-action entry built when a meeting is confirmed
    (preference check and [Date.now()] stamp), [draws] the random draws of
    the advance a conclusion triggers. *)
Definition handlePlayerAction (st : State) (action0 : PlayerAction)
    (processLog0 : option ProcessLogEntry) (logEntry0 : PlayerActionLogEntry)
    (draws : Draws) : State :=
  match characterInFocus st with
  | None => st
  | Some focus =>
      if negb (bool_decide (gameStatus st = playing)) then st
      else
        let s := setIsLoading true st in
        let s := setPersonalizedDialogue st "" s in
        let afterSwitches :=
          if bool_decide (action action0 = "conclude_meeting") then
            let justCompletedSequenceId :=
              match currentMeeting st with
              | Some (sequence, _) => Some (sequence_id sequence)
              | None => None
              end in
            let s := setCurrentMeeting None s in
            let s := advanceTimeAndUpdateFocus st justCompletedSequenceId draws s in
            setIsLoading false s
          else
            let currentScenarioId :=
              match currentMeeting st with
              | Some (sequence, nodeIndex) => nodes sequence !! nodeIndex
              | None =>
                  node_id <$>
                    find (fun sc =>
                            bool_decide (n_stakeholderRole sc = role focus)
                            && negb (includes (completedScenarios (gameState st))
                                       (node_id sc)))
                         (scenarios K)
              end in
            match find (fun sc => bool_decide (Some (node_id sc) = currentScenarioId))
                       (scenarios K) with
            | Some scenario =>
                match find (fun o => bool_decide (option_id o = action action0))
                           (options scenario) with
                | Some opt =>
                    let s := setGameState
                        (applyConsequences st focus scenario opt action0
                           processLog0 (gameState s)) s in
                    let s := setPersonalizedDialogue st
                        (dialogueResponse (consequences opt)) s in
                    let s :=
                      match currentMeeting st with
                      | Some (sequence, nodeIndex) =>
                          if Z.of_nat nodeIndex >=? Z.of_nat (length (nodes sequence)) - 1
                          then setPlayerActions
                                 [{| label := "Finalizar Discusión";
                                     cost := "Continuar";
                                     action := "end_meeting_sequence" |}] s
                          else setPlayerActions
                                 [{| label := "Continuar...";
                                     cost := "Continuar";
                                     action := "continue_meeting_sequence" |}] s
                      | None =>
                          setPlayerActions
                            [{| label := "Concluir Reunión"; cost := "Finalizar";
                                action := "conclude_meeting" |}] s
                      end in
                    let s := setCountdown PERIOD_DURATION s in
                    setIsLoading false s
                | None => setIsLoading false s
                end
            | None => setIsLoading false s
            end in
        let afterMeetingSwitch :=
          if bool_decide (role focus = SECRETARY_ROLE K) then
            if bool_decide (action action0 = "schedule_meeting") then
              let s := setSchedulingState selecting_slot s in
              let s := setPersonalizedDialogue st
                  "Por favor, seleccione un bloque disponible en el calendario para la reunión."
                  s in
              let s := setPlayerActions [] s in
              setIsLoading false s
            else if bool_decide (action action0 = "confirm_schedule") then
              match stakeholderToSchedule st, selectedSlot st with
              | Some toSchedule, Some (slotDay, slot) =>
                  let newMeeting :=
                    {| stakeholderName := name toSchedule; m_day := slotDay;
                       m_slot := slot |} in
                  let prev := gameState s in
                  let s := setGameState
                      (set_calendar_log prev
                         (sortCalendar (calendar prev ++ [newMeeting]))
                         (playerActionsLog prev ++ [logEntry0])) s in
                  let s := returnToSecretary st
                      ("Excelente. He confirmado su reunión con " +:+ name toSchedule
                       +:+ " el día " +:+ pretty slotDay
                       +:+ ", durante el bloque de " +:+ slot +:+ ".") s in
                  let s := setStakeholderToSchedule None s in
                  let s := setSelectedSlot None s in
                  setIsLoading false s
              | _, _ => setIsLoading false s
              end
            else if bool_decide (action action0 = "cancel_schedule") then
              let s := returnToSecretary st
                  "Muy bien, cancelaré la solicitud. ¿Cómo procedemos?" s in
              let s := setStakeholderToSchedule None s in
              let s := setSelectedSlot None s in
              setIsLoading false s
            else afterSwitches
          else afterSwitches in
        match currentMeeting st with
        | Some (sequence, nodeIndex) =>
            if bool_decide (action action0 = "start_meeting_sequence") then
              let firstNodeId := nodes sequence !! 0%nat in
              let s := match find (fun sc => bool_decide (Some (node_id sc) = firstNodeId))
                                  (scenarios K) with
                       | Some scenario => presentScenario st scenario s
                       | None => s
                       end in
              setIsLoading false s
            else if bool_decide (action action0 = "continue_meeting_sequence") then
              let nextNodeIndex := (nodeIndex + 1)%nat in
              let s := setCurrentMeeting (Some (sequence, nextNodeIndex)) s in
              let nextNodeId := nodes sequence !! nextNodeIndex in
              let s := match find (fun sc => bool_decide (Some (node_id sc) = nextNodeId))
                                  (scenarios K) with
                       | Some nextScenario => presentScenario st nextScenario s
                       | None => s
                       end in
              setIsLoading false s
            else if bool_decide (action action0 = "end_meeting_sequence") then
              let s := setPersonalizedDialogue st (finalDialogue sequence) s in
              let s := setPlayerActions
                  [{| label := "Concluir Reunión"; cost := "Finalizar";
                      action := "conclude_meeting" |}] s in
              setIsLoading false s
            else afterMeetingSwitch
        | None => afterMeetingSwitch
        end
  end.

Definition handleStartGame (INITIAL_GAME_STATE : GameState) (name0 : string)
    (firstTab : option string) (st : State) : State :=
  let s := setGameState (set_playerName INITIAL_GAME_STATE name0) st in
  let s := setIsGameStarted true s in
  match firstTab with
  | Some tab => setActiveTab tab s
  | None => s
  end.

(** The effect that runs once the game is started: the secretary takes
    the focus and the welcome email is filed. *)
Definition secretaryEffect (st : State) : State :=
  if negb (isGameStarted st) then st
  else
    match findByRole (SECRETARY_ROLE K) (stakeholders (gameState st)) with
    | Some secretaryChar =>
        let s := setSecretary (Some secretaryChar) st in
        let s := setCharacterInFocus (Some secretaryChar) s in
        let s := setPersonalizedDialogue st
            ("Bienvenido, " +:+ playerName (gameState st)
             +:+ ". El 'Proyecto Quantum Leap' es nuestra máxima prioridad. Estoy aquí para asistirle. ¿Cómo desea proceder?")
            s in
        let s := setPlayerActions getInitialSecretaryActions s in
        let s := setIsTimerPaused true s in
        let prev := gameState s in
        if isSet (find (fun t => bool_decide (t_email_id t = "email-001-welcome"))
                    (EMAIL_TEMPLATES K))
           && negb (existsb (fun e => bool_decide (email_id e = "email-001-welcome"))
                      (inbox prev))
        then setGameState
               (set_inbox prev
                  (inbox prev ++ [{| email_id := "email-001-welcome";
                                     dayReceived := 1; isRead := false |}])) s
        else s
    | None => st
    end.

(** The effect that restores the secretary's actions. *)
Definition secretaryActionsEffect (st : State) : State :=
  match characterInFocus st with
  | Some focus =>
      if bool_decide (role focus = SECRETARY_ROLE K)
         && bool_decide (schedulingState st = none)
      then setPlayerActions getInitialSecretaryActions st
      else st
  | None => st
  end.

Definition handleRequestMeeting (stakeholder : Stakeholder) (st : State) : State :=
  match secretary st, selectedSlot st with
  | Some sec, Some (slotDay, slot) =>
      let s := setSchedulingState confirming_schedule st in
      let s := setCharacterInFocus (Some sec) s in
      let s := setStakeholderToSchedule (Some stakeholder) s in
      let s := setPersonalizedDialogue st
          ("Desea agendar una reunión con " +:+ name stakeholder +:+ " el día "
           +:+ pretty slotDay +:+ ", en el bloque de " +:+ slot
           +:+ ". ¿Confirmo la cita?") s in
      setPlayerActions
        [{| label := "Sí, confirmar."; cost := "Confirmar";
            action := "confirm_schedule" |};
         {| label := "No, cancelar."; cost := "Cancelar";
            action := "cancel_schedule" |}] s
  | _, _ => st
  end.

Definition handleSlotSelect (day0 : Z) (slot : TimeSlotType) (st : State) : State :=
  let s := setSelectedSlot (Some (day0, slot)) st in
  let s := setSchedulingState selecting_stakeholder s in
  setPersonalizedDialogue st
    ("Ha seleccionado el bloque de " +:+ slot +:+ ", día " +:+ pretty day0
     +:+ ". ¿Con quién desea reunirse?") s.

(** [logEntry0] is the player-action entry built for the reading, with
    its [Date.now()] stamp. *)
Definition handleMarkEmailAsRead (emailId : string)
    (logEntry0 : PlayerActionLogEntry) (st : State) : State :=
  let prev := gameState st in
  let updatedInbox :=
    map (fun email => if bool_decide (email_id email = emailId)
                      then set_isRead email true else email)
        (inbox prev) in
  let emailTemplate :=
    find (fun t => bool_decide (t_email_id t = emailId)) (EMAIL_TEMPLATES K) in
  let updatedPreferences :=
    match emailTemplate with
    | Some template =>
        match grants_information template with
        | Some info =>
            if truthy info
               && bool_decide (trigger_type template = "ON_MEETING_COMPLETE")
            then <[trigger_stakeholder_id template := info]>
                   (stakeholder_preferences prev)
            else stakeholder_preferences prev
        | None => stakeholder_preferences prev
        end
    | None => stakeholder_preferences prev
    end in
  setGameState
    (set_inbox_preferences_log prev updatedInbox updatedPreferences
       (playerActionsLog prev ++ [logEntry0])) st.

End WithContent.
End Innovatec.

(** ** Vocabulary of the properties *)

(** A commitment that the rollover into [nextDay] breaks: pending, and due
    before [nextDay]. *)
Definition overdue (nextDay : Z) (c : Commitment) : bool :=
  bool_decide (c_status c = pending) && (dayDue c <? nextDay).

Definition breakOverdue (nextDay : Z) (c : Commitment) : Commitment :=
  if overdue nextDay c then set_c_status c broken else c.

(** How many commitments the rollover into [nextDay] newly breaks. *)
Definition newlyBroken (nextDay : Z) (cs : list Commitment) : Z :=
  Z.of_nat (length (List.filter (overdue nextDay) cs)).

(** The slot index overflows: the advance crosses a day boundary. *)
Definition dayBoundary (K : Content) (g : GameState) : Prop :=
  Z.of_nat (length (TIME_SLOTS K)) <= indexOf (TIME_SLOTS K) (timeSlot g) + 1.

#[global] Instance dayBoundary_dec K g : Decision (dayBoundary K g).
Proof. unfold dayBoundary. apply _. Defined.

(** The clock position one period after that of [g]. *)
Definition nextDayOf (K : Content) (g : GameState) : Z :=
  if bool_decide (dayBoundary K g) then day g + 1 else day g.

Definition nextSlotOf (K : Content) (g : GameState) : TimeSlotType :=
  if bool_decide (dayBoundary K g) then first_slot K
  else default (first_slot K)
         (TIME_SLOTS K !! Z.to_nat (indexOf (TIME_SLOTS K) (timeSlot g) + 1)).

(** Not met in the last three days, the secretary excepted; a stakeholder
    never met counts as met on day 0. *)
Definition neglected (K : Content) (currentDay : Z) (sh : Stakeholder) : bool :=
  negb (bool_decide (role sh = SECRETARY_ROLE K))
  && (default 0 (lastMetDay sh) <? currentDay - 3).

Definition neglectPenalty (K : Content) (currentDay : Z) (sh : Stakeholder) : Z :=
  if neglected K currentDay sh then 2 else 0.

(** Rollover processing in the words of the specification: every overdue
    pending commitment becomes broken and trust drops by 20 for each of
    them, floored at 0. *)
Definition rolloverApp (nextDay : Z) (sh : Stakeholder) : Stakeholder :=
  set_commitments_trust sh
    (map (breakOverdue nextDay) (commitments sh))
    (Z.max 0 (trust sh - 20 * newlyBroken nextDay (commitments sh))).

(** The variant rule: the flat neglect penalty on top. *)
Definition rolloverInnovatec (K : Content) (currentDay : Z) (sh : Stakeholder)
  : Stakeholder :=
  set_commitments_trust sh
    (map (breakOverdue (currentDay + 1)) (commitments sh))
    (Z.max 0 (trust sh - 20 * newlyBroken (currentDay + 1) (commitments sh)
              - neglectPenalty K currentDay sh)).

Definition validStakeholder (sh : Stakeholder) : Prop :=
  (0 <= trust sh <= 100) /\ (minSupport sh <= support sh <= maxSupport sh).

Definition validState (g : GameState) : Prop :=
  Forall validStakeholder (stakeholders g)
  /\ (0 <= reputation g <= 100) /\ (0 <= projectProgress g <= 100).

(** Every snapshot in [history] is of a day before the current one. *)
Definition historyFresh (g : GameState) : Prop :=
  forall k, is_Some (history g !! k) -> k < day g.

(** The game state that [advanceTimeAndUpdateFocus] hands to [advanceTime]
    in the default game. *)
Definition App_stateAfterMeetingEnd (K : Content) (cl : App.State)
    (justCompletedSequenceId : option string) : GameState :=
  let g := App.gameState cl in
  let g1 :=
    match justCompletedSequenceId with
    | Some id =>
        if truthy id && negb (includes (completedSequences g) id)
        then set_completedSequences g (completedSequences g ++ [id]) else g
    | None => g
    end in
  match App.characterInFocus cl with
  | Some focus =>
      if negb (bool_decide (role focus = SECRETARY_ROLE K))
      then set_stakeholders g1
             (map (fun sh => if bool_decide (name sh = name focus)
                             then set_lastMetDay sh (day g) else sh)
                  (stakeholders g1))
      else g1
  | None => g1
  end.

(** The same in the Innovatec game, where an availability email may be
    filed first. *)
Definition Innovatec_stateAfterMeetingEnd (K : Content) (cl : Innovatec.State)
    (justCompletedSequenceId : option string) (draws : Innovatec.Draws)
  : GameState :=
  let g := Innovatec.gameState cl in
  let g1 :=
    match justCompletedSequenceId with
    | Some id =>
        if truthy id && negb (includes (completedSequences g) id)
        then set_completedSequences g (completedSequences g ++ [id]) else g
    | None => g
    end in
  let g2 :=
    match Innovatec.characterInFocus cl, justCompletedSequenceId with
    | Some previous, Some id =>
        if truthy id then
          if negb (existsb
                     (fun inboxEmail =>
                        match find (fun t => bool_decide
                                        (t_email_id t = email_id inboxEmail))
                                   (EMAIL_TEMPLATES K) with
                        | Some template =>
                            Innovatec.isAvailabilityTemplateFor previous template
                        | None => false
                        end)
                     (inbox g1))
          then
            match List.filter (Innovatec.isAvailabilityTemplateFor previous)
                    (EMAIL_TEMPLATES K) !! Innovatec.templateIndex draws with
            | Some chosenTemplate =>
                set_inbox g1
                  (inbox g1 ++ [{| email_id := t_email_id chosenTemplate;
                                   dayReceived := day g1; isRead := false |}])
            | None => g1
            end
          else g1
        else g1
    | _, _ => g1
    end in
  match Innovatec.characterInFocus cl with
  | Some previous =>
      if negb (bool_decide (role previous = SECRETARY_ROLE K))
      then set_stakeholders g2
             (map (fun sh => if bool_decide (name sh = name previous)
                             then set_lastMetDay sh (day g2) else sh)
                  (stakeholders g2))
      else g2
  | None => g2
  end.




(** The action names the default game's handler serves itself; an option
    with one of these ids cannot be chosen. *)
Definition flowActions : list string :=
  ["open_conflicted_schedule"; "start_meeting_sequence";
   "continue_meeting_sequence"; "end_meeting_sequence"; "conclude_meeting"].

(** The same for the Innovatec game, whose secretary also serves the
    scheduling actions. *)
Definition innovatecFlowActions : list string :=
  ["start_meeting_sequence"; "continue_meeting_sequence";
   "end_meeting_sequence"; "conclude_meeting";
   "schedule_meeting"; "confirm_schedule"; "cancel_schedule"].

(** The action the handler offers once an option of node [n] is chosen. *)
Definition followUp (sequence : MeetingSequence) (n : nat) : PlayerAction :=
  if (n + 1 <? length (nodes sequence))%nat
  then {| label := "Continuar..."; cost := "Continuar";
          action := "continue_meeting_sequence" |}
  else {| label := "Finalizar Discusión"; cost := "Continuar";
          action := "end_meeting_sequence" |}.


(** The actions a presented scenario offers: one per option. *)
Definition optionActions (scenario : ScenarioNode) : list PlayerAction :=
  map (fun opt => {| label := text opt; action := option_id opt; cost := "Decisión" |})
      (options scenario).

(** No option of the catalogue has the id [a]. *)
Definition noOptionNamed (K : Content) (a : string) : Prop :=
  forall sc, In sc (scenarios K) -> forall o, In o (options sc) -> option_id o <> a.







(** ** Sample content and states *)

Module Sample.

Definition objectives : DirectorObjectives :=
  {| minProgress := 100; requiredStakeholdersRoles := ["Jefe Sector Azul"];
     minTrustWithRequired := 20; maxDeadline := 30; minBudget := 0;
     minReputation := 20 |}.

Definition costly : Consequences :=
  {| trustChange := Some 15; supportChange := Some (-3);
     budgetChange := Some (-500); reputationChange := Some 5;
     projectProgressChange := Some 10;
     dialogueResponse := "De acuerdo."; expected_actions := None |}.

Definition node0 : ScenarioNode :=
  {| node_id := "N0"; n_stakeholderRole := "Jefe Sector Azul";
     dialogue := "Hola {playerName}.";
     options := [{| option_id := "A"; text := "Aceptar"; consequences := costly |}] |}.

Definition storm : MeetingSequence :=
  {| sequence_id := "EVENT_STORM"; stakeholderRole := "Jefa Sector Rojo";
     nodes := ["N0"]; initialDialogue := "Tormenta."; finalDialogue := "Fin.";
     isInevitable := true; isContingent := false; contingentRules := None;
     triggerMap := Some (1, "tarde") |}.

Definition budgetAlarm : MeetingSequence :=
  {| sequence_id := "BUDGET_ALARM"; stakeholderRole := "Jefe Sector Azul";
     nodes := ["N0"]; initialDialogue := "Presupuesto."; finalDialogue := "Fin.";
     isInevitable := false; isContingent := true;
     contingentRules :=
       Some {| budgetBelow := Some 1000; trustBelow := None;
               supportBelow := None; r_stakeholderRole := None |};
     triggerMap := None |}.

Definition unnamedSeq : MeetingSequence :=
  {| sequence_id := ""; stakeholderRole := "Jefe Sector Azul";
     nodes := ["N0"]; initialDialogue := "Hola."; finalDialogue := "Fin.";
     isInevitable := false; isContingent := false; contingentRules := None;
     triggerMap := None |}.

Definition content : Content :=
  {| first_slot := "mañana"; later_slots := ["tarde"; "noche"];
     SECRETARY_ROLE := "Secretaria"; DIRECTOR_OBJECTIVES := objectives;
     sequences := [storm; budgetAlarm]; scenarios := [node0];
     EMAIL_TEMPLATES := [] |}.

Definition promise : Commitment :=
  {| description := "Informe"; dayDue := 5; c_status := pending |}.

Definition guzman : Stakeholder :=
  {| sh_id := "azul"; name := "Guzmán"; role := "Jefe Sector Azul";
     trust := 90; support := 2; minSupport := (-5); maxSupport := 5;
     sh_status := normal; mood := "neutral"; lastMetDay := None;
     commitments := [promise] |}.

Definition secretaria : Stakeholder :=
  {| sh_id := "sec"; name := "Laura"; role := "Secretaria";
     trust := 50; support := 0; minSupport := 0; maxSupport := 0;
     sh_status := normal; mood := "neutral"; lastMetDay := None;
     commitments := [] |}.

Definition soto : Stakeholder :=
  {| sh_id := "rojo"; name := "Soto"; role := "Jefa Sector Rojo";
     trust := 60; support := 1; minSupport := (-5); maxSupport := 5;
     sh_status := normal; mood := "neutral"; lastMetDay := Some 4;
     commitments := [] |}.

Definition gameAt (d : Z) (slot : TimeSlotType) (progress : Z)
    (shs : list Stakeholder) : GameState :=
  {| playerName := "Ana"; day := d; timeSlot := slot; budget := 800;
     reputation := 50; projectProgress := progress;
     stakeholders := shs;
     completedSequences := []; completedScenarios := []; eventsLog := [];
     history := ∅; scenarioSchedule := {["EVENT_STORM" := (1, "tarde")]};
     criticalWarnings := []; inbox := []; calendar := []; decisionLog := [];
     processLog := []; playerActionsLog := []; playerNotes := "";
     weeklySchedule := []; readDocuments := [];
     stakeholder_preferences := ∅ |}.

(** Day 5, last slot of the day, one promise due that day. *)
Definition evening5 : GameState := gameAt 5 "noche" 40 [guzman; secretaria].

(** Day 1, afternoon: the scheduled slot of [storm], whose stakeholder is
    absent. *)
Definition afternoon1 : GameState := gameAt 1 "tarde" 40 [guzman; secretaria].

(** The same with the stakeholder of [storm] present. *)
Definition afternoon1Full : GameState :=
  gameAt 1 "tarde" 40 [guzman; soto; secretaria].


Definition appState (g : GameState) (focus : option Stakeholder)
    (meeting : option (MeetingSequence * nat)) (status : GameStatus) : App.State :=
  {| App.appStep := App.game; App.gameState := g;
     App.characterInFocus := focus; App.currentDialogue := "";
     App.playerActions := []; App.isLoading := false;
     App.activeTab := "interaction"; App.countdown := 1;
     App.isTimerPaused := false; App.gameStatus := status;
     App.endGameMessage := ""; App.currentMeeting := meeting;
     App.warningPopupMessage := None |}.

Definition innovatecState (g : GameState) (focus : option Stakeholder)
    (meeting : option (MeetingSequence * nat)) (status : GameStatus)
  : Innovatec.State :=
  {| Innovatec.isGameStarted := true; Innovatec.gameState := g;
     Innovatec.secretary := Some secretaria;
     Innovatec.characterInFocus := focus; Innovatec.currentDialogue := "Hola.";
     Innovatec.playerActions := []; Innovatec.isLoading := false;
     Innovatec.activeTab := "interaction";
     Innovatec.schedulingState := Innovatec.none;
     Innovatec.selectedSlot := None; Innovatec.stakeholderToSchedule := None;
     Innovatec.countdown := 1; Innovatec.isTimerPaused := false;
     Innovatec.gameStatus := status; Innovatec.endGameMessage := "";
     Innovatec.currentMeeting := meeting;
     Innovatec.warningPopupMessage := None |}.

Definition draws : Innovatec.Draws :=
  {| Innovatec.templateIndex := 0%nat; Innovatec.belowCancelThreshold := false |}.

Definition act (a : string) : PlayerAction :=
  {| label := a; cost := ""; action := a |}.

End Sample.


(** A catalogue with two proactive sequences of one role, the later of
    the catalogue bearing the lower order number. *)
Module SampleMap.

Definition azul2 : MeetingSequence :=
  {| sequence_id := "AZUL_2"; stakeholderRole := "Jefe Sector Azul";
     nodes := ["N0"]; initialDialogue := "Segunda."; finalDialogue := "Fin.";
     isInevitable := false; isContingent := false; contingentRules := None;
     triggerMap := None |}.

Definition azul1 : MeetingSequence :=
  {| sequence_id := "AZUL_1"; stakeholderRole := "Jefe Sector Azul";
     nodes := ["N0"]; initialDialogue := "Primera."; finalDialogue := "Fin.";
     isInevitable := false; isContingent := false; contingentRules := None;
     triggerMap := None |}.

Definition content : Content :=
  {| first_slot := "mañana"; later_slots := ["tarde"; "noche"];
     SECRETARY_ROLE := "Secretaria"; DIRECTOR_OBJECTIVES := Sample.objectives;
     sequences := [azul2; azul1]; scenarios := [Sample.node0];
     EMAIL_TEMPLATES := [] |}.

Definition staff : App.StaffMember :=
  {| App.staff_id := "azul"; App.staff_name := "Guzmán" |}.

(** Day 2, morning, nobody in focus. *)
Definition morning2 : App.State :=
  Sample.appState (Sample.gameAt 2 "mañana" 40 [Sample.guzman; Sample.secretaria])
    None None playing.

(** A state whose slot is none of the configured ones. *)
Definition small_hours : GameState :=
  Sample.gameAt 3 "madrugada" 40 [Sample.guzman].

End SampleMap.



(** ** Lemmas on the helpers *)

Lemma brokenCount_cons c cs :
  brokenCount (c :: cs) = (if isBroken c then 1 else 0) + brokenCount cs.
Proof.
  unfold brokenCount. rewrite filter_cons.
  destruct (isBroken c) eqn:E.
  - rewrite decide_True by done. simpl length. lia.
  - rewrite decide_False by congruence. lia.
Qed.

Lemma isBroken_breakOverdue nextDay c :
  (if isBroken (breakOverdue nextDay c) then 1 else 0)
  = (if isBroken c then 1 else 0) + (if overdue nextDay c then 1 else 0).
Proof.
  unfold breakOverdue, overdue, isBroken.
  destruct c as [d dd []]; simpl; destruct (dd <? nextDay); reflexivity.
Qed.

Lemma brokenCount_breakOverdue nextDay cs :
  brokenCount (map (breakOverdue nextDay) cs) - brokenCount cs
  = newlyBroken nextDay cs.
Proof.
  unfold newlyBroken.
  induction cs as [|c cs IH]; [reflexivity|].
  simpl map. rewrite !brokenCount_cons, isBroken_breakOverdue.
  simpl List.filter. destruct (overdue nextDay c); simpl length; lia.
Qed.

Lemma newlyBroken_nonneg nextDay cs : 0 <= newlyBroken nextDay cs.
Proof. unfold newlyBroken. lia. Qed.

Lemma code_break_is_breakOverdue nextDay cs :
  map (fun c : Commitment =>
         if bool_decide (c_status c = pending) && (nextDay >? dayDue c)
         then set_c_status c broken else c) cs
  = map (breakOverdue nextDay) cs.
Proof.
  apply map_ext. intros c. unfold breakOverdue, overdue.
  now rewrite Z.gtb_ltb.
Qed.

Lemma dayBoundary_test K g :
  (indexOf (TIME_SLOTS K) (timeSlot g) + 1 >=? Z.of_nat (length (TIME_SLOTS K)))
  = bool_decide (dayBoundary K g).
Proof.
  unfold dayBoundary. rewrite Z.geb_leb.
  destruct (Z.leb_spec (Z.of_nat (length (TIME_SLOTS K)))
              (indexOf (TIME_SLOTS K) (timeSlot g) + 1)).
  - now rewrite bool_decide_eq_true_2.
  - rewrite bool_decide_eq_false_2; [reflexivity | lia].
Qed.

Lemma App_advanceTime_boundary K g :
  dayBoundary K g ->
  App.advanceTime K g
  = set_eventsLog
      (set_stakeholders
         (set_clock g (day g + 1) (first_slot K)
            (<[day g := stakeholders g]> (history g)))
         (map (rolloverApp (day g + 1)) (stakeholders g)))
      (eventsLog g ++ ["Ha comenzado el día " +:+ pretty (day g + 1) +:+ "."]).
Proof.
  intros Hb. unfold App.advanceTime. cbv zeta.
  rewrite dayBoundary_test, bool_decide_eq_true_2 by exact Hb.
  assert (Hgt : (day g + 1 >? day g) = true) by (rewrite Z.gtb_ltb; apply Z.ltb_lt; lia).
  rewrite Hgt. simpl. unfold set_eventsLog, set_stakeholders, set_clock; simpl.
  f_equal. apply map_ext. intros sh. unfold rolloverApp.
  rewrite code_break_is_breakOverdue, brokenCount_breakOverdue.
  f_equal. f_equal. lia.
Qed.

Lemma App_advanceTime_same_day K g :
  ~ dayBoundary K g ->
  App.advanceTime K g
  = set_clock g (day g)
      (default (first_slot K)
         (TIME_SLOTS K !! Z.to_nat (indexOf (TIME_SLOTS K) (timeSlot g) + 1)))
      (history g).
Proof.
  intros Hb. unfold App.advanceTime. cbv zeta.
  rewrite dayBoundary_test, bool_decide_eq_false_2 by exact Hb.
  assert (Hgt : (day g >? day g) = false) by (rewrite Z.gtb_ltb; apply Z.ltb_ge; lia).
  rewrite Hgt. unfold set_eventsLog, set_clock; simpl.
  now rewrite app_nil_r.
Qed.

Lemma breakCommitments_fst sh nextDay cs ev :
  fst (Innovatec.breakCommitments sh nextDay cs ev) = map (breakOverdue nextDay) cs.
Proof.
  revert ev. induction cs as [|c cs IH]; intros ev; [reflexivity|].
  simpl. unfold breakOverdue at 1, overdue. rewrite Z.gtb_ltb.
  destruct (bool_decide (c_status c = pending) && (dayDue c <? nextDay)).
  - specialize (IH (ev ++ ["¡Promesa a " +:+ name sh +:+ " ('" +:+ description c
                           +:+ "') rota! La confianza ha sido dañada."])).
    destruct (Innovatec.breakCommitments sh nextDay cs _); simpl in *. now f_equal.
  - specialize (IH ev).
    destruct (Innovatec.breakCommitments sh nextDay cs ev); simpl in *. now f_equal.
Qed.

Lemma rolloverStakeholder_fst K currentDay sh ev :
  fst (Innovatec.rolloverStakeholder K currentDay (currentDay + 1) sh ev)
  = rolloverInnovatec K currentDay sh.
Proof.
  unfold Innovatec.rolloverStakeholder, rolloverInnovatec.
  pose proof (breakCommitments_fst sh (currentDay + 1) (commitments sh) ev) as Hf.
  destruct (Innovatec.breakCommitments sh (currentDay + 1) (commitments sh) ev)
    as [cs' ev']; simpl in *. subst cs'.
  rewrite brokenCount_breakOverdue. unfold neglectPenalty, neglected.
  destruct (negb (bool_decide (role sh = SECRETARY_ROLE K))
            && (default 0 (lastMetDay sh) <? currentDay - 3));
    f_equal; f_equal; lia.
Qed.

Lemma rolloverStakeholders_fst K currentDay shs ev :
  fst (Innovatec.rolloverStakeholders K currentDay (currentDay + 1) shs ev)
  = map (rolloverInnovatec K currentDay) shs.
Proof.
  revert ev. induction shs as [|sh shs IH]; intros ev; [reflexivity|].
  simpl.
  pose proof (rolloverStakeholder_fst K currentDay sh ev) as Hs.
  destruct (Innovatec.rolloverStakeholder K currentDay (currentDay + 1) sh ev)
    as [sh' ev']; simpl in Hs. subst sh'.
  specialize (IH ev').
  destruct (Innovatec.rolloverStakeholders K currentDay (currentDay + 1) shs ev');
    simpl in *. now f_equal.
Qed.

Lemma Innovatec_advanceTime_boundary K g :
  dayBoundary K g ->
  Innovatec.advanceTime K g
  = set_eventsLog
      (set_stakeholders
         (set_clock g (day g + 1) (first_slot K)
            (<[day g := stakeholders g]> (history g)))
         (map (rolloverInnovatec K (day g)) (stakeholders g)))
      (eventsLog g
       ++ snd (Innovatec.rolloverStakeholders K (day g) (day g + 1) (stakeholders g)
                 ["Ha comenzado el día " +:+ pretty (day g + 1)
                  +:+ ". Un nuevo día trae nuevos desafíos."])).
Proof.
  intros Hb. unfold Innovatec.advanceTime. cbv zeta.
  rewrite dayBoundary_test, bool_decide_eq_true_2 by exact Hb.
  assert (Hgt : (day g + 1 >? day g) = true) by (rewrite Z.gtb_ltb; apply Z.ltb_lt; lia).
  rewrite Hgt. simpl stakeholders.
  pose proof (rolloverStakeholders_fst K (day g) (stakeholders g)
                ["Ha comenzado el día " +:+ pretty (day g + 1)
                 +:+ ". Un nuevo día trae nuevos desafíos."]) as Hf.
  destruct (Innovatec.rolloverStakeholders K (day g) (day g + 1) (stakeholders g) _)
    as [shs' ev']; simpl in Hf. subst shs'. reflexivity.
Qed.

Lemma Innovatec_advanceTime_same_day K g :
  ~ dayBoundary K g ->
  Innovatec.advanceTime K g
  = set_clock g (day g)
      (default (first_slot K)
         (TIME_SLOTS K !! Z.to_nat (indexOf (TIME_SLOTS K) (timeSlot g) + 1)))
      (history g).
Proof.
  intros Hb. unfold Innovatec.advanceTime. cbv zeta.
  rewrite dayBoundary_test, bool_decide_eq_false_2 by exact Hb.
  assert (Hgt : (day g >? day g) = false) by (rewrite Z.gtb_ltb; apply Z.ltb_ge; lia).
  rewrite Hgt. unfold set_eventsLog, set_clock; simpl.
  now rewrite app_nil_r.
Qed.

(** The fields of the state after one advance. *)
Ltac advance_cases K g :=
  unfold nextDayOf, nextSlotOf;
  destruct (decide (dayBoundary K g)) as [Hb|Hb];
  [ rewrite ?(App_advanceTime_boundary K g Hb),
            ?(Innovatec_advanceTime_boundary K g Hb),
            ?bool_decide_eq_true_2 by exact Hb
  | rewrite ?(App_advanceTime_same_day K g Hb),
            ?(Innovatec_advanceTime_same_day K g Hb),
            ?bool_decide_eq_false_2 by exact Hb ].

Lemma App_advanceTime_clock K g :
  day (App.advanceTime K g) = nextDayOf K g
  /\ timeSlot (App.advanceTime K g) = nextSlotOf K g.
Proof. advance_cases K g; split; reflexivity. Qed.

Lemma Innovatec_advanceTime_clock K g :
  day (Innovatec.advanceTime K g) = nextDayOf K g
  /\ timeSlot (Innovatec.advanceTime K g) = nextSlotOf K g.
Proof. advance_cases K g; split; reflexivity. Qed.

Lemma App_advanceTime_stakeholders K g :
  stakeholders (App.advanceTime K g)
  = if bool_decide (dayBoundary K g)
    then map (rolloverApp (day g + 1)) (stakeholders g)
    else stakeholders g.
Proof. advance_cases K g; reflexivity. Qed.

Lemma Innovatec_advanceTime_stakeholders K g :
  stakeholders (Innovatec.advanceTime K g)
  = if bool_decide (dayBoundary K g)
    then map (rolloverInnovatec K (day g)) (stakeholders g)
    else stakeholders g.
Proof. advance_cases K g; reflexivity. Qed.

Lemma App_advanceTime_history K g :
  history (App.advanceTime K g)
  = if bool_decide (dayBoundary K g)
    then <[day g := stakeholders g]> (history g)
    else history g.
Proof. advance_cases K g; reflexivity. Qed.

Lemma Innovatec_advanceTime_history K g :
  history (Innovatec.advanceTime K g)
  = if bool_decide (dayBoundary K g)
    then <[day g := stakeholders g]> (history g)
    else history g.
Proof. advance_cases K g; reflexivity. Qed.

Lemma App_advanceTime_frame K g :
  budget (App.advanceTime K g) = budget g
  /\ reputation (App.advanceTime K g) = reputation g
  /\ projectProgress (App.advanceTime K g) = projectProgress g
  /\ completedSequences (App.advanceTime K g) = completedSequences g.
Proof. advance_cases K g; repeat split; reflexivity. Qed.

Lemma Innovatec_advanceTime_frame K g :
  budget (Innovatec.advanceTime K g) = budget g
  /\ reputation (Innovatec.advanceTime K g) = reputation g
  /\ projectProgress (Innovatec.advanceTime K g) = projectProgress g
  /\ completedSequences (Innovatec.advanceTime K g) = completedSequences g.
Proof. advance_cases K g; repeat split; reflexivity. Qed.

Lemma neglectPenalty_nonneg K d sh : 0 <= neglectPenalty K d sh.
Proof. unfold neglectPenalty. destruct (neglected K d sh); lia. Qed.

(** Validity is kept by the rollover of one stakeholder. *)
Lemma rolloverApp_valid nextDay sh :
  validStakeholder sh -> validStakeholder (rolloverApp nextDay sh).
Proof.
  unfold validStakeholder, rolloverApp; simpl.
  pose proof (newlyBroken_nonneg nextDay (commitments sh)). lia.
Qed.

Lemma rolloverInnovatec_valid K d sh :
  validStakeholder sh -> validStakeholder (rolloverInnovatec K d sh).
Proof.
  unfold validStakeholder, rolloverInnovatec; simpl.
  pose proof (newlyBroken_nonneg (d + 1) (commitments sh)).
  pose proof (neglectPenalty_nonneg K d sh). lia.
Qed.

Lemma App_advanceTime_valid K g :
  validState g -> validState (App.advanceTime K g).
Proof.
  intros (Hs & Hr & Hp). unfold validState.
  rewrite App_advanceTime_stakeholders.
  destruct (App_advanceTime_frame K g) as (_ & -> & -> & _).
  split; [|split; assumption].
  destruct (bool_decide (dayBoundary K g)); [|assumption].
  apply Forall_map. eapply Forall_impl; [exact Hs|]. apply rolloverApp_valid.
Qed.

Lemma Innovatec_advanceTime_valid K g :
  validState g -> validState (Innovatec.advanceTime K g).
Proof.
  intros (Hs & Hr & Hp). unfold validState.
  rewrite Innovatec_advanceTime_stakeholders.
  destruct (Innovatec_advanceTime_frame K g) as (_ & -> & -> & _).
  split; [|split; assumption].
  destruct (bool_decide (dayBoundary K g)); [|assumption].
  apply Forall_map. eapply Forall_impl; [exact Hs|]. apply rolloverInnovatec_valid.
Qed.

(** Validity is kept by the application of consequences. *)
Lemma clamped_stakeholder_valid sh dt ds :
  validStakeholder sh ->
  validStakeholder
    (set_trust_support sh
       (Z.max 0 (Z.min 100 (trust sh + dt)))
       (Z.max (minSupport sh) (Z.min (maxSupport sh) (support sh + ds)))).
Proof. unfold validStakeholder; simpl. lia. Qed.

Lemma App_applyConsequences_valid focus scenario opt a pl g :
  validState g ->
  validState (App.applyConsequences focus scenario opt a pl g).
Proof.
  intros (Hs & Hr & Hp). unfold validState, App.applyConsequences; simpl.
  split; [|lia].
  apply Forall_map. eapply Forall_impl; [exact Hs|]. intros sh Hsh. simpl.
  destruct (bool_decide (name sh = name focus)); [|assumption].
  now apply clamped_stakeholder_valid.
Qed.

Lemma Innovatec_applyConsequences_valid cl focus scenario opt a pl g :
  validState g ->
  validState (Innovatec.applyConsequences cl focus scenario opt a pl g).
Proof.
  intros (Hs & Hr & Hp). unfold validState, Innovatec.applyConsequences; simpl.
  split; [|lia].
  apply Forall_map. eapply Forall_impl; [exact Hs|]. intros sh Hsh. simpl.
  destruct (bool_decide (name sh = name focus)); [|assumption].
  now apply clamped_stakeholder_valid.
Qed.

(** The state handed to [advanceTime] when a meeting ends. *)
Lemma markMet_valid (p : Stakeholder -> bool) d shs :
  Forall validStakeholder shs ->
  Forall validStakeholder (map (fun sh => if p sh then set_lastMetDay sh d else sh) shs).
Proof.
  intros H. apply Forall_map. eapply Forall_impl; [exact H|]. intros sh Hsh. simpl.
  destruct (p sh); [exact Hsh | exact Hsh].
Qed.

Lemma App_advanceTimeAndUpdateFocus_gameState K cl just s :
  App.gameState (App.advanceTimeAndUpdateFocus K cl just s)
  = App.advanceTime K (App_stateAfterMeetingEnd K cl just).
Proof. reflexivity. Qed.

Lemma set_calendar_log_id g :
  set_calendar_log g (calendar g) (playerActionsLog g) = g.
Proof. destruct g; reflexivity. Qed.

Lemma Innovatec_advanceTimeAndUpdateFocus_gameState K cl just draws s :
  exists cal,
    Innovatec.gameState (Innovatec.advanceTimeAndUpdateFocus K cl just draws s)
    = let n := Innovatec.advanceTime K (Innovatec_stateAfterMeetingEnd K cl just draws) in
      set_calendar_log n cal (playerActionsLog n).
Proof.
  unfold Innovatec.advanceTimeAndUpdateFocus. cbv zeta.
  match goal with
  | |- context [Innovatec.advanceTime K ?x] =>
      assert (Hx : x = Innovatec_stateAfterMeetingEnd K cl just draws)
  end.
  { unfold Innovatec_stateAfterMeetingEnd. cbv zeta.
    destruct (Innovatec.characterInFocus cl) as [prev|], just as [id|];
      try reflexivity; destruct (truthy id); reflexivity. }
  rewrite Hx. clear Hx.
  set (n := Innovatec.advanceTime K (Innovatec_stateAfterMeetingEnd K cl just draws)).
  repeat case_match; unfold Innovatec.returnToSecretary, Innovatec.presentScenario,
    Innovatec.setPersonalizedDialogue; repeat case_match; simpl;
    eauto using eq_sym, set_calendar_log_id.
Qed.

(** The game state a player action leaves behind: untouched, with the
    consequences of an option applied, or advanced after a meeting's end. *)
Lemma App_handlePlayerAction_gameState K st a pl :
  let g' := App.gameState (App.handlePlayerAction K st a pl) in
  g' = App.gameState st
  \/ (exists focus scenario opt,
        g' = App.applyConsequences focus scenario opt a pl (App.gameState st))
  \/ (exists just, g' = App.advanceTime K (App_stateAfterMeetingEnd K st just)).
Proof.
  unfold App.handlePlayerAction. cbv zeta.
  repeat case_match;
    try (right; right;
         match goal with
         | |- context [App.advanceTimeAndUpdateFocus K st ?j ?s] =>
             exists j; reflexivity
         end);
    unfold App.handleSetupScheduleWar, App.presentScenario;
    repeat case_match; simpl; eauto 8.
Qed.

Lemma Innovatec_handlePlayerAction_gameState K st a pl le draws :
  let g' := Innovatec.gameState (Innovatec.handlePlayerAction K st a pl le draws) in
  (exists cal lg, g' = set_calendar_log (Innovatec.gameState st) cal lg)
  \/ (exists focus scenario opt,
        g' = Innovatec.applyConsequences st focus scenario opt a pl
               (Innovatec.gameState st))
  \/ (exists just cal,
        g' = let n := Innovatec.advanceTime K
                        (Innovatec_stateAfterMeetingEnd K st just draws) in
             set_calendar_log n cal (playerActionsLog n)).
Proof.
  unfold Innovatec.handlePlayerAction. cbv zeta.
  assert (Hid : exists cal lg,
             Innovatec.gameState st
             = set_calendar_log (Innovatec.gameState st) cal lg)
    by (eexists _, _; symmetry; apply set_calendar_log_id).
  repeat case_match;
    try (right; right;
         match goal with
         | |- context [Innovatec.advanceTimeAndUpdateFocus K st ?j draws ?s] =>
             destruct (Innovatec_advanceTimeAndUpdateFocus_gameState K st j draws s)
               as [cal Hcal];
             exists j, cal; simpl; exact Hcal
         end);
    unfold Innovatec.returnToSecretary, Innovatec.presentScenario;
    repeat case_match; simpl; eauto 8.
Qed.

Lemma set_calendar_log_valid g cal lg :
  validState g -> validState (set_calendar_log g cal lg).
Proof. intros H; exact H. Qed.

Lemma completed_step_valid g (b : bool) l :
  validState g -> validState (if b then set_completedSequences g l else g).
Proof. intros H; destruct b; exact H. Qed.

Lemma App_stateAfterMeetingEnd_valid K cl just :
  validState (App.gameState cl) ->
  validState (App_stateAfterMeetingEnd K cl just).
Proof.
  intros H. unfold App_stateAfterMeetingEnd. cbv zeta.
  set (g1 := match just with Some _ => _ | None => _ end).
  assert (H1 : validState g1).
  { subst g1. destruct just; [apply completed_step_valid|]; exact H. }
  clearbody g1.
  destruct (App.characterInFocus cl) as [focus|]; [|exact H1].
  destruct (negb _); [|exact H1].
  destruct H1 as (Hs & Hr & Hp). split; [|split; assumption].
  simpl. now apply markMet_valid.
Qed.

Lemma Innovatec_stateAfterMeetingEnd_valid K cl just draws :
  validState (Innovatec.gameState cl) ->
  validState (Innovatec_stateAfterMeetingEnd K cl just draws).
Proof.
  intros H. unfold Innovatec_stateAfterMeetingEnd. cbv zeta.
  set (g1 := match just with Some _ => _ | None => _ end).
  assert (H1 : validState g1).
  { subst g1. destruct just; [apply completed_step_valid|]; exact H. }
  clearbody g1.
  set (g2 := match Innovatec.characterInFocus cl, just with
             | Some _, Some _ => _ | _, _ => _ end).
  assert (H2 : validState g2).
  { subst g2. repeat case_match; exact H1. }
  clearbody g2.
  destruct (Innovatec.characterInFocus cl) as [focus|]; [|exact H2].
  destruct (negb _); [|exact H2].
  destruct H2 as (Hs & Hr & Hp). split; [|split; assumption].
  simpl. now apply markMet_valid.
Qed.

Lemma App_handlePlayerAction_valid K st a pl :
  validState (App.gameState st) ->
  validState (App.gameState (App.handlePlayerAction K st a pl)).
Proof.
  intros H.
  destruct (App_handlePlayerAction_gameState K st a pl)
    as [-> | [(f & sc & o & ->) | (j & ->)]].
  - exact H.
  - now apply App_applyConsequences_valid.
  - now apply App_advanceTime_valid, App_stateAfterMeetingEnd_valid.
Qed.

Lemma Innovatec_handlePlayerAction_valid K st a pl le draws :
  validState (Innovatec.gameState st) ->
  validState (Innovatec.gameState (Innovatec.handlePlayerAction K st a pl le draws)).
Proof.
  intros H.
  destruct (Innovatec_handlePlayerAction_gameState K st a pl le draws)
    as [(cal & lg & ->) | [(f & sc & o & ->) | (j & cal & ->)]].
  - exact H.
  - now apply Innovatec_applyConsequences_valid.
  - cbv zeta. apply set_calendar_log_valid.
    now apply Innovatec_advanceTime_valid, Innovatec_stateAfterMeetingEnd_valid.
Qed.

Lemma App_tick_valid K st :
  validState (App.gameState st) -> validState (App.gameState (App.tick K st)).
Proof.
  intros H. unfold App.tick. repeat case_match; try exact H.
  change (validState (App.advanceTime K (App_stateAfterMeetingEnd K st None))).
  now apply App_advanceTime_valid, App_stateAfterMeetingEnd_valid.
Qed.

Lemma Innovatec_tick_valid K st draws :
  validState (Innovatec.gameState st) ->
  validState (Innovatec.gameState (Innovatec.tick K st draws)).
Proof.
  intros H. unfold Innovatec.tick. repeat case_match; try exact H.
  change (validState (Innovatec.gameState
            (Innovatec.advanceTimeAndUpdateFocus K st None draws st))).
  destruct (Innovatec_advanceTimeAndUpdateFocus_gameState K st None draws st)
    as [cal ->].
  cbv zeta. apply set_calendar_log_valid.
  now apply Innovatec_advanceTime_valid, Innovatec_stateAfterMeetingEnd_valid.
Qed.

Lemma overdue_spec nextDay c :
  overdue nextDay c = true <-> c_status c = pending /\ dayDue c < nextDay.
Proof.
  unfold overdue. rewrite andb_true_iff, bool_decide_eq_true, Z.ltb_lt. tauto.
Qed.

Lemma neglected_spec K d sh :
  neglected K d sh = true
  <-> role sh <> SECRETARY_ROLE K /\ default 0 (lastMetDay sh) < d - 3.
Proof.
  unfold neglected.
  rewrite andb_true_iff, negb_true_iff, bool_decide_eq_false, Z.ltb_lt. tauto.
Qed.

Lemma historyFresh_lookup_day g : historyFresh g -> history g !! day g = None.
Proof.
  intros H. destruct (history g !! day g) eqn:E; [|reflexivity].
  specialize (H (day g)). rewrite E in H.
  assert (day g < day g) by (apply H; eauto). lia.
Qed.

Lemma historyFresh_insert g d' (h := <[day g := stakeholders g]> (history g)) :
  historyFresh g -> day g < d' -> forall k, is_Some (h !! k) -> k < d'.
Proof.
  intros H Hd k Hk. subst h.
  destruct (decide (day g = k)) as [<-|Hne]; [exact Hd|].
  rewrite lookup_insert_ne in Hk by exact Hne.
  specialize (H k Hk). lia.
Qed.

Lemma App_advanceTime_historyFresh K g :
  historyFresh g -> historyFresh (App.advanceTime K g).
Proof.
  intros H. unfold historyFresh.
  rewrite App_advanceTime_history. destruct (App_advanceTime_clock K g) as [-> _].
  unfold nextDayOf. destruct (bool_decide (dayBoundary K g)); [|exact H].
  apply historyFresh_insert; [exact H | lia].
Qed.

Lemma Innovatec_advanceTime_historyFresh K g :
  historyFresh g -> historyFresh (Innovatec.advanceTime K g).
Proof.
  intros H. unfold historyFresh.
  rewrite Innovatec_advanceTime_history.
  destruct (Innovatec_advanceTime_clock K g) as [-> _].
  unfold nextDayOf. destruct (bool_decide (dayBoundary K g)); [|exact H].
  apply historyFresh_insert; [exact H | lia].
Qed.

(** A contingent sequence is started by the scheduler only when no
    inevitable sequence of the catalogue is due. *)
Lemma scheduler_contingent_only_without_inevitable K st s n :
  App.currentMeeting st = None ->
  App.currentMeeting (App.schedulerEffect K st) = Some (s, n) ->
  let g := App.gameState st in
  n = 0%nat
  /\ (find (App.inevitableDue g) (sequences K) = Some s
      \/ (forall x, In x (sequences K) -> App.inevitableDue g x = false)
         /\ find (App.contingentDue g) (sequences K) = Some s).
Proof.
  intros Hmeet. unfold App.schedulerEffect.
  destruct (negb _ || negb _ || isSet _); [rewrite Hmeet; discriminate|].
  cbv zeta.
  destruct (find (App.inevitableDue _) (sequences K)) as [si|] eqn:Hfi.
  - destruct (findByRole _ _); [|rewrite Hmeet; discriminate].
    unfold App.startSequence. simpl. intros [= <- <-]. auto.
  - destruct (find (App.contingentDue _) (sequences K)) as [sc|] eqn:Hfc;
      [|rewrite Hmeet; discriminate].
    destruct (findByRole _ _); [|rewrite Hmeet; discriminate].
    unfold App.startSequence. simpl. intros [= <- <-].
    split; [reflexivity|]. right. split; [|reflexivity].
    intros x Hx. exact (find_none _ _ Hfi x Hx).
Qed.

(** No scenario is found for a node index past the end of the list. *)
Lemma find_node_undefined (scs : list ScenarioNode) :
  find (fun sc => bool_decide (Some (node_id sc) = None)) scs = None.
Proof. induction scs as [|sc scs IH]; [reflexivity | exact IH]. Qed.

Lemma truthy_nonempty s : s <> "" -> truthy s = true.
Proof.
  intros H. unfold truthy. now rewrite bool_decide_eq_false_2.
Qed.

(** The fields of the state handed to [advanceTime] at a meeting's end. *)
Lemma App_stateAfterMeetingEnd_fields K cl just :
  let g := App.gameState cl in
  let g1 := App_stateAfterMeetingEnd K cl just in
  day g1 = day g /\ timeSlot g1 = timeSlot g /\ history g1 = history g
  /\ completedSequences g1
     = match just with
       | Some id =>
           if truthy id && negb (includes (completedSequences g) id)
           then completedSequences g ++ [id] else completedSequences g
       | None => completedSequences g
       end
  /\ stakeholders g1
     = match App.characterInFocus cl with
       | Some focus =>
           if negb (bool_decide (role focus = SECRETARY_ROLE K))
           then map (fun sh => if bool_decide (name sh = name focus)
                               then set_lastMetDay sh (day g) else sh)
                    (stakeholders g)
           else stakeholders g
       | None => stakeholders g
       end.
Proof.
  unfold App_stateAfterMeetingEnd. cbv zeta.
  destruct just as [id|];
    [destruct (truthy id && negb (includes (completedSequences (App.gameState cl)) id))|];
    destruct (App.characterInFocus cl) as [focus|];
    try destruct (negb (bool_decide (role focus = SECRETARY_ROLE K)));
    repeat split; reflexivity.
Qed.

Lemma Innovatec_stateAfterMeetingEnd_fields K cl just draws :
  let g := Innovatec.gameState cl in
  let g1 := Innovatec_stateAfterMeetingEnd K cl just draws in
  day g1 = day g /\ timeSlot g1 = timeSlot g /\ history g1 = history g
  /\ completedSequences g1
     = match just with
       | Some id =>
           if truthy id && negb (includes (completedSequences g) id)
           then completedSequences g ++ [id] else completedSequences g
       | None => completedSequences g
       end
  /\ stakeholders g1
     = match Innovatec.characterInFocus cl with
       | Some focus =>
           if negb (bool_decide (role focus = SECRETARY_ROLE K))
           then map (fun sh => if bool_decide (name sh = name focus)
                               then set_lastMetDay sh (day g) else sh)
                    (stakeholders g)
           else stakeholders g
       | None => stakeholders g
       end.
Proof.
  unfold Innovatec_stateAfterMeetingEnd. cbv zeta.
  destruct just as [id|];
    [destruct (truthy id);
     destruct (negb (includes (completedSequences (Innovatec.gameState cl)) id))|];
    destruct (Innovatec.characterInFocus cl) as [focus|];
    try destruct (negb (bool_decide (role focus = SECRETARY_ROLE K)));
    simpl; repeat case_match; repeat split; reflexivity.
Qed.

Lemma dayBoundary_same_slot K g g1 :
  timeSlot g1 = timeSlot g -> (dayBoundary K g1 <-> dayBoundary K g).
Proof. unfold dayBoundary. now intros ->. Qed.

Lemma nextClock_same K g g1 :
  day g1 = day g -> timeSlot g1 = timeSlot g ->
  nextDayOf K g1 = nextDayOf K g /\ nextSlotOf K g1 = nextSlotOf K g.
Proof.
  intros Hd Hs.
  assert (E : bool_decide (dayBoundary K g1) = bool_decide (dayBoundary K g))
    by (apply bool_decide_ext, dayBoundary_same_slot; exact Hs).
  unfold nextDayOf, nextSlotOf. rewrite E, Hd, Hs. split; reflexivity.
Qed.

(** The rollover leaves [lastMetDay] alone. *)
Lemma advance_lookup_lastMetDay (f : Stakeholder -> Stakeholder) (b : bool)
    (shs : list Stakeholder) (i : nat) sh :
  (forall x, lastMetDay (f x) = lastMetDay x) ->
  shs !! i = Some sh ->
  exists sh', (if b then map f shs else shs) !! i = Some sh'
              /\ lastMetDay sh' = lastMetDay sh.
Proof.
  intros Hf Hi. destruct b.
  - exists (f sh). split; [|apply Hf]. now rewrite list_lookup_fmap, Hi.
  - exists sh. split; [exact Hi | reflexivity].
Qed.

(** The handler on a [continue_meeting_sequence] past the last node. *)
Lemma App_continue_at_end K st a pl focus sequence n :
  action a = "continue_meeting_sequence" ->
  App.gameStatus st = playing ->
  App.characterInFocus st = Some focus ->
  App.currentMeeting st = Some (sequence, n) ->
  (length (nodes sequence) <= n + 1)%nat ->
  App.handlePlayerAction K st a pl
  = App.setIsLoading false
      (App.setCurrentMeeting (Some (sequence, (n + 1)%nat))
         (App.setIsLoading true st)).
Proof.
  intros Ha Hs Hf Hm Hn. unfold App.handlePlayerAction.
  rewrite Ha, Hs, Hf, Hm. cbv zeta.
  rewrite (lookup_ge_None_2 (nodes sequence) (n + 1)) by lia.
  rewrite find_node_undefined. reflexivity.
Qed.

Lemma Innovatec_continue_at_end K st a pl le draws focus sequence n :
  action a = "continue_meeting_sequence" ->
  Innovatec.gameStatus st = playing ->
  Innovatec.characterInFocus st = Some focus ->
  Innovatec.currentMeeting st = Some (sequence, n) ->
  (length (nodes sequence) <= n + 1)%nat ->
  Innovatec.handlePlayerAction K st a pl le draws
  = Innovatec.setIsLoading false
      (Innovatec.setCurrentMeeting (Some (sequence, (n + 1)%nat))
         (Innovatec.setCurrentDialogue ""
            (Innovatec.setIsLoading true st))).
Proof.
  intros Ha Hs Hf Hm Hn. unfold Innovatec.handlePlayerAction.
  rewrite Ha, Hs, Hf, Hm. cbv zeta.
  rewrite (lookup_ge_None_2 (nodes sequence) (n + 1)) by lia.
  rewrite find_node_undefined. reflexivity.
Qed.

(** The handler on [conclude_meeting] during a meeting. *)
Lemma App_conclude K st a pl focus sequence n :
  action a = "conclude_meeting" ->
  App.gameStatus st = playing ->
  App.characterInFocus st = Some focus ->
  App.currentMeeting st = Some (sequence, n) ->
  App.handlePlayerAction K st a pl
  = App.setIsLoading false
      (App.advanceTimeAndUpdateFocus K st (Some (sequence_id sequence))
         (App.setCurrentMeeting None (App.setIsLoading true st))).
Proof.
  intros Ha Hs Hf Hm. unfold App.handlePlayerAction.
  rewrite Ha, Hs, Hf, Hm. reflexivity.
Qed.

Lemma Innovatec_conclude K st a pl le draws focus sequence n :
  action a = "conclude_meeting" ->
  Innovatec.gameStatus st = playing ->
  Innovatec.characterInFocus st = Some focus ->
  Innovatec.currentMeeting st = Some (sequence, n) ->
  Innovatec.handlePlayerAction K st a pl le draws
  = Innovatec.setIsLoading false
      (Innovatec.advanceTimeAndUpdateFocus K st (Some (sequence_id sequence)) draws
         (Innovatec.setCurrentMeeting None
            (Innovatec.setCurrentDialogue ""
               (Innovatec.setIsLoading true st)))).
Proof.
  intros Ha Hs Hf Hm. unfold Innovatec.handlePlayerAction.
  rewrite Ha, Hs, Hf, Hm. cbv zeta.
  destruct (bool_decide (role focus = SECRETARY_ROLE K)); reflexivity.
Qed.

(** What concluding a meeting does to the game state, from the state
    handed to [advanceTime]. *)
Lemma concluded_fields (K : Content) (g g1 g' : GameState) (focus : Stakeholder)
    (id : string) (f : Stakeholder -> Stakeholder) :
  id <> "" ->
  (forall x, lastMetDay (f x) = lastMetDay x) ->
  day g1 = day g -> timeSlot g1 = timeSlot g ->
  completedSequences g1
  = (if truthy id && negb (includes (completedSequences g) id)
     then completedSequences g ++ [id] else completedSequences g) ->
  stakeholders g1
  = (if negb (bool_decide (role focus = SECRETARY_ROLE K))
     then map (fun sh => if bool_decide (name sh = name focus)
                         then set_lastMetDay sh (day g) else sh)
              (stakeholders g)
     else stakeholders g) ->
  completedSequences g' = completedSequences g1 ->
  stakeholders g'
  = (if bool_decide (dayBoundary K g1) then map f (stakeholders g1)
     else stakeholders g1) ->
  completedSequences g'
  = (if includes (completedSequences g) id then completedSequences g
     else completedSequences g ++ [id])
  /\ (forall (i : nat) sh,
        stakeholders g !! i = Some sh ->
        exists sh',
          stakeholders g' !! i = Some sh'
          /\ lastMetDay sh'
             = if bool_decide (name sh = name focus)
                  && negb (bool_decide (role focus = SECRETARY_ROLE K))
               then Some (day g) else lastMetDay sh).
Proof.
  intros Hid Hf Hd Hs Hc Hsh Hc' Hsh'. split.
  - rewrite Hc', Hc, (truthy_nonempty id Hid). simpl.
    now destruct (includes (completedSequences g) id).
  - intros i sh Hi. rewrite Hsh'.
    assert (H1 : exists sh1,
               stakeholders g1 !! i = Some sh1
               /\ lastMetDay sh1
                  = if bool_decide (name sh = name focus)
                       && negb (bool_decide (role focus = SECRETARY_ROLE K))
                    then Some (day g) else lastMetDay sh).
    { rewrite Hsh. destruct (negb (bool_decide (role focus = SECRETARY_ROLE K))).
      - rewrite list_lookup_fmap, Hi. simpl. eexists; split; [reflexivity|].
        rewrite andb_true_r.
        now destruct (bool_decide (name sh = name focus)).
      - exists sh. split; [exact Hi|]. now rewrite andb_false_r. }
    destruct H1 as (sh1 & Hi1 & Hl1).
    destruct (advance_lookup_lastMetDay f (bool_decide (dayBoundary K g1))
                (stakeholders g1) i sh1 Hf Hi1) as (sh' & Hi' & Hl').
    exists sh'. split; [exact Hi'|]. now rewrite Hl', Hl1.
Qed.






(** Validity is kept by the warning effect, which only marks stakeholders
    as critical. *)
Lemma mark_critical_valid (p : Stakeholder -> bool) shs :
  Forall validStakeholder shs ->
  Forall validStakeholder
    (map (fun sh => if p sh then set_sh_status sh critical else sh) shs).
Proof.
  intros H. apply Forall_map. eapply Forall_impl; [exact H|]. intros sh Hsh. simpl.
  destruct (p sh); exact Hsh.
Qed.

Lemma App_warningStep_valid K cw acc s :
  Forall validStakeholder (snd (fst acc)) ->
  Forall validStakeholder (snd (fst (App.warningStep K cw acc s))).
Proof.
  destruct acc as [[nw us] b]. simpl. intros H.
  repeat case_match; simpl; try exact H.
  now apply (mark_critical_valid (fun sh => bool_decide (name sh = name s))).
Qed.

Lemma Innovatec_warningStep_valid K cw acc s :
  Forall validStakeholder (snd (fst acc)) ->
  Forall validStakeholder (snd (fst (Innovatec.warningStep K cw acc s))).
Proof.
  destruct acc as [[nw us] b]. simpl. intros H.
  repeat case_match; simpl; try exact H.
  now apply (mark_critical_valid (fun sh => bool_decide (name sh = name s))).
Qed.

Lemma fold_left_invariant {A B : Type} (P : A -> Prop) (f : A -> B -> A)
    (l : list B) (a : A) :
  (forall x y, P x -> P (f x y)) -> P a -> P (fold_left f l a).
Proof.
  intros Hf. revert a. induction l as [|y l IH]; intros a Ha; [exact Ha|].
  simpl. apply IH, Hf, Ha.
Qed.

Lemma App_statusEffect_valid K st :
  validState (App.gameState st) ->
  validState (App.gameState (App.statusEffect K st)).
Proof.
  intros H. unfold App.statusEffect.
  destruct (negb _ || negb _); [exact H|]. cbv zeta.
  destruct (_ >=? _); [exact H|].
  match goal with
  | |- context [fold_left ?f ?l ?a] =>
      pose proof (fold_left_invariant
                    (fun acc => Forall validStakeholder (snd (fst acc))) f l a
                    (fun x y => App_warningStep_valid K _ x y) (proj1 H)) as Hfold;
      destruct (fold_left f l a) as [[nw us] b]
  end.
  simpl in Hfold.
  repeat case_match; try exact H; simpl;
    destruct H as (Hs & Hr & Hp); repeat split; simpl; assumption || lia.
Qed.

Lemma Innovatec_statusEffect_valid K st :
  validState (Innovatec.gameState st) ->
  validState (Innovatec.gameState (Innovatec.statusEffect K st)).
Proof.
  intros H. unfold Innovatec.statusEffect.
  destruct (negb _ || negb _); [exact H|]. cbv zeta.
  destruct (_ >=? _); [exact H|].
  match goal with
  | |- context [fold_left ?f ?l ?a] =>
      pose proof (fold_left_invariant
                    (fun acc => Forall validStakeholder (snd (fst acc))) f l a
                    (fun x y => Innovatec_warningStep_valid K _ x y) (proj1 H)) as Hfold;
      destruct (fold_left f l a) as [[nw us] b]
  end.
  simpl in Hfold.
  repeat case_match; try exact H; simpl;
    destruct H as (Hs & Hr & Hp); repeat split; simpl; assumption || lia.
Qed.

Lemma App_handleManualAdvance_valid K st :
  validState (App.gameState st) ->
  validState (App.gameState (App.handleManualAdvance K st)).
Proof.
  intros H. unfold App.handleManualAdvance.
  rewrite App_advanceTimeAndUpdateFocus_gameState.
  now apply App_advanceTime_valid, App_stateAfterMeetingEnd_valid.
Qed.

Lemma Innovatec_handleManualAdvance_valid K st draws :
  validState (Innovatec.gameState st) ->
  validState (Innovatec.gameState (Innovatec.handleManualAdvance K st draws)).
Proof.
  intros H. unfold Innovatec.handleManualAdvance.
  destruct (negb _); [exact H|].
  change (validState (Innovatec.gameState
            (Innovatec.advanceTimeAndUpdateFocus K st None draws st))).
  destruct (Innovatec_advanceTimeAndUpdateFocus_gameState K st None draws st)
    as [cal ->].
  cbv zeta. apply set_calendar_log_valid.
  now apply Innovatec_advanceTime_valid, Innovatec_stateAfterMeetingEnd_valid.
Qed.

(** [historyFresh] holds of a session's first state, whose history is
    empty, and is kept by every operation of the two games. *)
Lemma historyFresh_empty g : history g = ∅ -> historyFresh g.
Proof. intros E k [v Hv]. rewrite E, lookup_empty in Hv. discriminate. Qed.

Lemma historyFresh_same_clock g g' :
  history g' = history g -> day g' = day g -> historyFresh g -> historyFresh g'.
Proof. unfold historyFresh. intros -> ->. auto. Qed.

Lemma App_handlePlayerAction_historyFresh K st a pl :
  historyFresh (App.gameState st) ->
  historyFresh (App.gameState (App.handlePlayerAction K st a pl)).
Proof.
  intros H.
  destruct (App_handlePlayerAction_gameState K st a pl)
    as [-> | [(f & sc & o & ->) | (j & ->)]].
  - exact H.
  - exact H.
  - apply App_advanceTime_historyFresh.
    destruct (App_stateAfterMeetingEnd_fields K st j) as (Hd & _ & Hh & _).
    exact (historyFresh_same_clock _ _ Hh Hd H).
Qed.

Lemma App_tick_historyFresh K st :
  historyFresh (App.gameState st) -> historyFresh (App.gameState (App.tick K st)).
Proof.
  intros H. unfold App.tick. repeat case_match; try exact H.
  change (historyFresh (App.advanceTime K (App_stateAfterMeetingEnd K st None))).
  apply App_advanceTime_historyFresh.
  destruct (App_stateAfterMeetingEnd_fields K st None) as (Hd & _ & Hh & _).
  exact (historyFresh_same_clock _ _ Hh Hd H).
Qed.

Lemma App_handleExecuteWeek_historyFresh st :
  historyFresh (App.gameState st) ->
  historyFresh (App.gameState (App.handleExecuteWeek st)).
Proof.
  intros H k Hk. simpl in *. specialize (H k Hk). lia.
Qed.

Lemma Innovatec_handlePlayerAction_historyFresh K st a pl le draws :
  historyFresh (Innovatec.gameState st) ->
  historyFresh (Innovatec.gameState (Innovatec.handlePlayerAction K st a pl le draws)).
Proof.
  intros H.
  destruct (Innovatec_handlePlayerAction_gameState K st a pl le draws)
    as [(cal & lg & ->) | [(f & sc & o & ->) | (j & cal & ->)]].
  - exact H.
  - exact H.
  - cbv zeta.
    apply (historyFresh_same_clock
             (Innovatec.advanceTime K (Innovatec_stateAfterMeetingEnd K st j draws)));
      [reflexivity | reflexivity |].
    apply Innovatec_advanceTime_historyFresh.
    destruct (Innovatec_stateAfterMeetingEnd_fields K st j draws) as (Hd & _ & Hh & _).
    exact (historyFresh_same_clock _ _ Hh Hd H).
Qed.

(** * The claims *)

(** C1. Ranges are kept by every operation that mutates the simulation: if
    every stakeholder has trust in [0,100] and support within its own
    [minSupport, maxSupport], and reputation and project progress are in
    [0,100], then the same holds after any player action (applying an
    option's consequences, concluding a meeting), after an advance of the
    clock with its day rollover, after a timer tick, a manual advance, the
    status effect and a week's execution, in both games.  The budget is
    the old budget plus the delta, with no clamp, and it can go below
    zero. *)
Theorem C1_ranges_preserved K (sa : App.State) (si : Innovatec.State)
    (a : PlayerAction) (pl : option ProcessLogEntry)
    (le : PlayerActionLogEntry) (draws : Innovatec.Draws) :
  validState (App.gameState sa) ->
  validState (Innovatec.gameState si) ->
  (validState (App.gameState (App.handlePlayerAction K sa a pl))
   /\ validState (App.advanceTime K (App.gameState sa))
   /\ validState (App.gameState (App.tick K sa))
   /\ validState (App.gameState (App.handleManualAdvance K sa))
   /\ validState (App.gameState (App.statusEffect K sa))
   /\ validState (App.gameState (App.handleExecuteWeek sa)))
  /\ (validState (Innovatec.gameState (Innovatec.handlePlayerAction K si a pl le draws))
      /\ validState (Innovatec.advanceTime K (Innovatec.gameState si))
      /\ validState (Innovatec.gameState (Innovatec.tick K si draws))
      /\ validState (Innovatec.gameState (Innovatec.handleManualAdvance K si draws))
      /\ validState (Innovatec.gameState (Innovatec.statusEffect K si)))
  /\ (forall focus scenario opt,
        budget (App.applyConsequences focus scenario opt a pl (App.gameState sa))
        = budget (App.gameState sa) + orZero (budgetChange (consequences opt)))
  /\ (forall focus scenario opt,
        budget (Innovatec.applyConsequences si focus scenario opt a pl
                  (Innovatec.gameState si))
        = budget (Innovatec.gameState si) + orZero (budgetChange (consequences opt)))
  /\ (exists g focus scenario opt,
        validState g /\ 0 <= budget g
        /\ budget (App.applyConsequences focus scenario opt a pl g) < 0).
Proof.
  intros Ha Hi.
  split.
  { split; [now apply App_handlePlayerAction_valid|].
    split; [now apply App_advanceTime_valid|].
    split; [now apply App_tick_valid|].
    split; [now apply App_handleManualAdvance_valid|].
    split; [now apply App_statusEffect_valid | exact Ha]. }
  split.
  { split; [now apply Innovatec_handlePlayerAction_valid|].
    split; [now apply Innovatec_advanceTime_valid|].
    split; [now apply Innovatec_tick_valid|].
    split; [now apply Innovatec_handleManualAdvance_valid|].
    now apply Innovatec_statusEffect_valid. }
  split; [reflexivity|]. split; [reflexivity|].
  exists Sample.evening5, Sample.guzman, Sample.node0,
    {| option_id := "B"; text := "Gastar";
       consequences :=
         {| trustChange := None; supportChange := None;
            budgetChange := Some (-900); reputationChange := None;
            projectProgressChange := None; dialogueResponse := "";
            expected_actions := None |} |}.
  split; [|split; [simpl; lia | simpl; lia]].
  unfold validState, validStakeholder; simpl.
  split; [|lia]. repeat constructor; simpl; lia.
Qed.

(** C2. An advance processes the rollover exactly when the slot index
    overflows.  Then every stakeholder has each pending commitment due
    before the new day turned to broken and loses 20 points of trust for
    each commitment so broken, with a floor of 0; otherwise the list of
    stakeholders is the one before the advance.  The Innovatec game does
    the same and applies its neglect penalty on top, which is nil for a
    stakeholder that is not neglected. *)
Theorem C2_rollover_only_at_day_boundary K g :
  stakeholders (App.advanceTime K g)
  = (if bool_decide (dayBoundary K g)
     then map (rolloverApp (day g + 1)) (stakeholders g)
     else stakeholders g)
  /\ day (App.advanceTime K g)
     = (if bool_decide (dayBoundary K g) then day g + 1 else day g)
  /\ (forall sh,
        commitments (rolloverApp (day g + 1) sh)
        = map (fun c => if overdue (day g + 1) c then set_c_status c broken else c)
              (commitments sh)
        /\ trust (rolloverApp (day g + 1) sh)
           = Z.max 0 (trust sh - 20 * newlyBroken (day g + 1) (commitments sh)))
  /\ (forall c, overdue (day g + 1) c = true
                <-> c_status c = pending /\ dayDue c < day g + 1)
  /\ stakeholders (Innovatec.advanceTime K g)
     = (if bool_decide (dayBoundary K g)
        then map (rolloverInnovatec K (day g)) (stakeholders g)
        else stakeholders g)
  /\ (forall sh, neglected K (day g) sh = false ->
        rolloverInnovatec K (day g) sh = rolloverApp (day g + 1) sh).
Proof.
  split; [apply App_advanceTime_stakeholders|].
  split; [apply App_advanceTime_clock|].
  split; [intros sh; split; reflexivity|].
  split; [intros c; apply overdue_spec|].
  split; [apply Innovatec_advanceTime_stakeholders|].
  intros sh Hn. unfold rolloverInnovatec, rolloverApp, neglectPenalty.
  rewrite Hn. f_equal. f_equal. lia.
Qed.

(** C3, the claim as stated fails: at day 1, afternoon, the inevitable
    sequence is due and the contingent sequence's predicate holds, yet the
    scheduler starts nothing, because no stakeholder has the inevitable
    sequence's role. *)
Lemma C3_counterexample :
  let st := Sample.appState Sample.afternoon1 None None playing in
  App.appStep st = App.game
  /\ App.gameStatus st = playing
  /\ App.currentMeeting st = None
  /\ In Sample.storm (sequences Sample.content)
  /\ App.inevitableDue (App.gameState st) Sample.storm = true
  /\ In Sample.budgetAlarm (sequences Sample.content)
  /\ App.contingentDue (App.gameState st) Sample.budgetAlarm = true
  /\ App.currentMeeting (App.schedulerEffect Sample.content st) = None
  /\ App.schedulerEffect Sample.content st = st.
Proof. vm_compute. repeat split; auto. Qed.

(** C3, amended. While the session is being played and no sequence is in
    focus: if some uncompleted inevitable sequence is scheduled at the
    current day and slot and some uncompleted contingent sequence's
    predicate holds, the scheduler selects an inevitable sequence that is
    due; it starts it (node 0, its stakeholder in focus, timer paused) when
    a stakeholder has its role, and otherwise starts nothing, so that the
    contingent sequence is never started in its place.  A contingent
    sequence is started only when no inevitable sequence of the catalogue
    is due. *)
Theorem C3_inevitable_preempts_contingent K st :
  App.appStep st = App.game ->
  App.gameStatus st = playing ->
  App.currentMeeting st = None ->
  let g := App.gameState st in
  let st' := App.schedulerEffect K st in
  (forall s_i s_c,
      In s_i (sequences K) -> App.inevitableDue g s_i = true ->
      In s_c (sequences K) -> App.contingentDue g s_c = true ->
      exists si,
        In si (sequences K) /\ App.inevitableDue g si = true
        /\ isInevitable si = true
        /\ match findByRole (stakeholderRole si) (stakeholders g) with
           | Some sh =>
               App.currentMeeting st' = Some (si, 0%nat)
               /\ App.characterInFocus st' = Some sh
               /\ App.isTimerPaused st' = true
           | None => st' = st
           end)
  /\ (forall s n, App.currentMeeting st' = Some (s, n) ->
        n = 0%nat
        /\ (find (App.inevitableDue g) (sequences K) = Some s
            \/ (forall x, In x (sequences K) -> App.inevitableDue g x = false)
               /\ find (App.contingentDue g) (sequences K) = Some s)).
Proof.
  intros Hstep Hstatus Hmeet g st'. split.
  - intros s_i s_c Hin_i Hdue_i Hin_c Hdue_c.
    subst st'. unfold App.schedulerEffect.
    rewrite Hmeet, !bool_decide_eq_true_2 by assumption. simpl. fold g.
    destruct (find (App.inevitableDue g) (sequences K)) as [si|] eqn:Hfind.
    2:{ exfalso. pose proof (find_none _ _ Hfind s_i Hin_i) as Hn. congruence. }
    apply find_some in Hfind as [Hin Hdue].
    assert (Hinev : isInevitable si = true).
    { unfold App.inevitableDue in Hdue. rewrite !andb_true_iff in Hdue. tauto. }
    exists si. split; [exact Hin|]. split; [exact Hdue|]. split; [exact Hinev|].
    destruct (findByRole (stakeholderRole si) (stakeholders g)) as [sh|];
      [|reflexivity].
    unfold App.startSequence. simpl. auto.
  - intros s n Hs.
    exact (scheduler_contingent_only_without_inevitable K st s n Hmeet Hs).
Qed.

(** C4, the claim as stated fails: with only a budget threshold
    configured and the budget below it, the predicate is true although no
    stakeholder has the resolved role. *)
Lemma C4_counterexample :
  let g := set_stakeholders Sample.afternoon1 [] in
  isContingent Sample.budgetAlarm = true
  /\ findByRole (stakeholderRole Sample.budgetAlarm) (stakeholders g) = None
  /\ App.shouldTriggerContingentSequence Sample.budgetAlarm g = true.
Proof. vm_compute. repeat split. Qed.

(** C4, amended. The trigger predicate of a sequence is true exactly when
    the sequence is contingent and has rules, the budget is below
    [budgetBelow] if that is configured, and, if a trust or a support
    threshold is configured, a stakeholder with the resolved role (the
    rule's own role if given, else the sequence's) exists whose trust is
    below [trustBelow] and whose support is below [supportBelow], each if
    configured.  The stakeholder is looked up only when a trust or support
    threshold is configured; then a missing stakeholder makes the predicate
    false.  The predicate is a total function: it raises nothing. *)
Theorem C4_contingent_predicate (sequence : MeetingSequence) (g : GameState) :
  App.shouldTriggerContingentSequence sequence g = true
  <-> isContingent sequence = true
      /\ exists rules,
           contingentRules sequence = Some rules
           /\ (forall b, budgetBelow rules = Some b -> budget g < b)
           /\ ((trustBelow rules = None /\ supportBelow rules = None)
               \/ exists sh,
                    findByRole
                      (default (stakeholderRole sequence) (r_stakeholderRole rules))
                      (stakeholders g) = Some sh
                    /\ (forall t, trustBelow rules = Some t -> trust sh < t)
                    /\ (forall v, supportBelow rules = Some v -> support sh < v)).
Proof.
  unfold App.shouldTriggerContingentSequence.
  destruct (isContingent sequence); simpl;
    [|split; [discriminate | intros [? _]; discriminate]].
  destruct (contingentRules sequence) as [rules|];
    [|split; [discriminate | intros (_ & r & ? & _); discriminate]].
  destruct rules as [bb tb sb rr]; simpl.
  destruct (findByRole (default (stakeholderRole sequence) rr) (stakeholders g))
    as [sh|] eqn:Hw.
  - split.
    + intros H. split; [reflexivity|]. eexists; split; [reflexivity|]. simpl.
      assert (Hbud : forall b, bb = Some b -> budget g < b).
      { intros b ->. destruct (Z.geb_spec (budget g) b); [discriminate | lia]. }
      split; [exact Hbud|].
      assert (Hb' : match bb with Some b => budget g >=? b | None => false end = false).
      { destruct bb as [b|]; [|reflexivity]. specialize (Hbud b eq_refl).
        destruct (Z.geb_spec (budget g) b); [lia | reflexivity]. }
      rewrite Hb' in H. right. exists sh. split; [exact Hw|].
      destruct tb as [t|], sb as [v|]; simpl in H;
        repeat match type of H with
               | context [Z.geb ?x ?y] => destruct (Z.geb_spec x y); try discriminate
               end;
        split; intros ? [=]; subst; lia.
    + intros (_ & r & [= <-] & Hb & Hrest). simpl in *.
      assert (Hbud : match bb with Some b => budget g >=? b | None => false end = false).
      { destruct bb as [b|]; [|reflexivity]. specialize (Hb b eq_refl).
        destruct (Z.geb_spec (budget g) b); [lia | reflexivity]. }
      rewrite Hbud.
      destruct Hrest as [[-> ->] | (sh' & Hsh & Ht & Hs)]; [reflexivity|].
      rewrite Hw in Hsh. injection Hsh as <-.
      assert (Htr : match tb with Some t => trust sh >=? t | None => false end = false).
      { destruct tb as [t|]; [|reflexivity]. specialize (Ht t eq_refl).
        destruct (Z.geb_spec (trust sh) t); [lia | reflexivity]. }
      assert (Hsu : match sb with Some v => support sh >=? v | None => false end = false).
      { destruct sb as [v|]; [|reflexivity]. specialize (Hs v eq_refl).
        destruct (Z.geb_spec (support sh) v); [lia | reflexivity]. }
      rewrite Htr, Hsu. destruct (isNumber tb || isNumber sb); reflexivity.
  - split.
    + intros H. split; [reflexivity|]. eexists; split; [reflexivity|]. simpl.
      assert (Hbud : forall b, bb = Some b -> budget g < b).
      { intros b ->. destruct (Z.geb_spec (budget g) b); [discriminate | lia]. }
      split; [exact Hbud|].
      assert (Hb' : match bb with Some b => budget g >=? b | None => false end = false).
      { destruct bb as [b|]; [|reflexivity]. specialize (Hbud b eq_refl).
        destruct (Z.geb_spec (budget g) b); [lia | reflexivity]. }
      rewrite Hb' in H. left.
      destruct tb, sb; simpl in H; try discriminate. split; reflexivity.
    + intros (_ & r & [= <-] & Hb & Hrest). simpl in *.
      assert (Hbud : match bb with Some b => budget g >=? b | None => false end = false).
      { destruct bb as [b|]; [|reflexivity]. specialize (Hb b eq_refl).
        destruct (Z.geb_spec (budget g) b); [lia | reflexivity]. }
      rewrite Hbud.
      destruct Hrest as [[-> ->] | (sh' & Hsh & _)]; [reflexivity|].
      rewrite Hw in Hsh. discriminate.
Qed.

(** C5, the claim as stated fails: concluding a meeting whose sequence has
    the empty string as its id leaves [completedSequences] as it was, here
    empty; the guard on the id treats the empty string like no id. *)
Lemma C5_counterexample :
  let st := Sample.appState Sample.afternoon1 (Some Sample.guzman)
              (Some (Sample.unnamedSeq, 0%nat)) playing in
  App.gameStatus st = playing
  /\ App.currentMeeting st = Some (Sample.unnamedSeq, 0%nat)
  /\ completedSequences
       (App.gameState
          (App.handlePlayerAction Sample.content st (Sample.act "conclude_meeting") None))
     = [].
Proof. vm_compute. repeat split. Qed.

(** C5, amended. For an active meeting whose sequence id is not the empty
    string, with the game being played and a stakeholder in focus,
    [conclude_meeting] adds the sequence id to [completedSequences] unless
    it is there already, sets [lastMetDay] to the current day for the
    stakeholders bearing the focused stakeholder's name unless the focused
    stakeholder is the secretary (then no [lastMetDay] changes), and
    advances the clock by one period with one call of [advanceTime]; in
    both games. *)
Theorem C5_conclude_meeting K (sa : App.State) (si : Innovatec.State)
    (a : PlayerAction) (pl : option ProcessLogEntry) (le : PlayerActionLogEntry)
    (draws : Innovatec.Draws) (fa fi : Stakeholder)
    (seqa seqi : MeetingSequence) (na ni : nat) :
  action a = "conclude_meeting" ->
  App.gameStatus sa = playing ->
  App.characterInFocus sa = Some fa ->
  App.currentMeeting sa = Some (seqa, na) ->
  sequence_id seqa <> "" ->
  Innovatec.gameStatus si = playing ->
  Innovatec.characterInFocus si = Some fi ->
  Innovatec.currentMeeting si = Some (seqi, ni) ->
  sequence_id seqi <> "" ->
  let ga := App.gameState sa in
  let ga' := App.gameState (App.handlePlayerAction K sa a pl) in
  let gi := Innovatec.gameState si in
  let gi' := Innovatec.gameState (Innovatec.handlePlayerAction K si a pl le draws) in
  (completedSequences ga'
   = (if includes (completedSequences ga) (sequence_id seqa)
      then completedSequences ga
      else completedSequences ga ++ [sequence_id seqa])
   /\ (forall (i : nat) sh,
         stakeholders ga !! i = Some sh ->
         exists sh',
           stakeholders ga' !! i = Some sh'
           /\ lastMetDay sh'
              = if bool_decide (name sh = name fa)
                   && negb (bool_decide (role fa = SECRETARY_ROLE K))
                then Some (day ga) else lastMetDay sh)
   /\ day ga' = nextDayOf K ga /\ timeSlot ga' = nextSlotOf K ga
   /\ ga' = App.advanceTime K
              (App_stateAfterMeetingEnd K sa (Some (sequence_id seqa))))
  /\ (completedSequences gi'
      = (if includes (completedSequences gi) (sequence_id seqi)
         then completedSequences gi
         else completedSequences gi ++ [sequence_id seqi])
      /\ (forall (i : nat) sh,
            stakeholders gi !! i = Some sh ->
            exists sh',
              stakeholders gi' !! i = Some sh'
              /\ lastMetDay sh'
                 = if bool_decide (name sh = name fi)
                      && negb (bool_decide (role fi = SECRETARY_ROLE K))
                   then Some (day gi) else lastMetDay sh)
      /\ day gi' = nextDayOf K gi /\ timeSlot gi' = nextSlotOf K gi
      /\ exists cal,
           gi' = let n := Innovatec.advanceTime K
                            (Innovatec_stateAfterMeetingEnd K si
                               (Some (sequence_id seqi)) draws) in
                 set_calendar_log n cal (playerActionsLog n)).
Proof.
  intros Ha Hsa Hfa Hma Hida Hsi Hfi Hmi Hidi ga ga' gi gi'. split.
  - subst ga'. rewrite (App_conclude K sa a pl fa seqa na Ha Hsa Hfa Hma).
    change (App.gameState _)
      with (App.advanceTime K (App_stateAfterMeetingEnd K sa (Some (sequence_id seqa)))).
    set (g1 := App_stateAfterMeetingEnd K sa (Some (sequence_id seqa))).
    destruct (App_stateAfterMeetingEnd_fields K sa (Some (sequence_id seqa)))
      as (Hd & Hs & _ & Hc & Hsh).
    fold g1 ga in Hd, Hs, Hc, Hsh. rewrite Hfa in Hsh.
    destruct (App_advanceTime_frame K g1) as (_ & _ & _ & Hc').
    pose proof (App_advanceTime_stakeholders K g1) as Hsh'.
    destruct (concluded_fields K ga g1 (App.advanceTime K g1) fa (sequence_id seqa)
                (rolloverApp (day g1 + 1)) Hida (fun x => eq_refl) Hd Hs Hc Hsh Hc' Hsh')
      as [H1 H2].
    destruct (App_advanceTime_clock K g1) as [Hday Hslot].
    destruct (nextClock_same K ga g1 Hd Hs) as [E1 E2].
    split; [exact H1|]. split; [exact H2|].
    split; [now rewrite Hday|]. split; [now rewrite Hslot|]. reflexivity.
  - subst gi'. rewrite (Innovatec_conclude K si a pl le draws fi seqi ni Ha Hsi Hfi Hmi).
    set (s0 := Innovatec.setCurrentMeeting None _).
    change (Innovatec.gameState (Innovatec.setIsLoading false ?x))
      with (Innovatec.gameState x).
    destruct (Innovatec_advanceTimeAndUpdateFocus_gameState K si
                (Some (sequence_id seqi)) draws s0) as [cal Hcal].
    rewrite Hcal. cbv zeta.
    set (g1 := Innovatec_stateAfterMeetingEnd K si (Some (sequence_id seqi)) draws).
    destruct (Innovatec_stateAfterMeetingEnd_fields K si (Some (sequence_id seqi)) draws)
      as (Hd & Hs & _ & Hc & Hsh).
    fold g1 gi in Hd, Hs, Hc, Hsh. rewrite Hfi in Hsh.
    destruct (Innovatec_advanceTime_frame K g1) as (_ & _ & _ & Hc').
    pose proof (Innovatec_advanceTime_stakeholders K g1) as Hsh'.
    destruct (concluded_fields K gi g1 (Innovatec.advanceTime K g1) fi (sequence_id seqi)
                (rolloverInnovatec K (day g1)) Hidi (fun x => eq_refl) Hd Hs Hc Hsh Hc' Hsh')
      as [H1 H2].
    destruct (Innovatec_advanceTime_clock K g1) as [Hday Hslot].
    destruct (nextClock_same K gi g1 Hd Hs) as [E1 E2].
    split; [exact H1|]. split; [exact H2|].
    split; [simpl; now rewrite Hday|]. split; [simpl; now rewrite Hslot|].
    exists cal. reflexivity.
Qed.

(** C6, the claim as stated fails: on [continue_meeting_sequence] at the
    last node (index 0 of a one-node sequence) the node index of the
    meeting becomes 1. *)
Lemma C6_counterexample :
  let st := Sample.appState Sample.afternoon1 (Some Sample.guzman)
              (Some (Sample.storm, 0%nat)) playing in
  length (nodes Sample.storm) = 1%nat
  /\ App.currentMeeting st = Some (Sample.storm, 0%nat)
  /\ App.currentMeeting
       (App.handlePlayerAction Sample.content st
          (Sample.act "continue_meeting_sequence") None)
     = Some (Sample.storm, 1%nat).
Proof. vm_compute. repeat split. Qed.

(** C6, amended. On [continue_meeting_sequence] at the last node of the
    sequence nothing is raised and no scenario is presented, but the node
    index of the meeting is incremented past the end.  In the default game
    every other cell keeps its value ([isLoading] ends false); in the
    Innovatec game the dialogue is also cleared.  The game state is
    unchanged in both. *)
Theorem C6_continue_past_last_node K (sa : App.State) (si : Innovatec.State)
    (a : PlayerAction) (pl : option ProcessLogEntry) (le : PlayerActionLogEntry)
    (draws : Innovatec.Draws) (fa fi : Stakeholder)
    (seqa seqi : MeetingSequence) (na ni : nat) :
  action a = "continue_meeting_sequence" ->
  App.gameStatus sa = playing ->
  App.characterInFocus sa = Some fa ->
  App.currentMeeting sa = Some (seqa, na) ->
  (length (nodes seqa) <= na + 1)%nat ->
  Innovatec.gameStatus si = playing ->
  Innovatec.characterInFocus si = Some fi ->
  Innovatec.currentMeeting si = Some (seqi, ni) ->
  (length (nodes seqi) <= ni + 1)%nat ->
  let sa' := App.handlePlayerAction K sa a pl in
  let si' := Innovatec.handlePlayerAction K si a pl le draws in
  (App.currentMeeting sa' = Some (seqa, (na + 1)%nat)
   /\ App.gameState sa' = App.gameState sa
   /\ App.characterInFocus sa' = App.characterInFocus sa
   /\ App.currentDialogue sa' = App.currentDialogue sa
   /\ App.playerActions sa' = App.playerActions sa
   /\ App.countdown sa' = App.countdown sa
   /\ App.isTimerPaused sa' = App.isTimerPaused sa
   /\ App.gameStatus sa' = App.gameStatus sa
   /\ App.activeTab sa' = App.activeTab sa
   /\ App.warningPopupMessage sa' = App.warningPopupMessage sa
   /\ App.isLoading sa' = false)
  /\ (Innovatec.currentMeeting si' = Some (seqi, (ni + 1)%nat)
      /\ Innovatec.gameState si' = Innovatec.gameState si
      /\ Innovatec.characterInFocus si' = Innovatec.characterInFocus si
      /\ Innovatec.currentDialogue si' = ""
      /\ Innovatec.playerActions si' = Innovatec.playerActions si
      /\ Innovatec.countdown si' = Innovatec.countdown si
      /\ Innovatec.isTimerPaused si' = Innovatec.isTimerPaused si
      /\ Innovatec.gameStatus si' = Innovatec.gameStatus si
      /\ Innovatec.schedulingState si' = Innovatec.schedulingState si
      /\ Innovatec.isLoading si' = false).
Proof.
  intros Ha Hsa Hfa Hma Hna Hsi Hfi Hmi Hni sa' si'. subst sa' si'.
  rewrite (App_continue_at_end K sa a pl fa seqa na Ha Hsa Hfa Hma Hna).
  rewrite (Innovatec_continue_at_end K si a pl le draws fi seqi ni Ha Hsi Hfi Hmi Hni).
  simpl. repeat split.
Qed.

(** C7. In a state whose history only holds snapshots of earlier days, an
    advance that crosses a day boundary writes exactly one new history
    entry, the stakeholders as they were before the advance, and leaves
    every entry written before as it was; an advance within the day
    leaves the history alone.  The state after the advance again only
    holds snapshots of earlier days.  Both games write the same history. *)
Theorem C7_history_snapshot K g :
  historyFresh g ->
  (dayBoundary K g ->
     history g !! day g = None
     /\ history (App.advanceTime K g) !! day g = Some (stakeholders g)
     /\ size (history (App.advanceTime K g)) = S (size (history g))
     /\ (forall k v, history g !! k = Some v ->
           history (App.advanceTime K g) !! k = Some v))
  /\ (~ dayBoundary K g -> history (App.advanceTime K g) = history g)
  /\ historyFresh (App.advanceTime K g)
  /\ history (Innovatec.advanceTime K g) = history (App.advanceTime K g).
Proof.
  intros Hf. pose proof (historyFresh_lookup_day g Hf) as Hnone.
  rewrite Innovatec_advanceTime_history, App_advanceTime_history.
  split; [|split; [|split; [|reflexivity]]].
  - intros Hb. rewrite bool_decide_eq_true_2 by exact Hb.
    split; [exact Hnone|]. split; [apply lookup_insert_eq|].
    split; [now apply map_size_insert_None|].
    intros k v Hk. rewrite lookup_insert_ne; [exact Hk|].
    intros <-. rewrite Hnone in Hk. discriminate.
  - intros Hb. now rewrite bool_decide_eq_false_2 by exact Hb.
  - now apply App_advanceTime_historyFresh.
Qed.


(** After a win the default game's manual advance is still served: it is
    not behind the status test that guards the timer (the Innovatec
    game's manual advance is). *)
Example App_manual_advance_after_win :
  let st := Sample.appState Sample.evening5 None None won in
  day (App.gameState (App.handleManualAdvance Sample.content st)) = 6
  /\ (trust <$> stakeholders (App.gameState (App.handleManualAdvance Sample.content st)))
     = [70; 50].
Proof. vm_compute. split; reflexivity. Qed.

(** C9. In the Innovatec game the rollover takes, besides 20 points per
    newly broken commitment, a flat 2 points of trust from a stakeholder
    who is not the secretary and was last met more than three days
    before the day that ends; the result is floored at 0.  One broken
    commitment and neglect together cost 22 points; the secretary never
    pays the neglect penalty. *)
Theorem C9_neglect_penalty K g (i : nat) sh :
  dayBoundary K g ->
  stakeholders g !! i = Some sh ->
  exists sh',
    stakeholders (Innovatec.advanceTime K g) !! i = Some sh'
    /\ trust sh'
       = Z.max 0 (trust sh - 20 * newlyBroken (day g + 1) (commitments sh)
                  - neglectPenalty K (day g) sh)
    /\ neglectPenalty K (day g) sh
       = (if bool_decide (role sh <> SECRETARY_ROLE K
                          /\ default 0 (lastMetDay sh) < day g - 3)
          then 2 else 0)
    /\ (newlyBroken (day g + 1) (commitments sh) = 1 ->
        neglected K (day g) sh = true ->
        trust sh' = Z.max 0 (trust sh - 22))
    /\ (role sh = SECRETARY_ROLE K ->
        trust sh' = Z.max 0 (trust sh - 20 * newlyBroken (day g + 1) (commitments sh))).
Proof.
  intros Hb Hi. exists (rolloverInnovatec K (day g) sh).
  split.
  { rewrite Innovatec_advanceTime_stakeholders, bool_decide_eq_true_2 by exact Hb.
    now rewrite list_lookup_fmap, Hi. }
  split; [reflexivity|].
  split.
  { unfold neglectPenalty.
    destruct (neglected K (day g) sh) eqn:E.
    - rewrite bool_decide_eq_true_2; [reflexivity | now apply neglected_spec].
    - rewrite bool_decide_eq_false_2; [reflexivity|].
      intros Hn. apply neglected_spec in Hn. congruence. }
  split.
  { intros H1 Hn. simpl. unfold neglectPenalty. rewrite H1, Hn. f_equal. lia. }
  intros Hs. simpl. unfold neglectPenalty, neglected.
  rewrite bool_decide_eq_true_2 by exact Hs. simpl. f_equal. lia.
Qed.

(** C10. Executing a week adds 5 to the day and one line to the events
    log, and changes no other field of the game state: the slot, the
    stakeholders with their commitments and trust, and the history are
    those before. *)
Theorem C10_execute_week_frame (st : App.State) :
  let g := App.gameState st in
  let g' := App.gameState (App.handleExecuteWeek st) in
  day g' = day g + 5
  /\ eventsLog g'
     = eventsLog g ++ ["Semana Ejecutada. Avanzado al día " +:+ pretty (day g + 5) +:+ "."]
  /\ timeSlot g' = timeSlot g
  /\ stakeholders g' = stakeholders g
  /\ history g' = history g
  /\ playerName g' = playerName g /\ budget g' = budget g
  /\ reputation g' = reputation g /\ projectProgress g' = projectProgress g
  /\ completedSequences g' = completedSequences g
  /\ completedScenarios g' = completedScenarios g
  /\ scenarioSchedule g' = scenarioSchedule g
  /\ criticalWarnings g' = criticalWarnings g /\ inbox g' = inbox g
  /\ calendar g' = calendar g /\ decisionLog g' = decisionLog g
  /\ processLog g' = processLog g
  /\ playerActionsLog g' = playerActionsLog g
  /\ playerNotes g' = playerNotes g
  /\ weeklySchedule g' = weeklySchedule g
  /\ readDocuments g' = readDocuments g
  /\ stakeholder_preferences g' = stakeholder_preferences g.
Proof. cbv zeta. repeat split. Qed.

(** Unlike a week's execution, five days of advances break the promise. *)
Example advance_breaks_what_execute_week_keeps :
  let st := Sample.appState Sample.evening5 None None playing in
  (trust <$> stakeholders (App.gameState (App.handleExecuteWeek st))) = [90; 50]
  /\ (trust <$> stakeholders (App.advanceTime Sample.content Sample.evening5))
     = [70; 50]
  /\ (trust <$> stakeholders (Innovatec.advanceTime Sample.content Sample.evening5))
     = [68; 50].
Proof. vm_compute. repeat split. Qed.

(** * Witnesses *)

Lemma sample_evening5_valid : validState Sample.evening5.
Proof.
  unfold validState, validStakeholder. simpl.
  split; [|lia]. repeat constructor; simpl; lia.
Defined.

Lemma C1_ranges_preserved_witness :
  validState Sample.evening5
  /\ validState
       (App.gameState
          (App.handlePlayerAction Sample.content
             (Sample.appState Sample.evening5 (Some Sample.guzman)
                (Some (Sample.storm, 0%nat)) playing)
             (Sample.act "A") None)).
Proof.
  split; [exact sample_evening5_valid|].
  apply (C1_ranges_preserved Sample.content
           (Sample.appState Sample.evening5 (Some Sample.guzman)
              (Some (Sample.storm, 0%nat)) playing)
           (Sample.innovatecState Sample.evening5 (Some Sample.guzman)
              (Some (Sample.storm, 0%nat)) playing)
           (Sample.act "A") None "" Sample.draws);
    exact sample_evening5_valid.
Defined.

Lemma C3_inevitable_preempts_contingent_witness :
  let st := Sample.appState Sample.afternoon1Full None None playing in
  App.appStep st = App.game
  /\ App.gameStatus st = playing
  /\ App.currentMeeting st = None
  /\ exists si,
       In si (sequences Sample.content)
       /\ App.inevitableDue (App.gameState st) si = true
       /\ isInevitable si = true
       /\ match findByRole (stakeholderRole si) (stakeholders (App.gameState st)) with
          | Some sh =>
              App.currentMeeting (App.schedulerEffect Sample.content st)
              = Some (si, 0%nat)
              /\ App.characterInFocus (App.schedulerEffect Sample.content st) = Some sh
              /\ App.isTimerPaused (App.schedulerEffect Sample.content st) = true
          | None => App.schedulerEffect Sample.content st = st
          end.
Proof.
  cbv zeta. split; [reflexivity|]. split; [reflexivity|]. split; [reflexivity|].
  apply (proj1 (C3_inevitable_preempts_contingent Sample.content
                  (Sample.appState Sample.afternoon1Full None None playing)
                  eq_refl eq_refl eq_refl)
           Sample.storm Sample.budgetAlarm).
  - simpl. auto.
  - vm_compute. reflexivity.
  - simpl. auto.
  - vm_compute. reflexivity.
Defined.

Lemma C5_conclude_meeting_witness :
  let sa := Sample.appState Sample.evening5 (Some Sample.guzman)
              (Some (Sample.storm, 0%nat)) playing in
  sequence_id Sample.storm <> ""
  /\ completedSequences
       (App.gameState
          (App.handlePlayerAction Sample.content sa (Sample.act "conclude_meeting") None))
     = ["EVENT_STORM"].
Proof.
  cbv zeta.
  assert (Hid : sequence_id Sample.storm <> "") by (simpl; discriminate).
  split; [exact Hid|].
  exact (proj1 (proj1
    (C5_conclude_meeting Sample.content
       (Sample.appState Sample.evening5 (Some Sample.guzman)
          (Some (Sample.storm, 0%nat)) playing)
       (Sample.innovatecState Sample.evening5 (Some Sample.guzman)
          (Some (Sample.storm, 0%nat)) playing)
       (Sample.act "conclude_meeting") None "" Sample.draws
       Sample.guzman Sample.guzman Sample.storm Sample.storm 0%nat 0%nat
       eq_refl eq_refl eq_refl eq_refl Hid eq_refl eq_refl eq_refl Hid))).
Defined.

Lemma C6_continue_past_last_node_witness :
  let sa := Sample.appState Sample.afternoon1 (Some Sample.guzman)
              (Some (Sample.storm, 0%nat)) playing in
  (length (nodes Sample.storm) <= 0 + 1)%nat
  /\ App.currentMeeting
       (App.handlePlayerAction Sample.content sa
          (Sample.act "continue_meeting_sequence") None)
     = Some (Sample.storm, 1%nat).
Proof.
  cbv zeta.
  assert (Hn : (length (nodes Sample.storm) <= 0 + 1)%nat) by (simpl; lia).
  split; [exact Hn|].
  exact (proj1 (proj1
    (C6_continue_past_last_node Sample.content
       (Sample.appState Sample.afternoon1 (Some Sample.guzman)
          (Some (Sample.storm, 0%nat)) playing)
       (Sample.innovatecState Sample.afternoon1 (Some Sample.guzman)
          (Some (Sample.storm, 0%nat)) playing)
       (Sample.act "continue_meeting_sequence") None "" Sample.draws
       Sample.guzman Sample.guzman Sample.storm Sample.storm 0%nat 0%nat
       eq_refl eq_refl eq_refl eq_refl Hn eq_refl eq_refl eq_refl Hn))).
Defined.

Lemma sample_evening5_fresh : historyFresh Sample.evening5.
Proof. intros k [v Hv]. simpl in Hv. rewrite lookup_empty in Hv. discriminate. Defined.

Lemma sample_evening5_boundary : dayBoundary Sample.content Sample.evening5.
Proof. unfold dayBoundary. simpl. lia. Defined.

Lemma C7_history_snapshot_witness :
  historyFresh Sample.evening5
  /\ dayBoundary Sample.content Sample.evening5
  /\ history (App.advanceTime Sample.content Sample.evening5) !! 5
     = Some (stakeholders Sample.evening5)
  /\ size (history (App.advanceTime Sample.content Sample.evening5)) = 1%nat.
Proof.
  split; [exact sample_evening5_fresh|]. split; [exact sample_evening5_boundary|].
  destruct (proj1 (C7_history_snapshot Sample.content Sample.evening5
                     sample_evening5_fresh) sample_evening5_boundary)
    as (_ & H1 & H2 & _).
  split; [exact H1 | exact H2].
Defined.


Lemma C9_neglect_penalty_witness :
  dayBoundary Sample.content Sample.evening5
  /\ stakeholders Sample.evening5 !! 0%nat = Some Sample.guzman
  /\ exists sh',
       stakeholders (Innovatec.advanceTime Sample.content Sample.evening5) !! 0%nat
       = Some sh'
       /\ trust sh' = 68.
Proof.
  split; [exact sample_evening5_boundary|]. split; [reflexivity|].
  destruct (C9_neglect_penalty Sample.content Sample.evening5 0%nat Sample.guzman
              sample_evening5_boundary eq_refl) as (sh' & H1 & H2 & _).
  exists sh'. split; [exact H1|]. rewrite H2. reflexivity.
Defined.

(** * Further properties of the code *)

(** ** The clock *)









Lemma overdue_mono nd nd' c : nd <= nd' -> overdue nd c = true -> overdue nd' c = true.
Proof. rewrite !overdue_spec. intros ? [? ?]. split; [assumption | lia]. Qed.

Lemma overdue_after_break nd nd' c :
  nd <= nd' ->
  overdue nd' (breakOverdue nd c) = overdue nd' c && negb (overdue nd c).
Proof.
  intros Hle. unfold breakOverdue.
  destruct (overdue nd c) eqn:E.
  - rewrite andb_false_r. unfold overdue. simpl. reflexivity.
  - now rewrite andb_true_r.
Qed.

Lemma newlyBroken_after_break nd nd' cs :
  nd <= nd' ->
  newlyBroken nd' (map (breakOverdue nd) cs)
  = newlyBroken nd' cs - newlyBroken nd cs.
Proof.
  intros Hle. unfold newlyBroken.
  induction cs as [|c cs IH]; [reflexivity|].
  simpl. rewrite (overdue_after_break nd nd' c Hle).
  destruct (overdue nd c) eqn:E.
  - rewrite (overdue_mono nd nd' c Hle E). simpl length. lia.
  - destruct (overdue nd' c); simpl length; lia.
Qed.

(** X2. A broken promise is paid for once.  After a day-crossing advance,
    the commitments a later rollover (into any day from the new one on)
    would newly break are those it would have broken before, less the ones
    this advance broke; a rollover into the same day breaks none. *)
Theorem X2_breakage_counted_once K g nextDay' :
  dayBoundary K g ->
  day g + 1 <= nextDay' ->
  Forall2 (fun sh sh' =>
             newlyBroken nextDay' (commitments sh')
             = newlyBroken nextDay' (commitments sh)
               - newlyBroken (day g + 1) (commitments sh)
             /\ newlyBroken (day g + 1) (commitments sh') = 0)
    (stakeholders g) (stakeholders (App.advanceTime K g))
  /\ Forall2 (fun sh sh' =>
                newlyBroken nextDay' (commitments sh')
                = newlyBroken nextDay' (commitments sh)
                  - newlyBroken (day g + 1) (commitments sh)
                /\ newlyBroken (day g + 1) (commitments sh') = 0)
       (stakeholders g) (stakeholders (Innovatec.advanceTime K g)).
Proof.
  intros Hb Hle.
  rewrite App_advanceTime_stakeholders, Innovatec_advanceTime_stakeholders.
  rewrite bool_decide_eq_true_2 by exact Hb.
  split; induction (stakeholders g) as [|sh l IH]; constructor; try exact IH;
    simpl; (split; [now apply newlyBroken_after_break|]);
    rewrite newlyBroken_after_break by lia; lia.
Qed.

Lemma indexOf_lookup (l : list string) (i : nat) x :
  NoDup l -> l !! i = Some x -> indexOf l x = Z.of_nat i.
Proof.
  intros Hnd. revert i. induction Hnd as [|y r Hy Hnd IH]; intros i Hi.
  - destruct i; discriminate.
  - destruct i as [|i]; simpl in *.
    + injection Hi as ->. now rewrite bool_decide_eq_true_2.
    + assert (y <> x).
      { intros ->. apply Hy. apply list_elem_of_lookup. eauto. }
      rewrite bool_decide_eq_false_2 by assumption.
      rewrite (IH i Hi). destruct (Z.ltb_spec (Z.of_nat i) 0); lia.
Qed.

Lemma indexOf_absent (l : list string) x : x ∉ l -> indexOf l x = -1.
Proof.
  induction l as [|y r IH]; intros Hx; [reflexivity|]. simpl.
  rewrite bool_decide_eq_false_2 by (intros ->; apply Hx; left).
  rewrite IH by (intros ?; apply Hx; now right). reflexivity.
Qed.

(** The state within the day: [k] further slots on, nothing but the slot
    has moved. *)
Lemma advance_within_day (f : GameState -> GameState) K g (i : nat) :
  (forall h, ~ dayBoundary K h ->
     f h = set_clock h (day h)
             (default (first_slot K)
                (TIME_SLOTS K !! Z.to_nat (indexOf (TIME_SLOTS K) (timeSlot h) + 1)))
             (history h)) ->
  NoDup (TIME_SLOTS K) ->
  TIME_SLOTS K !! i = Some (timeSlot g) ->
  forall k : nat,
    (i + k < length (TIME_SLOTS K))%nat ->
    let gk := Nat.iter k f g in
    day gk = day g /\ stakeholders gk = stakeholders g
    /\ history gk = history g /\ eventsLog gk = eventsLog g
    /\ TIME_SLOTS K !! (i + k)%nat = Some (timeSlot gk).
Proof.
  intros Hf Hnd Hi k. induction k as [|k IH]; intros Hk; cbv zeta.
  - simpl. rewrite Nat.add_0_r. auto.
  - destruct IH as (Hd & Hs & Hh & He & Hslot); [lia|].
    simpl Nat.iter. set (gk := Nat.iter k f g) in *.
    pose proof (indexOf_lookup _ _ _ Hnd Hslot) as Hidx.
    assert (Hnb : ~ dayBoundary K gk) by (unfold dayBoundary; rewrite Hidx; lia).
    rewrite (Hf gk Hnb), Hidx.
    replace (Z.to_nat (Z.of_nat (i + k) + 1)) with (i + S k)%nat by lia.
    destruct (lookup_lt_is_Some_2 (TIME_SLOTS K) (i + S k) Hk) as [x Hx].
    rewrite Hx. repeat split; assumption.
Qed.

(** X3. With no slot listed twice, the advances that take the clock from
    its slot to the end of the day are as many as the slots left, and they
    cross one day boundary: before the last of them the day, the
    stakeholders and the history are untouched; the last one starts the
    next day at the first slot, writes the one snapshot of the day and
    applies the rollover once. *)
Theorem X3_one_rollover_per_day K g (i : nat) :
  NoDup (TIME_SLOTS K) ->
  TIME_SLOTS K !! i = Some (timeSlot g) ->
  let m := (length (TIME_SLOTS K) - i)%nat in
  (forall k : nat, (k < m)%nat ->
     day (Nat.iter k (App.advanceTime K) g) = day g
     /\ stakeholders (Nat.iter k (App.advanceTime K) g) = stakeholders g
     /\ history (Nat.iter k (App.advanceTime K) g) = history g
     /\ day (Nat.iter k (Innovatec.advanceTime K) g) = day g
     /\ stakeholders (Nat.iter k (Innovatec.advanceTime K) g) = stakeholders g
     /\ history (Nat.iter k (Innovatec.advanceTime K) g) = history g)
  /\ (let g' := Nat.iter m (App.advanceTime K) g in
      day g' = day g + 1 /\ timeSlot g' = first_slot K
      /\ stakeholders g' = map (rolloverApp (day g + 1)) (stakeholders g)
      /\ history g' = <[day g := stakeholders g]> (history g))
  /\ (let g' := Nat.iter m (Innovatec.advanceTime K) g in
      day g' = day g + 1 /\ timeSlot g' = first_slot K
      /\ stakeholders g' = map (rolloverInnovatec K (day g)) (stakeholders g)
      /\ history g' = <[day g := stakeholders g]> (history g)).
Proof.
  intros Hnd Hi m.
  pose proof (lookup_lt_Some _ _ _ Hi) as Hlt.
  pose proof (advance_within_day (App.advanceTime K) K g i
                (App_advanceTime_same_day K) Hnd Hi) as HA.
  pose proof (advance_within_day (Innovatec.advanceTime K) K g i
                (Innovatec_advanceTime_same_day K) Hnd Hi) as HI.
  split; [|split].
  - intros k Hk.
    destruct (HA k ltac:(lia)) as (? & ? & ? & _).
    destruct (HI k ltac:(lia)) as (? & ? & ? & _). auto 10.
  - replace m with (S (m - 1)) by lia. simpl Nat.iter. cbv zeta.
    destruct (HA (m - 1)%nat ltac:(lia)) as (Hd & Hs & Hh & _ & Hslot).
    set (gk := Nat.iter (m - 1) (App.advanceTime K) g) in *.
    pose proof (indexOf_lookup _ _ _ Hnd Hslot) as Hidx.
    assert (Hb : dayBoundary K gk) by (unfold dayBoundary; rewrite Hidx; lia).
    rewrite (App_advanceTime_boundary K gk Hb). simpl.
    now rewrite Hd, Hs, Hh.
  - replace m with (S (m - 1)) by lia. simpl Nat.iter. cbv zeta.
    destruct (HI (m - 1)%nat ltac:(lia)) as (Hd & Hs & Hh & _ & Hslot).
    set (gk := Nat.iter (m - 1) (Innovatec.advanceTime K) g) in *.
    pose proof (indexOf_lookup _ _ _ Hnd Hslot) as Hidx.
    assert (Hb : dayBoundary K gk) by (unfold dayBoundary; rewrite Hidx; lia).
    rewrite (Innovatec_advanceTime_boundary K gk Hb). simpl.
    now rewrite Hd, Hs, Hh.
Qed.

(** X4. A time slot that is not one of [TIME_SLOTS] is repaired by the next
    advance without a day passing: the clock goes to the first slot of the
    same day, and no rollover is processed and no snapshot written. *)
Theorem X4_unknown_slot_restarts_the_day K g :
  timeSlot g ∉ TIME_SLOTS K ->
  App.advanceTime K g = set_clock g (day g) (first_slot K) (history g)
  /\ Innovatec.advanceTime K g = set_clock g (day g) (first_slot K) (history g)
  /\ stakeholders (App.advanceTime K g) = stakeholders g
  /\ history (App.advanceTime K g) = history g
  /\ eventsLog (App.advanceTime K g) = eventsLog g.
Proof.
  intros Hx. pose proof (indexOf_absent _ _ Hx) as Hidx.
  assert (Hnb : ~ dayBoundary K g).
  { unfold dayBoundary. rewrite Hidx. unfold TIME_SLOTS. simpl length. lia. }
  rewrite (App_advanceTime_same_day K g Hnb),
    (Innovatec_advanceTime_same_day K g Hnb), Hidx.
  simpl. auto.
Qed.





(** ** The dialogue handler *)

Lemma not_flow_action a :
  a ∉ flowActions ->
  bool_decide (a = "open_conflicted_schedule") = false
  /\ bool_decide (a = "start_meeting_sequence") = false
  /\ bool_decide (a = "continue_meeting_sequence") = false
  /\ bool_decide (a = "end_meeting_sequence") = false
  /\ bool_decide (a = "conclude_meeting") = false.
Proof.
  intros H. repeat split; apply bool_decide_eq_false_2; intros ->; apply H;
    unfold flowActions; set_solver.
Qed.

Lemma not_innovatec_flow_action a :
  a ∉ innovatecFlowActions ->
  bool_decide (a = "start_meeting_sequence") = false
  /\ bool_decide (a = "continue_meeting_sequence") = false
  /\ bool_decide (a = "end_meeting_sequence") = false
  /\ bool_decide (a = "conclude_meeting") = false
  /\ bool_decide (a = "schedule_meeting") = false
  /\ bool_decide (a = "confirm_schedule") = false
  /\ bool_decide (a = "cancel_schedule") = false.
Proof.
  intros H. repeat split; apply bool_decide_eq_false_2; intros ->; apply H;
    unfold innovatecFlowActions; set_solver.
Qed.

Lemma find_all_false {A : Type} (p : A -> bool) (l : list A) :
  (forall x, In x l -> p x = false) -> find p l = None.
Proof.
  induction l as [|x l IH]; intros H; [reflexivity|]. simpl.
  rewrite (H x (or_introl eq_refl)). apply IH. intros y Hy. apply H. now right.
Qed.

Lemma no_option_found K a sc :
  noOptionNamed K a -> In sc (scenarios K) ->
  find (fun o => bool_decide (option_id o = a)) (options sc) = None.
Proof.
  intros H Hsc. apply find_all_false. intros o Ho.
  apply bool_decide_eq_false_2. exact (H sc Hsc o Ho).
Qed.

(** The handler on the choice of an option during a meeting. *)
Lemma App_option_step K st a pl focus sequence (n : nat) scenario opt :
  App.gameStatus st = playing ->
  App.characterInFocus st = Some focus ->
  App.currentMeeting st = Some (sequence, n) ->
  action a ∉ flowActions ->
  find (fun sc => bool_decide (Some (node_id sc) = nodes sequence !! n))
       (scenarios K) = Some scenario ->
  find (fun o => bool_decide (option_id o = action a)) (options scenario) = Some opt ->
  let st' := App.handlePlayerAction K st a pl in
  App.gameState st'
  = App.applyConsequences focus scenario opt a pl (App.gameState st)
  /\ App.playerActions st' = [followUp sequence n]
  /\ (action (followUp sequence n) = "continue_meeting_sequence"
      <-> is_Some (nodes sequence !! (n + 1)%nat))
  /\ App.currentMeeting st' = Some (sequence, n)
  /\ App.countdown st' = App.PERIOD_DURATION
  /\ App.currentDialogue st'
     = replaceAll "{playerName}" (playerName (App.gameState st))
         (dialogueResponse (consequences opt))
  /\ App.characterInFocus st' = Some focus
  /\ App.isLoading st' = false.
Proof.
  intros Hs Hf Hm Ha Hsc Hopt st'. subst st'.
  destruct (not_flow_action _ Ha) as (E1 & E2 & E3 & E4 & E5).
  unfold App.handlePlayerAction.
  rewrite Hs, Hf, Hm, E1, E2, E3, E4, E5. cbv zeta. rewrite Hsc, Hopt.
  rewrite bool_decide_eq_true_2 by reflexivity.
  unfold followUp. rewrite lookup_lt_is_Some.
  destruct (Z.geb_spec (Z.of_nat n) (Z.of_nat (length (nodes sequence)) - 1));
    destruct (Nat.ltb_spec (n + 1) (length (nodes sequence))); try lia;
    simpl; repeat split; intros; try lia; try discriminate; auto.
Qed.

(** X6. Choosing an option of the node a meeting stands at applies the
    option's consequences, shows its response, restarts the countdown and
    offers exactly one action: to continue when a further node exists, to
    end the discussion when the node is the last one.  The meeting stays
    at its node.  So continuing is only ever offered when there is a node
    to continue to. *)
Theorem X6_option_offers_the_next_step K st a pl focus sequence (n : nat) scenario opt :
  App.gameStatus st = playing ->
  App.characterInFocus st = Some focus ->
  App.currentMeeting st = Some (sequence, n) ->
  action a ∉ flowActions ->
  find (fun sc => bool_decide (Some (node_id sc) = nodes sequence !! n))
       (scenarios K) = Some scenario ->
  find (fun o => bool_decide (option_id o = action a)) (options scenario) = Some opt ->
  let st' := App.handlePlayerAction K st a pl in
  App.gameState st'
  = App.applyConsequences focus scenario opt a pl (App.gameState st)
  /\ App.playerActions st' = [followUp sequence n]
  /\ (action (followUp sequence n) = "continue_meeting_sequence"
      <-> is_Some (nodes sequence !! (n + 1)%nat))
  /\ App.currentMeeting st' = Some (sequence, n)
  /\ App.countdown st' = App.PERIOD_DURATION
  /\ App.currentDialogue st'
     = replaceAll "{playerName}" (playerName (App.gameState st))
         (dialogueResponse (consequences opt))
  /\ App.characterInFocus st' = Some focus
  /\ App.isLoading st' = false.
Proof. apply App_option_step. Qed.

(** X7. An action that is no flow action and names no option of the
    catalogue is dropped: the default game changes nothing (the loading
    flag ends false), the Innovatec game only clears the dialogue.  No
    consequence is applied and nothing is logged, whether a meeting is in
    progress or not. *)
Theorem X7_unknown_action_is_dropped K (sa : App.State) (si : Innovatec.State)
    (a : PlayerAction) (pl : option ProcessLogEntry) (le : PlayerActionLogEntry)
    (draws : Innovatec.Draws) (fa fi : Stakeholder) :
  noOptionNamed K (action a) ->
  action a ∉ flowActions ->
  action a ∉ innovatecFlowActions ->
  App.gameStatus sa = playing ->
  App.characterInFocus sa = Some fa ->
  Innovatec.gameStatus si = playing ->
  Innovatec.characterInFocus si = Some fi ->
  App.handlePlayerAction K sa a pl = App.setIsLoading false sa
  /\ Innovatec.handlePlayerAction K si a pl le draws
     = Innovatec.setIsLoading false (Innovatec.setCurrentDialogue "" si).
Proof.
  intros Hno Ha Hi Hsa Hfa Hsi Hfi.
  destruct (not_flow_action _ Ha) as (E1 & E2 & E3 & E4 & E5).
  destruct (not_innovatec_flow_action _ Hi) as (_ & _ & _ & _ & E6 & E7 & E8).
  split.
  - unfold App.handlePlayerAction.
    rewrite Hsa, Hfa, E1, E2, E3, E4, E5. cbv zeta.
    rewrite bool_decide_eq_true_2 by reflexivity. simpl negb. cbv iota.
    assert (Hnone : forall o : option string,
               match find (fun sc => bool_decide (Some (node_id sc) = o)) (scenarios K) with
               | Some scenario =>
                   match find (fun o => bool_decide (option_id o = action a))
                           (options scenario) with
                   | Some _ => true
                   | None => false
                   end
               | None => false
               end = false).
    { intros o. destruct (find _ (scenarios K)) as [sc|] eqn:Hsc; [|reflexivity].
      apply find_some in Hsc as [Hin _]. now rewrite (no_option_found K _ sc Hno Hin). }
    destruct (App.currentMeeting sa) as [[sequence n]|].
    + specialize (Hnone (nodes sequence !! n)).
      destruct (find _ (scenarios K)) as [sc|]; [|reflexivity].
      destruct (find _ (options sc)); [discriminate | reflexivity].
    + specialize (Hnone (Some "")).
      destruct (find _ (scenarios K)) as [sc|]; [|reflexivity].
      destruct (find _ (options sc)); [discriminate | reflexivity].
  - unfold Innovatec.handlePlayerAction.
    rewrite Hsi, Hfi, E2, E3, E4, E5, E6, E7, E8. cbv zeta.
    rewrite bool_decide_eq_true_2 by reflexivity. simpl negb. cbv iota.
    assert (Hnone : forall o : option string,
               match find (fun sc => bool_decide (Some (node_id sc) = o)) (scenarios K) with
               | Some scenario =>
                   match find (fun o => bool_decide (option_id o = action a))
                           (options scenario) with
                   | Some _ => true
                   | None => false
                   end
               | None => false
               end = false).
    { intros o. destruct (find _ (scenarios K)) as [sc|] eqn:Hsc; [|reflexivity].
      apply find_some in Hsc as [Hin _]. now rewrite (no_option_found K _ sc Hno Hin). }
    destruct (Innovatec.currentMeeting si) as [[sequence n]|].
    + specialize (Hnone (nodes sequence !! n)).
      destruct (find (fun sc => bool_decide (Some (node_id sc) = _)) (scenarios K))
        as [sc|]; [destruct (find _ (options sc)); [discriminate|]|];
        destruct (bool_decide (role fi = SECRETARY_ROLE K)); reflexivity.
    + match goal with
      | |- context [find (fun sc => bool_decide (Some (node_id sc) = ?o)) (scenarios K)] =>
          specialize (Hnone o)
      end.
      destruct (find (fun sc => bool_decide (Some (node_id sc) = _)) (scenarios K))
        as [sc|]; [destruct (find _ (options sc)); [discriminate|]|];
        destruct (bool_decide (role fi = SECRETARY_ROLE K)); reflexivity.
Qed.









(** ** The scheduler *)

Lemma findByRole_some r l sh :
  findByRole r l = Some sh -> In sh l /\ role sh = r.
Proof.
  intros H. apply find_some in H as [Hin Hr].
  apply bool_decide_eq_true in Hr. auto.
Qed.

(** What the scheduler does: nothing, or the start of a sequence. *)
Lemma schedulerEffect_cases K st :
  App.schedulerEffect K st = st
  \/ (App.currentMeeting st = None
      /\ App.appStep st = App.game /\ App.gameStatus st = playing
      /\ exists s sh,
           (find (App.inevitableDue (App.gameState st)) (sequences K) = Some s
            \/ find (App.contingentDue (App.gameState st)) (sequences K) = Some s)
           /\ findByRole (stakeholderRole s) (stakeholders (App.gameState st)) = Some sh
           /\ App.schedulerEffect K st
              = App.startSequence st s sh (Some true)
                  (Some (if isInevitable s then "Atender Situacion Inevitable"
                         else "Atender Evento Contingente"))
                  (Some "Obligatorio") st).
Proof.
  unfold App.schedulerEffect.
  destruct (bool_decide (App.appStep st = App.game)) eqn:E1; simpl; [|now left].
  destruct (bool_decide (App.gameStatus st = playing)) eqn:E2; simpl; [|now left].
  destruct (App.currentMeeting st) eqn:E3; simpl; [now left|].
  apply bool_decide_eq_true in E1, E2.
  destruct (find (App.inevitableDue _) (sequences K)) as [si|] eqn:Hi.
  - destruct (findByRole (stakeholderRole si) _) as [sh|] eqn:Hsh; [|now left].
    right. repeat split; try assumption. exists si, sh. auto.
  - destruct (find (App.contingentDue _) (sequences K)) as [sc|] eqn:Hc; [|now left].
    destruct (findByRole (stakeholderRole sc) _) as [sh|] eqn:Hsh; [|now left].
    right. repeat split; try assumption. exists sc, sh. auto.
Qed.

(** X9. The scheduler starts at most one sequence and then rests: run
    again on its own result it changes nothing.  When it starts a sequence
    it puts it at node 0 with a stakeholder of the sequence's role in
    focus, offers the start as the only action, leaves the game state
    alone and pauses the timer, so that a timer tick during the sequence
    does nothing. *)
Theorem X9_scheduler_starts_once K st :
  App.schedulerEffect K (App.schedulerEffect K st) = App.schedulerEffect K st
  /\ (forall s n,
        App.currentMeeting st = None ->
        App.currentMeeting (App.schedulerEffect K st) = Some (s, n) ->
        let st' := App.schedulerEffect K st in
        n = 0%nat
        /\ (exists sh, App.characterInFocus st' = Some sh
                       /\ In sh (stakeholders (App.gameState st))
                       /\ role sh = stakeholderRole s)
        /\ (exists a, App.playerActions st' = [a]
                      /\ action a = "start_meeting_sequence")
        /\ App.gameState st' = App.gameState st
        /\ App.isTimerPaused st' = true
        /\ App.tick K st' = st').
Proof.
  destruct (schedulerEffect_cases K st)
    as [Hsame | (Hm & Hstep & Hstat & s & sh & Hfound & Hsh & Heq)].
  - rewrite Hsame. split; [exact Hsame|].
    intros s n Hm Hm'. rewrite Hm in Hm'. discriminate.
  - rewrite Heq. split.
    + unfold App.schedulerEffect at 1. unfold App.startSequence. simpl.
      now rewrite orb_true_r.
    + intros s' n _. unfold App.startSequence. simpl. intros [= <- <-].
      apply findByRole_some in Hsh as [Hin Hr].
      split; [reflexivity|]. split; [eauto|]. split; [eauto|].
      split; [reflexivity|]. split; [reflexivity|].
      unfold App.tick. reflexivity.
Qed.

Lemma includes_true l x : includes l x = true <-> In x l.
Proof.
  unfold includes. rewrite existsb_exists. split.
  - intros (y & Hy & E). apply bool_decide_eq_true in E. now subst.
  - intros H. exists x. split; [exact H | now apply bool_decide_eq_true].
Qed.

Lemma includes_prefix l l' x :
  l `prefix_of` l' -> includes l x = true -> includes l' x = true.
Proof.
  intros [k ->]. rewrite !includes_true, in_app_iff. auto.
Qed.

Lemma App_stateAfterMeetingEnd_completed K cl just :
  completedSequences (App.gameState cl)
    `prefix_of` completedSequences (App_stateAfterMeetingEnd K cl just).
Proof.
  destruct (App_stateAfterMeetingEnd_fields K cl just) as (_ & _ & _ & -> & _).
  destruct just as [id|]; [|reflexivity].
  destruct (truthy id && negb _); [apply prefix_app_r|]; reflexivity.
Qed.

Lemma App_statusEffect_completed K st :
  completedSequences (App.gameState (App.statusEffect K st))
  = completedSequences (App.gameState st).
Proof.
  unfold App.statusEffect. repeat case_match; reflexivity.
Qed.

(** X10. The completed sequences are an append-only record: no player
    action, timer tick, manual advance, week's execution or effect ever
    removes or reorders an entry.  The scheduler starts only sequences of
    the catalogue that are inevitable or contingent and not in that
    record, so a sequence once completed is never started by it again. *)
Theorem X10_completed_sequences_stay_completed K st a pl :
  let done := completedSequences (App.gameState st) in
  done `prefix_of` completedSequences (App.gameState (App.handlePlayerAction K st a pl))
  /\ done `prefix_of` completedSequences (App.gameState (App.tick K st))
  /\ done `prefix_of` completedSequences (App.gameState (App.handleManualAdvance K st))
  /\ done `prefix_of` completedSequences (App.gameState (App.handleExecuteWeek st))
  /\ done `prefix_of` completedSequences (App.gameState (App.statusEffect K st))
  /\ done `prefix_of` completedSequences (App.gameState (App.schedulerEffect K st))
  /\ (forall s n,
        App.currentMeeting st = None ->
        App.currentMeeting (App.schedulerEffect K st) = Some (s, n) ->
        In s (sequences K)
        /\ ~ In (sequence_id s) done
        /\ (isInevitable s = true \/ isContingent s = true)).
Proof.
  cbv zeta.
  assert (Hadv : forall j,
             completedSequences (App.gameState st)
               `prefix_of` completedSequences
                             (App.advanceTime K (App_stateAfterMeetingEnd K st j))).
  { intros j. destruct (App_advanceTime_frame K (App_stateAfterMeetingEnd K st j))
      as (_ & _ & _ & ->). apply App_stateAfterMeetingEnd_completed. }
  split.
  { destruct (App_handlePlayerAction_gameState K st a pl)
      as [-> | [(f & sc & o & ->) | (j & ->)]]; [reflexivity | reflexivity | apply Hadv]. }
  split.
  { unfold App.tick. repeat case_match; try reflexivity. apply (Hadv None). }
  split; [apply (Hadv None)|].
  split; [reflexivity|].
  split; [now rewrite App_statusEffect_completed|].
  destruct (schedulerEffect_cases K st)
    as [Hsame | (Hm & _ & _ & s & sh & Hfound & Hsh & Heq)].
  - rewrite Hsame. split; [reflexivity|].
    intros s n Hm Hm'. rewrite Hm in Hm'. discriminate.
  - rewrite Heq. split; [reflexivity|].
    intros s' n _. unfold App.startSequence. simpl. intros [= <- <-].
    destruct Hfound as [Hf|Hf]; apply find_some in Hf as [Hin Hdue];
      unfold App.inevitableDue, App.contingentDue in Hdue;
      rewrite !andb_true_iff, negb_true_iff in Hdue;
      (split; [exact Hin|]); (split; [|tauto]);
      rewrite <- includes_true; intros E;
      destruct Hdue as [[[? E'] _] _] || destruct Hdue as [[? E'] _]; congruence.
Qed.

(** ** The countdown *)





Lemma App_advance_reads_the_game cl cl' K j s s' :
  App.gameState cl = App.gameState cl' ->
  App.characterInFocus cl = App.characterInFocus cl' ->
  App.setCountdown 0 s = App.setCountdown 0 s' ->
  App.advanceTimeAndUpdateFocus K cl j s = App.advanceTimeAndUpdateFocus K cl' j s'.
Proof.
  intros Hg Hf Hs. unfold App.advanceTimeAndUpdateFocus. rewrite Hg, Hf.
  destruct s, s'. unfold App.setCountdown in Hs. simpl in *.
  injection Hs as -> -> -> -> -> -> -> -> -> -> -> ->. reflexivity.
Qed.

Ltac innovatec_fields :=
  cbv [Innovatec.setGameState Innovatec.setCharacterInFocus
       Innovatec.setCurrentDialogue Innovatec.setPlayerActions
       Innovatec.setIsLoading Innovatec.setSchedulingState
       Innovatec.setSelectedSlot Innovatec.setStakeholderToSchedule
       Innovatec.setCountdown Innovatec.setIsTimerPaused
       Innovatec.setGameStatus Innovatec.setEndGameMessage
       Innovatec.setCurrentMeeting Innovatec.setWarningPopupMessage
       Innovatec.setIsGameStarted Innovatec.setSecretary Innovatec.setActiveTab
       Innovatec.isGameStarted Innovatec.gameState Innovatec.secretary
       Innovatec.characterInFocus Innovatec.currentDialogue
       Innovatec.playerActions Innovatec.isLoading Innovatec.activeTab
       Innovatec.schedulingState Innovatec.selectedSlot
       Innovatec.stakeholderToSchedule Innovatec.countdown
       Innovatec.isTimerPaused Innovatec.gameStatus Innovatec.endGameMessage
       Innovatec.currentMeeting Innovatec.warningPopupMessage].



(** ** Sorting *)

Section Sorting.
Context {A : Type} (cmp : A -> A -> Z).

Lemma insertWith_perm x l : insertWith cmp x l ≡ₚ x :: l.
Proof.
  induction l as [|y r IH]; simpl; [reflexivity|].
  destruct (cmp x y <=? 0); [reflexivity|].
  rewrite IH. apply Permutation_swap.
Qed.

Lemma sortWith_perm l : sortWith cmp l ≡ₚ l.
Proof.
  unfold sortWith. induction l as [|y r IH]; simpl; [reflexivity|].
  rewrite insertWith_perm. now f_equiv.
Qed.

Hypothesis cmp_total : forall a b, 0 < cmp a b -> cmp b a <= 0.
Hypothesis cmp_trans : forall a b c, cmp a b <= 0 -> cmp b c <= 0 -> cmp a c <= 0.

Lemma insertWith_sorted x l :
  StronglySorted (fun a b => cmp a b <= 0) l ->
  StronglySorted (fun a b => cmp a b <= 0) (insertWith cmp x l).
Proof.
  induction 1 as [|y r Hs IH Hy]; simpl.
  - repeat constructor.
  - destruct (Z.leb_spec (cmp x y) 0).
    + constructor; [constructor; assumption|].
      constructor; [assumption|].
      eapply Forall_impl; [exact Hy|]. intros z Hz. eapply cmp_trans; eauto.
    + constructor; [exact IH|].
      rewrite insertWith_perm. constructor; [apply cmp_total; lia | exact Hy].
Qed.

Lemma sortWith_sorted l : StronglySorted (fun a b => cmp a b <= 0) (sortWith cmp l).
Proof.
  unfold sortWith. induction l as [|y r IH]; simpl; [constructor|].
  now apply insertWith_sorted.
Qed.

End Sorting.

Lemma insertWith_key_filter {A : Type} (key : A -> Z) k x l :
  List.filter (fun y => key y =? k) (insertWith (fun a b => key a - key b) x l)
  = List.filter (fun y => key y =? k) (x :: l).
Proof.
  induction l as [|y r IH]; [reflexivity|].
  cbn [insertWith]. destruct (Z.leb_spec (key x - key y) 0); [reflexivity|].
  cbn [List.filter] in *. rewrite IH.
  destruct (Z.eqb_spec (key x) k), (Z.eqb_spec (key y) k); try reflexivity; lia.
Qed.

(** The sort is stable: the entries of one key keep their order. *)
Lemma sortWith_key_stable {A : Type} (key : A -> Z) k l :
  List.filter (fun y => key y =? k) (sortWith (fun a b => key a - key b) l)
  = List.filter (fun y => key y =? k) l.
Proof.
  unfold sortWith. induction l as [|y r IH]; [reflexivity|].
  cbn [foldr]. rewrite insertWith_key_filter. cbn [List.filter]. now rewrite IH.
Qed.

Lemma find_filter {A : Type} (p q : A -> bool) l :
  find p (List.filter q l) = find (fun y => q y && p y) l.
Proof.
  induction l as [|y r IH]; [reflexivity|]. simpl.
  destruct (q y); simpl; [destruct (p y)|]; auto.
Qed.

Lemma find_ext_in {A : Type} (p q : A -> bool) l :
  (forall y, In y l -> p y = q y) -> find p l = find q l.
Proof.
  induction l as [|y r IH]; [reflexivity|]. intros H. simpl.
  rewrite (H y) by now left. destruct (q y); [reflexivity|].
  apply IH. intros z Hz. apply H. now right.
Qed.

(** The first hit of a search in a sorted list is a least hit. *)
Lemma find_sorted_least {A : Type} (key : A -> Z) (p : A -> bool) l x :
  StronglySorted (fun a b => key a - key b <= 0) l ->
  find p l = Some x ->
  forall y, In y l -> p y = true -> key x <= key y.
Proof.
  induction 1 as [|z r Hs IH Hz]; [discriminate|]. simpl.
  destruct (p z) eqn:Hp.
  - intros [= ->] y [->|Hy] _; [lia|].
    rewrite List.Forall_forall in Hz. specialize (Hz y Hy). simpl in Hz. lia.
  - intros Hf y [->|Hy] Hpy; [congruence|]. now apply IH.
Qed.

(** The first hit in the sorted list is the first hit of its key in the
    unsorted one. *)
Lemma find_sorted_first_of_key {A : Type} (key : A -> Z) (p : A -> bool) l x :
  find p (sortWith (fun a b => key a - key b) l) = Some x ->
  find (fun y => (key y =? key x) && p y) l = Some x.
Proof.
  intros Hf. rewrite <- find_filter, <- (sortWith_key_stable key (key x) l), find_filter.
  revert Hf. generalize (sortWith (fun a b => key a - key b) l) as s.
  induction s as [|z r IH]; [discriminate|]. simpl.
  destruct (p z) eqn:Hp.
  - intros [= ->]. now rewrite Z.eqb_refl.
  - intros Hf. rewrite andb_false_r. now apply IH.
Qed.

(** ** Walking to a staff member on the map *)

Lemma find_none_iff {A : Type} (p : A -> bool) l :
  find p l = None <-> forall y, In y l -> p y = false.
Proof.
  split; [apply find_none|]. intros H.
  destruct (find p l) as [y|] eqn:E; [|reflexivity].
  apply find_some in E as [Hin Hp]. rewrite (H y Hin) in Hp. discriminate.
Qed.

(** X12. Walking to a staff member costs six seconds of the countdown.
    When that exhausts the countdown and the handler sees it, the walk is
    a plain advance of the clock and nothing else.  Otherwise the game
    state is untouched and the countdown loses six seconds, stopping at
    zero; and while the scheduler has an inevitable or contingent sequence
    due, the walk is refused: the handler answers false, a warning is
    raised and neither focus, meeting nor actions change. *)
Theorem X12_walking_costs_six_seconds K st staff ranAtOnce :
  let g := App.gameState st in
  let st' := fst (App.handleMapInteract K st staff ranAtOnce) in
  let answer := snd (App.handleMapInteract K st staff ranAtOnce) in
  (ranAtOnce = true -> App.countdown st <= 6 ->
     st' = App.handleManualAdvance K st /\ answer = false)
  /\ (ranAtOnce = false \/ 6 < App.countdown st ->
        App.gameState st' = g
        /\ App.countdown st' = Z.max 0 (App.countdown st - 6)
        /\ (find (App.inevitableDue g) (sequences K) <> None
            \/ find (App.contingentDue g) (sequences K) <> None ->
            answer = false
            /\ App.warningPopupMessage st' <> None
            /\ App.characterInFocus st' = App.characterInFocus st
            /\ App.currentMeeting st' = App.currentMeeting st
            /\ App.playerActions st' = App.playerActions st
            /\ App.isTimerPaused st' = App.isTimerPaused st)).
Proof.
  cbv zeta. split.
  - intros -> Hc. unfold App.handleMapInteract.
    destruct (Z.leb_spec (App.countdown st - 6) 0); [|lia]. simpl. split; [|reflexivity].
    unfold App.handleManualAdvance.
    apply App_advance_reads_the_game; reflexivity.
  - intros Hrun. unfold App.handleMapInteract.
    assert (Hflag : ranAtOnce && (App.countdown st - 6 <=? 0) = false).
    { destruct Hrun as [-> | Hc]; [reflexivity|].
      destruct (Z.leb_spec (App.countdown st - 6) 0); [lia|]. apply andb_false_r. }
    cbv zeta. rewrite Hflag.
    assert (Hcd : (if App.countdown st - 6 <=? 0 then 0 else App.countdown st - 6)
                  = Z.max 0 (App.countdown st - 6)).
    { destruct (Z.leb_spec (App.countdown st - 6) 0); lia. }
    rewrite Hcd.
    destruct (find (App.inevitableDue _) _) as [si|] eqn:Hi.
    { simpl. repeat split; try reflexivity; discriminate. }
    destruct (find (App.contingentDue _) _) as [sc|] eqn:Hc.
    { simpl. repeat split; try reflexivity; discriminate. }
    destruct (find _ (stakeholders _)) as [sh|] eqn:Hsh.
    2:{ simpl. split; [reflexivity|]. split; [reflexivity|]. intros [H|H]; congruence. }
    destruct (find _ (sortWith _ _)) as [seq|] eqn:Hseq.
    + unfold App.startSequence. simpl. split; [reflexivity|]. split; [reflexivity|].
      intros [H|H]; congruence.
    + simpl. split; [reflexivity|]. split; [reflexivity|]. intros [H|H]; congruence.
Qed.

(** X13. When a walk starts a meeting, the sequence it starts is a
    proactive one: a sequence of the catalogue that is neither inevitable
    nor contingent, belongs to the role of the stakeholder whose id the
    staff member bears, and is not completed.  No inevitable or contingent
    sequence is due then.  Among the sequences that qualify it is one of
    least order number, and of those of that order the first of the
    catalogue.  It starts at node 0 and neither pauses the timer nor
    touches the game state. *)
Theorem X13_walk_starts_the_least_proactive_sequence K st staff ranAtOnce seq (n : nat) :
  App.currentMeeting st = None ->
  App.currentMeeting (fst (App.handleMapInteract K st staff ranAtOnce)) = Some (seq, n) ->
  let g := App.gameState st in
  let st' := fst (App.handleMapInteract K st staff ranAtOnce) in
  let qualifies sh s :=
    App.proactiveFor sh s && negb (includes (completedSequences g) (sequence_id s)) in
  n = 0%nat
  /\ snd (App.handleMapInteract K st staff ranAtOnce) = true
  /\ find (App.inevitableDue g) (sequences K) = None
  /\ find (App.contingentDue g) (sequences K) = None
  /\ (exists sh,
        find (fun sh => bool_decide (sh_id sh = App.staff_id staff)) (stakeholders g)
          = Some sh
        /\ App.characterInFocus st' = Some sh
        /\ In seq (sequences K)
        /\ qualifies sh seq = true
        /\ (forall s, In s (sequences K) -> qualifies sh s = true ->
              App.getSequenceOrder (sequence_id seq)
                <= App.getSequenceOrder (sequence_id s))
        /\ find (fun s => (App.getSequenceOrder (sequence_id s)
                             =? App.getSequenceOrder (sequence_id seq))
                          && qualifies sh s)
                (sequences K) = Some seq)
  /\ isInevitable seq = false /\ isContingent seq = false
  /\ App.gameState st' = g
  /\ App.isTimerPaused st' = App.isTimerPaused st.
Proof.
  intros Hm. cbv zeta. unfold App.handleMapInteract. cbv zeta.
  destruct (ranAtOnce && _).
  { simpl. rewrite Hm. discriminate. }
  destruct (find (App.inevitableDue _) _) as [si|] eqn:Hi.
  { simpl. rewrite Hm. discriminate. }
  destruct (find (App.contingentDue _) _) as [sc|] eqn:Hc.
  { simpl. rewrite Hm. discriminate. }
  destruct (find _ (stakeholders _)) as [sh|] eqn:Hsh.
  2:{ simpl. rewrite Hm. discriminate. }
  destruct (find _ (sortWith _ _)) as [s0|] eqn:Hseq.
  2:{ simpl. rewrite Hm. discriminate. }
  unfold App.startSequence. simpl. intros [= <- <-].
  set (key := fun s : MeetingSequence => App.getSequenceOrder (sequence_id s)) in *.
  set (unfinished := fun s : MeetingSequence =>
         negb (includes (completedSequences (App.gameState st)) (sequence_id s))) in *.
  pose proof (find_some _ _ Hseq) as [Hin Hun].
  apply (Permutation_in _ (sortWith_perm _ _)) in Hin.
  apply filter_In in Hin as [Hin Hpro].
  assert (Hflags : isInevitable s0 = false /\ isContingent s0 = false).
  { unfold App.proactiveFor in Hpro. rewrite !andb_true_iff, !negb_true_iff in Hpro. tauto. }
  split; [reflexivity|]. split; [reflexivity|]. split; [reflexivity|].
  split; [reflexivity|]. split.
  - exists sh. split; [reflexivity|]. split; [reflexivity|]. split; [exact Hin|].
    split; [now rewrite Hpro|]. split.
    + intros s Hs Hq. apply andb_true_iff in Hq as [Hq1 Hq2].
      refine (find_sorted_least key unfinished _ s0 _ Hseq s _ Hq2).
      * apply (sortWith_sorted (fun a b => key a - key b)); intros; lia.
      * apply (Permutation_in _ (Permutation_sym (sortWith_perm _ _))).
        apply filter_In. auto.
    + apply (find_sorted_first_of_key key) in Hseq. rewrite find_filter in Hseq.
      rewrite <- Hseq. apply find_ext_in. intros y _.
      fold (key y) (key s0) (unfinished y).
      destruct (App.proactiveFor sh y), (key y =? key s0), (unfinished y); reflexivity.
  - destruct Hflags as [-> ->]. simpl. auto.
Qed.

(** ** The schedule of the sequences *)

Lemma find_app {A : Type} (p : A -> bool) l1 l2 :
  find p (l1 ++ l2) = match find p l1 with Some x => Some x | None => find p l2 end.
Proof.
  induction l1 as [|y r IH]; [reflexivity|]. simpl. destruct (p y); auto.
Qed.

Lemma initial_schedule_lookup (l : list MeetingSequence)
    (m : gmap string (Z * TimeSlotType)) id :
  fold_left
    (fun sched seq =>
       match triggerMap seq with
       | Some tm =>
           if isInevitable seq || isContingent seq
           then <[sequence_id seq := tm]> sched else sched
       | None => sched
       end) l m !! id
  = match find (fun s => bool_decide (sequence_id s = id)
                         && isSet (triggerMap s)
                         && (isInevitable s || isContingent s)) (rev l) with
    | Some s => triggerMap s
    | None => m !! id
    end.
Proof.
  revert m. induction l as [|s l IH]; intros m; [reflexivity|].
  cbn [fold_left rev]. rewrite IH, find_app.
  destruct (find _ (rev l)) as [x|]; [reflexivity|].
  cbn [find]. destruct (triggerMap s) as [tm|] eqn:Htm; cbn [isSet].
  - destruct (isInevitable s || isContingent s).
    + destruct (bool_decide_reflect (sequence_id s = id)) as [<-|Hne]; simpl.
      * now rewrite Htm, lookup_insert_eq.
      * now rewrite lookup_insert_ne.
    + now rewrite andb_false_r.
  - now rewrite andb_false_r.
Qed.

(** X14. The first state of a session is the initial constant with a
    schedule of its own.  An id's entry in that schedule is the trigger
    point of the last sequence of the catalogue that bears the id, has a
    trigger point and is inevitable or contingent; without such a sequence
    the two fixed ids stand at day 1 in the afternoon and every other id
    has no entry.  A sequence whose id no later sequence bears is
    therefore scheduled at its own trigger point. *)
Theorem X14_the_initial_schedule K INITIAL_GAME_STATE id :
  let g := App.createInitialGameState K INITIAL_GAME_STATE in
  let scheduled s :=
    isSet (triggerMap s) && (isInevitable s || isContingent s) in
  scenarioSchedule g !! id
  = match find (fun s => bool_decide (sequence_id s = id) && scheduled s)
               (rev (sequences K)) with
    | Some s => triggerMap s
    | None =>
        if bool_decide (id = "EVENT_STORM") || bool_decide (id = "AZUL_MEETING_BLOCKED")
        then Some (1, "tarde") else None
    end
  /\ set_scenarioSchedule g (scenarioSchedule INITIAL_GAME_STATE) = INITIAL_GAME_STATE
  /\ (forall before s after,
        sequences K = before ++ s :: after ->
        sequence_id s = id -> scheduled s = true ->
        Forall (fun s' => sequence_id s' <> id) after ->
        scenarioSchedule g !! id = triggerMap s).
Proof.
  cbv zeta.
  assert (Hlook : forall id0,
    scenarioSchedule (App.createInitialGameState K INITIAL_GAME_STATE) !! id0
    = match find (fun s => bool_decide (sequence_id s = id0)
                           && (isSet (triggerMap s) && (isInevitable s || isContingent s)))
                 (rev (sequences K)) with
      | Some s => triggerMap s
      | None =>
          if bool_decide (id0 = "EVENT_STORM") || bool_decide (id0 = "AZUL_MEETING_BLOCKED")
          then Some (1, "tarde") else None
      end).
  { intros id0. unfold App.createInitialGameState. cbv zeta.
    cbn [scenarioSchedule set_scenarioSchedule].
    rewrite initial_schedule_lookup.
    erewrite find_ext_in; [|intros y _; symmetry; apply andb_assoc].
    destruct (find _ (rev (sequences K))); [reflexivity|].
    destruct (bool_decide_reflect (id0 = "AZUL_MEETING_BLOCKED")) as [->|H1].
    { now rewrite lookup_insert_eq. }
    rewrite lookup_insert_ne by congruence.
    destruct (bool_decide_reflect (id0 = "EVENT_STORM")) as [->|H2].
    { now rewrite lookup_insert_eq. }
    rewrite lookup_insert_ne by congruence. reflexivity. }
  split; [apply Hlook|]. split.
  { unfold App.createInitialGameState. now destruct INITIAL_GAME_STATE. }
  intros before s after Hcat Hid Hsch Hafter.
  rewrite Hlook, Hcat, rev_app_distr. cbn [rev]. rewrite <- app_assoc, find_app.
  assert (Hnone : find (fun s0 => bool_decide (sequence_id s0 = id)
                                  && (isSet (triggerMap s0)
                                      && (isInevitable s0 || isContingent s0)))
                       (rev after) = None).
  { apply find_none_iff. intros y Hy. apply in_rev in Hy.
    rewrite List.Forall_forall in Hafter. specialize (Hafter y Hy).
    destruct (bool_decide_reflect (sequence_id y = id)); [contradiction|reflexivity]. }
  rewrite Hnone. cbn [app find].
  rewrite Hsch, andb_true_r. destruct (bool_decide_reflect (sequence_id s = id)); [reflexivity|contradiction].
Qed.

(** X15. Rescheduling a sequence changes its entry of the schedule and
    nothing else.  Afterwards an inevitable sequence of that id is due
    exactly when it is not completed and the new point is the current day
    and slot; whether any other sequence is due, and whether any
    contingent sequence is, is as before.  A second rescheduling of the
    same id overrides the first. *)
Theorem X15_rescheduling_a_sequence id (d : Z) slot st seq :
  let st' := App.handleUpdateScenarioSchedule id d slot st in
  let g := App.gameState st in
  App.inevitableDue (App.gameState st') seq
  = (if bool_decide (sequence_id seq = id)
     then isInevitable seq
          && negb (includes (completedSequences g) (sequence_id seq))
          && bool_decide (d = day g) && bool_decide (slot = timeSlot g)
     else App.inevitableDue g seq)
  /\ App.contingentDue (App.gameState st') seq = App.contingentDue g seq
  /\ set_scenarioSchedule (App.gameState st') (scenarioSchedule g) = g
  /\ (forall d2 slot2,
        App.handleUpdateScenarioSchedule id d2 slot2 st'
        = App.handleUpdateScenarioSchedule id d2 slot2 st)
  /\ App.setGameState g st' = st.
Proof.
  cbv zeta. unfold App.handleUpdateScenarioSchedule. cbv zeta.
  cbn [App.gameState App.setGameState].
  split.
  { unfold App.inevitableDue.
    cbn [scenarioSchedule completedSequences day timeSlot set_scenarioSchedule].
    destruct (bool_decide_reflect (sequence_id seq = id)) as [->|Hne].
    - rewrite lookup_insert_eq. cbn [fmap option_fmap option_map fst snd].
      f_equal; [f_equal|]; apply bool_decide_ext; split; congruence.
    - rewrite lookup_insert_ne by congruence. reflexivity. }
  split; [reflexivity|].
  split; [now destruct (App.gameState st)|].
  split.
  { intros d2 slot2. unfold App.setGameState. cbn.
    f_equal. unfold set_scenarioSchedule. cbn. f_equal. apply insert_insert_eq. }
  now destruct st.
Qed.

(** ** Reading emails and documents *)

Lemma set_isRead_idem e : set_isRead (set_isRead e true) true = set_isRead e true.
Proof. reflexivity. Qed.

Lemma markRead_twice id (l : list InboxEmail) :
  map (fun e => if bool_decide (email_id e = id) then set_isRead e true else e)
    (map (fun e => if bool_decide (email_id e = id) then set_isRead e true else e) l)
  = map (fun e => if bool_decide (email_id e = id) then set_isRead e true else e) l.
Proof.
  rewrite map_map. apply map_ext. intros e.
  destruct (bool_decide_reflect (email_id e = id)) as [H|H]; simpl.
  - now rewrite bool_decide_eq_true_2.
  - now rewrite bool_decide_eq_false_2.
Qed.

(** X16. Marking an email as read, in both games, keeps the ids, the days
    and the order of the inbox, never turns a read email unread, leaves
    the emails of other ids as they are and leaves every email of the id
    read.  In the default game a second marking changes nothing; in the
    Innovatec game it changes nothing but the log of player actions, which
    grows by one entry at every marking.  Marking a document as read adds
    it to the read documents unless it is there already, so a list without
    duplicates stays one and a second marking changes nothing. *)
Theorem X16_reading_twice K id (sa : App.State) (si : Innovatec.State) le le' :
  let read e := if bool_decide (email_id e = id) then set_isRead e true else e in
  let sa' := App.handleMarkEmailAsRead id sa in
  let si' := Innovatec.handleMarkEmailAsRead K id le si in
  let sd := App.handleMarkDocumentAsRead id sa in
  inbox (App.gameState sa') = map read (inbox (App.gameState sa))
  /\ inbox (Innovatec.gameState si') = map read (inbox (Innovatec.gameState si))
  /\ (forall l, map email_id (map read l) = map email_id l
                /\ map dayReceived (map read l) = map dayReceived l
                /\ Forall2 (fun e e' => isRead e = true -> isRead e' = true) l (map read l)
                /\ Forall (fun e' => email_id e' = id -> isRead e' = true) (map read l))
  /\ App.handleMarkEmailAsRead id sa' = sa'
  /\ set_inbox (App.gameState sa') (inbox (App.gameState sa)) = App.gameState sa
  /\ Innovatec.gameState (Innovatec.handleMarkEmailAsRead K id le' si')
     = set_calendar_log (Innovatec.gameState si') (calendar (Innovatec.gameState si'))
         (playerActionsLog (Innovatec.gameState si) ++ [le; le'])
  /\ App.handleMarkDocumentAsRead id sd = sd
  /\ In id (readDocuments (App.gameState sd))
  /\ (NoDup (readDocuments (App.gameState sa)) ->
      NoDup (readDocuments (App.gameState sd))).
Proof.
  cbv zeta. split; [reflexivity|]. split; [reflexivity|]. split.
  { intros l. split; [|split; [|split]].
    - rewrite map_map. apply map_ext. intros e. now destruct (bool_decide _).
    - rewrite map_map. apply map_ext. intros e. now destruct (bool_decide _).
    - induction l as [|e l IH]; constructor; [|exact IH].
      now destruct (bool_decide _).
    - apply List.Forall_forall. intros e' He'. apply in_map_iff in He' as (e & <- & _).
      destruct (bool_decide_reflect (email_id e = id)); [reflexivity|].
      intros; contradiction. }
  split.
  { unfold App.handleMarkEmailAsRead. cbv zeta.
    cbn [App.gameState App.setGameState inbox set_inbox].
    rewrite markRead_twice. reflexivity. }
  split.
  { unfold App.handleMarkEmailAsRead. cbv zeta. cbn [App.gameState App.setGameState].
    now destruct (App.gameState sa). }
  split.
  { unfold Innovatec.handleMarkEmailAsRead. cbv zeta.
    cbn [Innovatec.gameState Innovatec.setGameState inbox stakeholder_preferences
         playerActionsLog set_inbox_preferences_log].
    rewrite markRead_twice.
    unfold set_inbox_preferences_log, set_calendar_log. cbn.
    rewrite <- app_assoc. cbn [app]. f_equal.
    destruct (find _ (EMAIL_TEMPLATES K)) as [t|]; [|reflexivity].
    destruct (grants_information t) as [info|]; [|reflexivity].
    destruct (truthy info && _); [|reflexivity].
    apply insert_insert_eq. }
  unfold App.handleMarkDocumentAsRead. cbv zeta.
  destruct (includes (readDocuments (App.gameState sa)) id) eqn:Hin.
  - rewrite Hin. split; [reflexivity|]. split; [now apply includes_true|]. auto.
  - cbn [App.gameState App.setGameState readDocuments set_readDocuments].
    assert (Hnow : includes (readDocuments (App.gameState sa) ++ [id]) id = true).
    { apply includes_true, in_app_iff. right. now left. }
    rewrite Hnow. split; [reflexivity|].
    split; [now apply includes_true|].
    intros Hnd. apply NoDup_app. split; [exact Hnd|]. split.
    + intros x Hx Hx'. apply list_elem_of_singleton in Hx' as ->.
      assert (includes (readDocuments (App.gameState sa)) id = true).
      { apply includes_true. now apply list_elem_of_In. }
      congruence.
    + apply NoDup_singleton.
Qed.

(** ** The effects of the start *)

Lemma filter_all_false {A : Type} (p : A -> bool) l :
  (forall y, In y l -> p y = false) -> List.filter p l = [].
Proof.
  induction l as [|y r IH]; [reflexivity|]. intros H. simpl.
  rewrite (H y) by now left. apply IH. intros z Hz. apply H. now right.
Qed.

Lemma App_setIsTimerPaused_twice b st :
  App.setIsTimerPaused b (App.setIsTimerPaused b st) = App.setIsTimerPaused b st.
Proof. reflexivity. Qed.

Lemma secretaryEffect_fields K si sec :
  Innovatec.isGameStarted si = true ->
  findByRole (SECRETARY_ROLE K) (stakeholders (Innovatec.gameState si)) = Some sec ->
  let si' := Innovatec.secretaryEffect K si in
  Innovatec.characterInFocus si' = Some sec
  /\ Innovatec.secretary si' = Some sec
  /\ Innovatec.isTimerPaused si' = true
  /\ Innovatec.playerActions si' = Innovatec.getInitialSecretaryActions
  /\ inbox (Innovatec.gameState si')
     = if isSet (find (fun t => bool_decide (t_email_id t = "email-001-welcome"))
                   (EMAIL_TEMPLATES K))
          && negb (existsb (fun e => bool_decide (email_id e = "email-001-welcome"))
                     (inbox (Innovatec.gameState si)))
       then inbox (Innovatec.gameState si)
            ++ [{| email_id := "email-001-welcome"; dayReceived := 1; isRead := false |}]
       else inbox (Innovatec.gameState si).
Proof.
  intros Hgs Hsec. cbv zeta. unfold Innovatec.secretaryEffect. rewrite Hgs, Hsec.
  cbn [negb]. cbv zeta. unfold Innovatec.setPersonalizedDialogue.
  cbn [Innovatec.gameState Innovatec.setGameState Innovatec.setIsTimerPaused
       Innovatec.setPlayerActions Innovatec.setCurrentDialogue
       Innovatec.setCharacterInFocus Innovatec.setSecretary].
  destruct (isSet _ && _); innovatec_fields; repeat split; reflexivity.
Qed.

Lemma secretaryEffect_twice K si :
  Innovatec.secretaryEffect K (Innovatec.secretaryEffect K si)
  = Innovatec.secretaryEffect K si.
Proof.
  destruct (Innovatec.isGameStarted si) eqn:Hgs.
  2:{ assert (Hoff : Innovatec.secretaryEffect K si = si)
        by (unfold Innovatec.secretaryEffect; now rewrite Hgs).
      now rewrite !Hoff. }
  destruct (findByRole (SECRETARY_ROLE K) (stakeholders (Innovatec.gameState si)))
    as [sec|] eqn:Hsec.
  2:{ assert (Hoff : Innovatec.secretaryEffect K si = si)
        by (unfold Innovatec.secretaryEffect; now rewrite Hgs, Hsec).
      now rewrite !Hoff. }
  destruct si. cbn [Innovatec.isGameStarted Innovatec.gameState] in Hgs, Hsec. subst.
  unfold Innovatec.secretaryEffect at 2. unfold Innovatec.setPersonalizedDialogue.
  innovatec_fields. cbn [negb]. rewrite Hsec.
  destruct (isSet _ && _) eqn:Hw.
  - unfold Innovatec.secretaryEffect, Innovatec.setPersonalizedDialogue.
    innovatec_fields. cbn [negb stakeholders inbox playerName set_inbox].
    rewrite Hsec, existsb_app. cbn [existsb].
    rewrite bool_decide_eq_true_2 by reflexivity.
    rewrite orb_true_r, andb_false_r, Hw. reflexivity.
  - unfold Innovatec.secretaryEffect, Innovatec.setPersonalizedDialogue.
    innovatec_fields. cbn [negb]. rewrite Hsec, Hw. reflexivity.
Qed.

(** X17. The welcome effect of the default game files every start-up
    email that the inbox lacks, unread and dated day 1, behind the emails
    already there, and starts the timer; it touches nothing else.  After
    it every start-up template has its email in the inbox, and a second
    run changes nothing.  The secretary effect of the Innovatec game puts
    the secretary in focus with the timer paused; a second run changes
    nothing either, and the welcome email is never filed twice. *)
Theorem X17_the_start_effects_run_once K (sa : App.State) (si : Innovatec.State) :
  let sa' := App.welcomeEffect K sa in
  let si' := Innovatec.secretaryEffect K si in
  App.welcomeEffect K sa' = sa'
  /\ Innovatec.secretaryEffect K si' = si'
  /\ (App.appStep sa = App.game ->
      App.isTimerPaused sa' = false
      /\ (exists new,
            inbox (App.gameState sa') = inbox (App.gameState sa) ++ new
            /\ Forall (fun e => dayReceived e = 1 /\ isRead e = false
                                /\ ~ In (email_id e)
                                     (map email_id (inbox (App.gameState sa)))) new)
      /\ set_inbox (App.gameState sa') (inbox (App.gameState sa)) = App.gameState sa
      /\ forall t, In t (EMAIL_TEMPLATES K) ->
           trigger_stakeholder_id t = "system-startup" ->
           In (t_email_id t) (map email_id (inbox (App.gameState sa'))))
  /\ (forall sec, Innovatec.isGameStarted si = true ->
        findByRole (SECRETARY_ROLE K) (stakeholders (Innovatec.gameState si)) = Some sec ->
        Innovatec.characterInFocus si' = Some sec
        /\ Innovatec.secretary si' = Some sec
        /\ Innovatec.isTimerPaused si' = true
        /\ Innovatec.playerActions si' = Innovatec.getInitialSecretaryActions
        /\ length (List.filter (fun e => bool_decide (email_id e = "email-001-welcome"))
                     (inbox (Innovatec.gameState si')))
           = (if isSet (find (fun t => bool_decide (t_email_id t = "email-001-welcome"))
                          (EMAIL_TEMPLATES K))
              then Nat.max 1 else id)
               (length (List.filter
                          (fun e => bool_decide (email_id e = "email-001-welcome"))
                          (inbox (Innovatec.gameState si))))).
Proof.
  cbv zeta.
  set (mk := fun t => {| email_id := t_email_id t; dayReceived := 1; isRead := false |}).
  set (startup := List.filter
         (fun t => bool_decide (trigger_stakeholder_id t = "system-startup"))
         (EMAIL_TEMPLATES K)).
  set (lacking := fun (box : list InboxEmail) t =>
         negb (existsb (fun e => bool_decide (email_id e = t_email_id t)) box)).
  assert (Hfiled : forall box t, In t startup ->
            lacking (box ++ map mk (List.filter (lacking box) startup)) t = false).
  { intros box t Ht. unfold lacking at 1. rewrite existsb_app, negb_false_iff.
    destruct (existsb _ box) eqn:Hbox; [reflexivity|]. simpl.
    apply existsb_exists. exists (mk t). split; [|now apply bool_decide_eq_true].
    apply in_map, filter_In. split; [exact Ht|]. unfold lacking. now rewrite Hbox. }
  assert (Hshape : forall st, App.appStep st = App.game ->
            App.welcomeEffect K st
            = let s := App.setIsTimerPaused false st in
              match List.filter (lacking (inbox (App.gameState st))) startup with
              | [] => s
              | _ :: _ =>
                  App.setGameState
                    (set_inbox (App.gameState st)
                       (inbox (App.gameState st)
                        ++ map mk (List.filter (lacking (inbox (App.gameState st)))
                                     startup))) s
              end).
  { intros st Hst. unfold App.welcomeEffect. rewrite Hst. cbn [bool_decide negb].
    rewrite bool_decide_eq_true_2 by reflexivity. cbv zeta. cbn [negb App.gameState App.setIsTimerPaused].
    fold mk. fold startup. fold (lacking (inbox (App.gameState st))).
    destruct (List.filter (lacking _) startup); reflexivity. }
  split.
  { destruct (bool_decide_reflect (App.appStep sa = App.game)) as [Hst|Hst].
    2:{ assert (Hoff : App.welcomeEffect K sa = sa).
        { unfold App.welcomeEffect. now rewrite bool_decide_eq_false_2. }
        now rewrite !Hoff. }
    rewrite (Hshape sa Hst). cbv zeta.
    destruct (List.filter (lacking _) startup) as [|t0 r] eqn:Hl.
    - rewrite Hshape by exact Hst. cbv zeta. cbn [App.gameState App.setIsTimerPaused].
      now rewrite Hl.
    - rewrite Hshape by exact Hst. cbv zeta.
      cbn [App.gameState App.setGameState App.setIsTimerPaused inbox set_inbox].
      rewrite <- Hl. rewrite (filter_all_false (lacking _)); [reflexivity|].
      intros y Hy. now apply Hfiled. }
  split; [apply secretaryEffect_twice|].
  split.
  { intros Hst. rewrite (Hshape sa Hst). cbv zeta.
    assert (Hnew : Forall (fun e => dayReceived e = 1 /\ isRead e = false
                     /\ ~ In (email_id e) (map email_id (inbox (App.gameState sa))))
                     (map mk (List.filter (lacking (inbox (App.gameState sa))) startup))).
    { apply List.Forall_forall. intros e He. apply in_map_iff in He as (t & <- & Ht).
      apply filter_In in Ht as [_ Ht]. split; [reflexivity|]. split; [reflexivity|].
      intros Hin. apply in_map_iff in Hin as (e & He & Hein).
      unfold lacking in Ht. apply negb_true_iff in Ht.
      assert (existsb (fun e0 => bool_decide (email_id e0 = t_email_id t))
                (inbox (App.gameState sa)) = true); [|congruence].
      apply existsb_exists. exists e. split; [exact Hein|].
      now apply bool_decide_eq_true. }
    assert (Hall : forall t, In t (EMAIL_TEMPLATES K) ->
              trigger_stakeholder_id t = "system-startup" ->
              In (t_email_id t)
                (map email_id (inbox (App.gameState sa)
                   ++ map mk (List.filter (lacking (inbox (App.gameState sa))) startup)))).
    { intros t Ht Hs.
      assert (Hin : In t startup).
      { apply filter_In. split; [exact Ht | now apply bool_decide_eq_true]. }
      specialize (Hfiled (inbox (App.gameState sa)) t Hin).
      unfold lacking at 1 in Hfiled. apply negb_false_iff, existsb_exists in Hfiled.
      destruct Hfiled as (e & He & Heq). apply bool_decide_eq_true in Heq.
      rewrite <- Heq. now apply in_map. }
    destruct (List.filter (lacking _) startup) as [|t0 r] eqn:Hl.
    - cbn [App.isTimerPaused App.gameState App.setIsTimerPaused].
      split; [reflexivity|]. split.
      { exists []. rewrite app_nil_r. split; [reflexivity | constructor]. }
      split; [now destruct (App.gameState sa)|].
      intros t Ht Hs. specialize (Hall t Ht Hs). now rewrite app_nil_r in Hall.
    - cbn [App.isTimerPaused App.gameState App.setGameState App.setIsTimerPaused
           inbox set_inbox].
      split; [reflexivity|]. split; [eauto|].
      split; [now destruct (App.gameState sa)|]. exact Hall. }
  intros sec Hgs Hsec.
  pose proof (secretaryEffect_fields K si sec Hgs Hsec) as (Hf & Hs & Hp & Ha & Hbox).
  split; [exact Hf|]. split; [exact Hs|]. split; [exact Hp|]. split; [exact Ha|].
  rewrite Hbox. clear.
  set (isWelcome := fun e : InboxEmail => bool_decide (email_id e = "email-001-welcome")).
  assert (Hcount : forall box : list InboxEmail,
            existsb isWelcome box = negb (length (List.filter isWelcome box) =? 0)%nat).
  { induction box as [|e box IH]; [reflexivity|]. simpl.
    destruct (isWelcome e); [reflexivity | exact IH]. }
  rewrite Hcount.
  destruct (isSet _); cbn [andb]; [|reflexivity].
  destruct (Nat.eqb_spec (length (List.filter isWelcome (inbox (Innovatec.gameState si)))) 0)
    as [Hz|Hz]; cbn [negb].
  - rewrite List.filter_app, length_app, Hz. reflexivity.
  - destruct (length (List.filter isWelcome (inbox (Innovatec.gameState si))));
      [contradiction | reflexivity].
Qed.

(** ** The calendar of the Innovatec game *)

Lemma removeFound_perm {A : Type} (p : A -> bool) l x :
  find p l = Some x -> l ≡ₚ x :: Innovatec.removeFound p l.
Proof.
  induction l as [|y r IH]; [discriminate|]. simpl.
  destruct (p y); [now intros [= ->]|].
  intros H. rewrite (IH H) at 1. apply Permutation_swap.
Qed.

Lemma Innovatec_advanceTime_calendar K g :
  calendar (Innovatec.advanceTime K g) = calendar g
  /\ inbox (Innovatec.advanceTime K g) = inbox g
  /\ playerActionsLog (Innovatec.advanceTime K g) = playerActionsLog g.
Proof.
  unfold Innovatec.advanceTime. cbv zeta.
  destruct (_ >? day g); [destruct (Innovatec.rolloverStakeholders _ _ _ _ _)|];
    repeat split; reflexivity.
Qed.

Lemma Innovatec_stateAfterMeetingEnd_calendar K cl j draws :
  calendar (Innovatec_stateAfterMeetingEnd K cl j draws)
  = calendar (Innovatec.gameState cl)
  /\ playerActionsLog (Innovatec_stateAfterMeetingEnd K cl j draws)
     = playerActionsLog (Innovatec.gameState cl).
Proof.
  unfold Innovatec_stateAfterMeetingEnd. cbv zeta.
  destruct j as [id|], (Innovatec.characterInFocus cl) as [prev|];
    repeat case_match; split; reflexivity.
Qed.

Ltac innovatec_advance K cl j draws n Hn :=
  unfold Innovatec.advanceTimeAndUpdateFocus; cbv zeta;
  match goal with
  | |- context [Innovatec.advanceTime K ?x] =>
      replace x with (Innovatec_stateAfterMeetingEnd K cl j draws)
        by (unfold Innovatec_stateAfterMeetingEnd; cbv zeta;
            destruct (Innovatec.characterInFocus cl), j as [?id|];
            try reflexivity; destruct (truthy id); reflexivity)
  end;
  remember (Innovatec.advanceTime K (Innovatec_stateAfterMeetingEnd K cl j draws))
    as n eqn:Hn.

(** X18. What the calendar does when the clock of the Innovatec game
    advances.  The advance itself leaves the calendar alone.  If the
    calendar holds no meeting for the new day and slot, the secretary
    takes the focus.  Otherwise the first such meeting decides: when its
    stakeholder is hostile and the draw falls below the threshold, that
    one entry leaves the calendar and the secretary takes the focus; in
    every other case the calendar is kept whole, the meeting included,
    and a stakeholder of the meeting's name takes the focus with the full
    period on the countdown, with the first uncompleted sequence of their
    role, if there is one, opened at node 0. *)
Theorem X18_a_scheduled_meeting_is_kept K cl j draws s :
  let n := Innovatec.advanceTime K (Innovatec_stateAfterMeetingEnd K cl j draws) in
  let upcoming := fun m : CalendarEntry =>
    bool_decide (m_day m = day n) && bool_decide (m_slot m = timeSlot n) in
  let st' := Innovatec.advanceTimeAndUpdateFocus K cl j draws s in
  let g' := Innovatec.gameState st' in
  let atSecretary :=
    forall sec, Innovatec.secretary cl = Some sec ->
      Innovatec.characterInFocus st' = Some sec
      /\ Innovatec.playerActions st' = Innovatec.getInitialSecretaryActions
      /\ Innovatec.schedulingState st' = Innovatec.none
      /\ Innovatec.countdown st' = Innovatec.PERIOD_DURATION
      /\ Innovatec.currentMeeting st' = Innovatec.currentMeeting s in
  calendar n = calendar (Innovatec.gameState cl)
  /\ g' = set_calendar_log n (calendar g') (playerActionsLog n)
  /\ (find upcoming (calendar n) = None -> g' = n /\ atSecretary)
  /\ (forall m t,
        find upcoming (calendar n) = Some m ->
        find (fun sh => bool_decide (name sh = stakeholderName m)) (stakeholders n)
          = Some t ->
        if bool_decide (mood t = "hostile") && Innovatec.belowCancelThreshold draws
        then calendar n ≡ₚ m :: calendar g'
             /\ calendar g' = Innovatec.removeFound upcoming (calendar n)
             /\ atSecretary
        else g' = n
             /\ In m (calendar g')
             /\ Innovatec.characterInFocus st' = Some t
             /\ Innovatec.countdown st' = Innovatec.PERIOD_DURATION
             /\ forall seq,
                  find (fun seq => bool_decide (stakeholderRole seq = role t)
                                   && negb (includes (completedSequences n)
                                              (sequence_id seq)))
                       (sequences K) = Some seq ->
                  Innovatec.currentMeeting st' = Some (seq, 0%nat)
                  /\ map action (Innovatec.playerActions st')
                     = ["start_meeting_sequence"])
  /\ (forall m,
        find upcoming (calendar n) = Some m ->
        find (fun sh => bool_decide (name sh = stakeholderName m)) (stakeholders n)
          = None ->
        st' = Innovatec.setGameState n s).
Proof.
  cbv zeta.
  split.
  { destruct (Innovatec_advanceTime_calendar K
                (Innovatec_stateAfterMeetingEnd K cl j draws)) as (-> & _ & _).
    apply Innovatec_stateAfterMeetingEnd_calendar. }
  innovatec_advance K cl j draws n Hn.
  unfold Innovatec.returnToSecretary, Innovatec.presentScenario,
    Innovatec.setPersonalizedDialogue.
  destruct (find _ (calendar n)) as [m|] eqn:Hm.
  - destruct (find _ (stakeholders n)) as [t|] eqn:Ht.
    + destruct (bool_decide (mood t = "hostile") && Innovatec.belowCancelThreshold draws)
        eqn:Hcancel.
      * split.
        { destruct (Innovatec.secretary cl); innovatec_fields; reflexivity. }
        split; [intros; discriminate|]. split; [|intros m0 [= <-] Hno; congruence].
        intros m0 t0 [= <-] Ht0. rewrite Ht in Ht0. injection Ht0 as <-. rewrite Hcancel.
        assert (Hcal : calendar (Innovatec.gameState
                   match Innovatec.secretary cl with
                   | Some sec =>
                       Innovatec.setCountdown Innovatec.PERIOD_DURATION
                         (Innovatec.setSchedulingState Innovatec.none
                            (Innovatec.setPlayerActions Innovatec.getInitialSecretaryActions
                               (Innovatec.setCurrentDialogue
                                  (replaceAll "{playerName}"
                                     (playerName (Innovatec.gameState cl))
                                     ("CTO, me acaban de informar que " +:+ name t
                                      +:+ " ha cancelado la reunión. Su oficina citó circunstancias imprevistas. Parece que su humor es bastante malo."))
                                  (Innovatec.setCharacterInFocus (Some sec)
                                     (Innovatec.setGameState
                                        (set_calendar_log
                                           (Innovatec.gameState (Innovatec.setGameState n s))
                                           (Innovatec.removeFound
                                              (fun m0 => bool_decide (m_day m0 = day n)
                                                         && bool_decide (m_slot m0 = timeSlot n))
                                              (calendar (Innovatec.gameState
                                                           (Innovatec.setGameState n s))))
                                           (playerActionsLog
                                              (Innovatec.gameState
                                                 (Innovatec.setGameState n s))))
                                        (Innovatec.setGameState n s))))))
                   | None =>
                       Innovatec.setGameState
                         (set_calendar_log
                            (Innovatec.gameState (Innovatec.setGameState n s))
                            (Innovatec.removeFound
                               (fun m0 => bool_decide (m_day m0 = day n)
                                          && bool_decide (m_slot m0 = timeSlot n))
                               (calendar (Innovatec.gameState
                                            (Innovatec.setGameState n s))))
                            (playerActionsLog
                               (Innovatec.gameState (Innovatec.setGameState n s))))
                         (Innovatec.setGameState n s)
                   end)
                 = Innovatec.removeFound
                     (fun m0 => bool_decide (m_day m0 = day n)
                                && bool_decide (m_slot m0 = timeSlot n))
                     (calendar n)).
        { destruct (Innovatec.secretary cl); innovatec_fields; reflexivity. }
        rewrite Hcal. split; [now apply removeFound_perm|]. split; [reflexivity|].
        intros sec Hsec. rewrite Hsec. innovatec_fields. repeat split; reflexivity.
      * split.
        { destruct (find _ (sequences K)); [|destruct (find _ (scenarios K))];
            innovatec_fields; now destruct n. }
        split; [intros; discriminate|]. split; [|intros m0 [= <-] Hno; congruence].
        intros m0 t0 [= <-] Ht0. rewrite Ht in Ht0. injection Ht0 as <-. rewrite Hcancel.
        apply find_some in Hm as [Hmin _].
        destruct (find _ (sequences K)) as [seq|]; [|destruct (find _ (scenarios K))];
          innovatec_fields; (split; [reflexivity|]); (split; [exact Hmin|]);
          (split; [reflexivity|]); (split; [reflexivity|]);
          intros seq0 [= <-]; split; reflexivity.
    + split; [innovatec_fields; now destruct n|].
      split; [intros; discriminate|].
      split; [intros m0 t0 [= <-] Ht0; congruence|].
      intros m0 [= <-] _. reflexivity.
  - split.
    { destruct (Innovatec.secretary cl); innovatec_fields; now destruct n. }
    split; [|split; intros; discriminate].
    intros _. split.
    { destruct (Innovatec.secretary cl); innovatec_fields; reflexivity. }
    intros sec Hsec. rewrite Hsec. innovatec_fields. repeat split; reflexivity.
Qed.

(** ** Scheduling a meeting with the secretary *)

Lemma sortCalendar_sortWith K l :
  Innovatec.sortCalendar K l = sortWith (Innovatec.calendarCompare K) l.
Proof.
  unfold Innovatec.sortCalendar, sortWith.
  induction l as [|x l IH]; [reflexivity|]. simpl. rewrite IH.
  generalize (foldr (insertWith (Innovatec.calendarCompare K)) [] l) as r.
  induction r as [|y r IHr]; [reflexivity|]. simpl. now rewrite IHr.
Qed.

Lemma calendarCompare_total K a b :
  0 < Innovatec.calendarCompare K a b -> Innovatec.calendarCompare K b a <= 0.
Proof.
  unfold Innovatec.calendarCompare. repeat case_bool_decide; lia.
Qed.

Lemma calendarCompare_trans K a b c :
  Innovatec.calendarCompare K a b <= 0 -> Innovatec.calendarCompare K b c <= 0 ->
  Innovatec.calendarCompare K a c <= 0.
Proof.
  unfold Innovatec.calendarCompare. repeat case_bool_decide; lia.
Qed.

Lemma Innovatec_schedule_step K st a pl le draws sec :
  action a = "schedule_meeting" ->
  Innovatec.gameStatus st = playing ->
  Innovatec.characterInFocus st = Some sec ->
  role sec = SECRETARY_ROLE K ->
  Innovatec.currentMeeting st = None ->
  exists D,
    Innovatec.handlePlayerAction K st a pl le draws
    = Innovatec.setCurrentDialogue D
        (Innovatec.setIsLoading false
           (Innovatec.setPlayerActions []
              (Innovatec.setSchedulingState Innovatec.selecting_slot st))).
Proof.
  intros Ha Hs Hf Hr Hm. unfold Innovatec.handlePlayerAction.
  rewrite Ha, Hs, Hf, Hm. cbv zeta.
  rewrite (bool_decide_eq_true_2 _ Hr).
  unfold Innovatec.setPersonalizedDialogue.
  eexists. innovatec_fields. reflexivity.
Qed.

Lemma Innovatec_confirm_step K st a pl le draws sec t (d : Z) slot :
  action a = "confirm_schedule" ->
  Innovatec.gameStatus st = playing ->
  Innovatec.characterInFocus st = Some sec ->
  role sec = SECRETARY_ROLE K ->
  Innovatec.currentMeeting st = None ->
  Innovatec.secretary st = Some sec ->
  Innovatec.stakeholderToSchedule st = Some t ->
  Innovatec.selectedSlot st = Some (d, slot) ->
  exists D,
    Innovatec.handlePlayerAction K st a pl le draws
    = Innovatec.setCurrentDialogue D
        (Innovatec.setIsLoading false
           (Innovatec.setSelectedSlot None
              (Innovatec.setStakeholderToSchedule None
                 (Innovatec.setCountdown Innovatec.PERIOD_DURATION
                    (Innovatec.setSchedulingState Innovatec.none
                       (Innovatec.setPlayerActions Innovatec.getInitialSecretaryActions
                          (Innovatec.setCharacterInFocus (Some sec)
                             (Innovatec.setGameState
                                (set_calendar_log (Innovatec.gameState st)
                                   (Innovatec.sortCalendar K
                                      (calendar (Innovatec.gameState st)
                                       ++ [{| stakeholderName := name t; m_day := d;
                                              m_slot := slot |}]))
                                   (playerActionsLog (Innovatec.gameState st) ++ [le]))
                                st)))))))).
Proof.
  intros Ha Hs Hf Hr Hm Hsec Ht Hsl. unfold Innovatec.handlePlayerAction.
  rewrite Ha, Hs, Hf, Hm, Ht, Hsl. cbv zeta.
  rewrite (bool_decide_eq_true_2 _ Hr).
  unfold Innovatec.returnToSecretary, Innovatec.setPersonalizedDialogue.
  rewrite Hsec. eexists. innovatec_fields. reflexivity.
Qed.

Lemma Innovatec_cancel_step K st a pl le draws sec :
  action a = "cancel_schedule" ->
  Innovatec.gameStatus st = playing ->
  Innovatec.characterInFocus st = Some sec ->
  role sec = SECRETARY_ROLE K ->
  Innovatec.currentMeeting st = None ->
  Innovatec.secretary st = Some sec ->
  exists D,
    Innovatec.handlePlayerAction K st a pl le draws
    = Innovatec.setCurrentDialogue D
        (Innovatec.setIsLoading false
           (Innovatec.setSelectedSlot None
              (Innovatec.setStakeholderToSchedule None
                 (Innovatec.setCountdown Innovatec.PERIOD_DURATION
                    (Innovatec.setSchedulingState Innovatec.none
                       (Innovatec.setPlayerActions
                          Innovatec.getInitialSecretaryActions
                          (Innovatec.setCharacterInFocus (Some sec) st))))))).
Proof.
  intros Ha Hs Hf Hr Hm Hsec. unfold Innovatec.handlePlayerAction.
  rewrite Ha, Hs, Hf, Hm. cbv zeta.
  rewrite (bool_decide_eq_true_2 _ Hr).
  unfold Innovatec.returnToSecretary, Innovatec.setPersonalizedDialogue.
  rewrite Hsec. eexists. innovatec_fields. reflexivity.
Qed.

(** X19. Scheduling a meeting through the secretary of the Innovatec
    game.  After the request to schedule, the choice of a slot and the
    choice of a stakeholder, the secretary offers exactly a confirmation
    and a cancellation and the game state is still untouched.  Confirming
    adds exactly one meeting, the chosen stakeholder at the chosen day and
    slot, to the calendar, which is then in chronological order, adds one
    entry to the log of player actions and changes nothing else of the
    game state; cancelling leaves the game state as it was.  Either way
    the scheduling state is cleared, the secretary keeps the focus with
    her initial actions on offer, and the effect that restores those
    actions has nothing left to do. *)
Theorem X19_scheduling_with_the_secretary K st a1 a2 a3 pl le draws sec t (d : Z) slot :
  action a1 = "schedule_meeting" ->
  action a2 = "confirm_schedule" ->
  action a3 = "cancel_schedule" ->
  Innovatec.gameStatus st = playing ->
  Innovatec.characterInFocus st = Some sec ->
  role sec = SECRETARY_ROLE K ->
  Innovatec.secretary st = Some sec ->
  Innovatec.currentMeeting st = None ->
  let g := Innovatec.gameState st in
  let asked :=
    Innovatec.handleRequestMeeting t
      (Innovatec.handleSlotSelect d slot
         (Innovatec.handlePlayerAction K st a1 pl le draws)) in
  let confirmed := Innovatec.handlePlayerAction K asked a2 pl le draws in
  let cancelled := Innovatec.handlePlayerAction K asked a3 pl le draws in
  let meeting := {| stakeholderName := name t; m_day := d; m_slot := slot |} in
  map action (Innovatec.playerActions asked) = ["confirm_schedule"; "cancel_schedule"]
  /\ Innovatec.gameState asked = g
  /\ calendar (Innovatec.gameState confirmed) ≡ₚ meeting :: calendar g
  /\ StronglySorted (fun a b => Innovatec.calendarCompare K a b <= 0)
       (calendar (Innovatec.gameState confirmed))
  /\ playerActionsLog (Innovatec.gameState confirmed) = playerActionsLog g ++ [le]
  /\ set_calendar_log (Innovatec.gameState confirmed) (calendar g) (playerActionsLog g) = g
  /\ Innovatec.gameState cancelled = g
  /\ (forall s, s = confirmed \/ s = cancelled ->
        Innovatec.schedulingState s = Innovatec.none
        /\ Innovatec.selectedSlot s = None
        /\ Innovatec.stakeholderToSchedule s = None
        /\ Innovatec.characterInFocus s = Some sec
        /\ Innovatec.playerActions s = Innovatec.getInitialSecretaryActions
        /\ Innovatec.currentMeeting s = None
        /\ Innovatec.secretaryActionsEffect K s = s).
Proof.
  intros Ha1 Ha2 Ha3 Hs Hf Hr Hsec Hm. cbv zeta.
  destruct (Innovatec_schedule_step K st a1 pl le draws sec Ha1 Hs Hf Hr Hm) as [D1 ->].
  assert (Hasked : exists D,
    Innovatec.handleRequestMeeting t
      (Innovatec.handleSlotSelect d slot
         (Innovatec.setCurrentDialogue D1
            (Innovatec.setIsLoading false
               (Innovatec.setPlayerActions []
                  (Innovatec.setSchedulingState Innovatec.selecting_slot st)))))
    = Innovatec.setCurrentDialogue D
        (Innovatec.setPlayerActions
           [{| label := "Sí, confirmar."; cost := "Confirmar";
               action := "confirm_schedule" |};
            {| label := "No, cancelar."; cost := "Cancelar";
               action := "cancel_schedule" |}]
           (Innovatec.setStakeholderToSchedule (Some t)
              (Innovatec.setCharacterInFocus (Some sec)
                 (Innovatec.setSchedulingState Innovatec.confirming_schedule
                    (Innovatec.setSelectedSlot (Some (d, slot))
                       (Innovatec.setIsLoading false st))))))).
  { unfold Innovatec.handleRequestMeeting, Innovatec.handleSlotSelect,
      Innovatec.setPersonalizedDialogue.
    cbn [Innovatec.secretary Innovatec.selectedSlot Innovatec.setCurrentDialogue
         Innovatec.setSchedulingState Innovatec.setSelectedSlot
         Innovatec.setIsLoading Innovatec.setPlayerActions].
    rewrite Hsec. eexists. innovatec_fields. reflexivity. }
  destruct Hasked as [D3 ->].
  set (asked := Innovatec.setCurrentDialogue D3 _).
  destruct (Innovatec_confirm_step K asked a2 pl le draws sec t d slot
              Ha2 Hs eq_refl Hr Hm Hsec eq_refl eq_refl) as [Dc Ec].
  destruct (Innovatec_cancel_step K asked a3 pl le draws sec
              Ha3 Hs eq_refl Hr Hm Hsec) as [Dx Ex].
  rewrite Ec, Ex. clear Ec Ex.
  split; [reflexivity|]. split; [now destruct st|].
  cbn [Innovatec.gameState Innovatec.setCurrentDialogue Innovatec.setIsLoading
       Innovatec.setSelectedSlot Innovatec.setStakeholderToSchedule
       Innovatec.setCountdown Innovatec.setSchedulingState
       Innovatec.setPlayerActions Innovatec.setCharacterInFocus
       Innovatec.setGameState asked calendar playerActionsLog set_calendar_log].
  split.
  { rewrite sortCalendar_sortWith, sortWith_perm.
    rewrite Permutation_app_comm. reflexivity. }
  split.
  { rewrite sortCalendar_sortWith. apply sortWith_sorted.
    - apply calendarCompare_total.
    - apply calendarCompare_trans. }
  split; [reflexivity|].
  split; [now destruct (Innovatec.gameState st)|].
  split; [reflexivity|].
  assert (Hrole : bool_decide (role sec = SECRETARY_ROLE K) = true)
    by now apply bool_decide_eq_true.
  intros s [-> | ->]; unfold Innovatec.secretaryActionsEffect;
    cbn [Innovatec.characterInFocus Innovatec.schedulingState
         Innovatec.setCurrentDialogue Innovatec.setIsLoading
         Innovatec.setSelectedSlot Innovatec.setStakeholderToSchedule
         Innovatec.setCountdown Innovatec.setSchedulingState
         Innovatec.setPlayerActions Innovatec.setCharacterInFocus
         Innovatec.setGameState];
    rewrite Hrole; cbn [andb bool_decide decide_rel];
    (repeat split; try reflexivity; try exact Hm).
Qed.

(** ** The order number of a sequence id *)







(** ** Instances on the sample data *)

Lemma X2_breakage_counted_once_witness :
  dayBoundary Sample.content Sample.evening5
  /\ day Sample.evening5 + 1 <= 7
  /\ Forall2 (fun sh sh' =>
                newlyBroken 7 (commitments sh')
                = newlyBroken 7 (commitments sh) - newlyBroken 6 (commitments sh)
                /\ newlyBroken 6 (commitments sh') = 0)
       (stakeholders Sample.evening5)
       (stakeholders (App.advanceTime Sample.content Sample.evening5)).
Proof.
  assert (Hd : day Sample.evening5 + 1 <= 7) by (simpl; lia).
  split; [exact sample_evening5_boundary|]. split; [exact Hd|].
  exact (proj1 (X2_breakage_counted_once Sample.content Sample.evening5 7
                  sample_evening5_boundary Hd)).
Defined.

Lemma sample_slots_NoDup : NoDup (TIME_SLOTS Sample.content).
Proof.
  apply (bool_decide_unpack _). vm_compute. exact I.
Defined.

Lemma X3_one_rollover_per_day_witness :
  NoDup (TIME_SLOTS Sample.content)
  /\ TIME_SLOTS Sample.content !! 1%nat = Some (timeSlot Sample.afternoon1)
  /\ day (Nat.iter 1 (App.advanceTime Sample.content) Sample.afternoon1) = 1
  /\ day (Nat.iter 2 (App.advanceTime Sample.content) Sample.afternoon1) = 2.
Proof.
  split; [exact sample_slots_NoDup|]. split; [reflexivity|].
  destruct (X3_one_rollover_per_day Sample.content Sample.afternoon1 1%nat
              sample_slots_NoDup eq_refl) as (Hk & (Hd & _) & _).
  split; [exact (proj1 (Hk 1%nat ltac:(simpl; lia))) | exact Hd].
Defined.

Lemma X4_unknown_slot_restarts_the_day_witness :
  (timeSlot SampleMap.small_hours ∉ TIME_SLOTS Sample.content)
  /\ timeSlot (App.advanceTime Sample.content SampleMap.small_hours) = "mañana"
  /\ day (App.advanceTime Sample.content SampleMap.small_hours) = 3.
Proof.
  assert (Hn : timeSlot SampleMap.small_hours ∉ TIME_SLOTS Sample.content).
  { apply (bool_decide_unpack _). vm_compute. exact I. }
  split; [exact Hn|].
  rewrite (proj1 (X4_unknown_slot_restarts_the_day Sample.content
                    SampleMap.small_hours Hn)).
  split; reflexivity.
Defined.

Lemma X6_option_offers_the_next_step_witness :
  let st := Sample.appState Sample.afternoon1 (Some Sample.guzman)
              (Some (Sample.storm, 0%nat)) playing in
  let st' := App.handlePlayerAction Sample.content st (Sample.act "A") None in
  (action (Sample.act "A") ∉ flowActions)
  /\ App.playerActions st' = [followUp Sample.storm 0]
  /\ App.countdown st' = 90.
Proof.
  cbv zeta.
  assert (Hn : action (Sample.act "A") ∉ flowActions).
  { apply (bool_decide_unpack _). vm_compute. exact I. }
  split; [exact Hn|].
  destruct (X6_option_offers_the_next_step Sample.content
              (Sample.appState Sample.afternoon1 (Some Sample.guzman)
                 (Some (Sample.storm, 0%nat)) playing)
              (Sample.act "A") None Sample.guzman Sample.storm 0%nat Sample.node0
              {| option_id := "A"; text := "Aceptar"; consequences := Sample.costly |}
              eq_refl eq_refl eq_refl Hn eq_refl eq_refl)
    as (_ & Ha & _ & _ & Hc & _).
  split; [exact Ha | exact Hc].
Defined.

Lemma sample_no_option_named_wait : noOptionNamed Sample.content "wait".
Proof.
  intros sc [<-|[]] o [<-|[]]. simpl. discriminate.
Defined.

Lemma X7_unknown_action_is_dropped_witness :
  let sa := Sample.appState Sample.afternoon1 (Some Sample.guzman) None playing in
  noOptionNamed Sample.content "wait"
  /\ App.handlePlayerAction Sample.content sa (Sample.act "wait") None = sa.
Proof.
  cbv zeta. split; [exact sample_no_option_named_wait|].
  assert (Hf : action (Sample.act "wait") ∉ flowActions).
  { apply (bool_decide_unpack _). vm_compute. exact I. }
  assert (Hi : action (Sample.act "wait") ∉ innovatecFlowActions).
  { apply (bool_decide_unpack _). vm_compute. exact I. }
  exact (proj1 (X7_unknown_action_is_dropped Sample.content
                  (Sample.appState Sample.afternoon1 (Some Sample.guzman) None playing)
                  (Sample.innovatecState Sample.afternoon1 (Some Sample.guzman)
                     None playing)
                  (Sample.act "wait") None "" Sample.draws
                  Sample.guzman Sample.guzman
                  sample_no_option_named_wait Hf Hi
                  eq_refl eq_refl eq_refl eq_refl)).
Defined.



Lemma X13_walk_starts_the_least_proactive_sequence_witness :
  let answer := App.handleMapInteract SampleMap.content SampleMap.morning2
                  SampleMap.staff false in
  App.currentMeeting SampleMap.morning2 = None
  /\ App.currentMeeting (fst answer) = Some (SampleMap.azul1, 0%nat)
  /\ snd answer = true
  /\ App.isTimerPaused (fst answer) = false.
Proof.
  cbv zeta.
  assert (Hm : App.currentMeeting
                 (fst (App.handleMapInteract SampleMap.content SampleMap.morning2
                         SampleMap.staff false))
               = Some (SampleMap.azul1, 0%nat)) by (vm_compute; reflexivity).
  split; [reflexivity|]. split; [exact Hm|].
  destruct (X13_walk_starts_the_least_proactive_sequence SampleMap.content
              SampleMap.morning2 SampleMap.staff false SampleMap.azul1 0%nat
              eq_refl Hm) as (_ & Hans & _ & _ & _ & _ & _ & _ & Hp).
  split; [exact Hans | exact Hp].
Defined.

Lemma X19_scheduling_with_the_secretary_witness :
  let st := Sample.innovatecState Sample.afternoon1 (Some Sample.secretaria)
              None playing in
  let asked :=
    Innovatec.handleRequestMeeting Sample.guzman
      (Innovatec.handleSlotSelect 2 "tarde"
         (Innovatec.handlePlayerAction Sample.content st
            (Sample.act "schedule_meeting") None "" Sample.draws)) in
  role Sample.secretaria = SECRETARY_ROLE Sample.content
  /\ calendar
       (Innovatec.gameState
          (Innovatec.handlePlayerAction Sample.content asked
             (Sample.act "confirm_schedule") None "" Sample.draws))
     ≡ₚ [{| stakeholderName := "Guzmán"; m_day := 2; m_slot := "tarde" |}]
  /\ Innovatec.gameState
       (Innovatec.handlePlayerAction Sample.content asked
          (Sample.act "cancel_schedule") None "" Sample.draws)
     = Sample.afternoon1.
Proof.
  cbv zeta. split; [reflexivity|].
  destruct (X19_scheduling_with_the_secretary Sample.content
              (Sample.innovatecState Sample.afternoon1 (Some Sample.secretaria)
                 None playing)
              (Sample.act "schedule_meeting") (Sample.act "confirm_schedule")
              (Sample.act "cancel_schedule") None "" Sample.draws
              Sample.secretaria Sample.guzman 2 "tarde"
              eq_refl eq_refl eq_refl eq_refl eq_refl eq_refl eq_refl eq_refl)
    as (_ & _ & Hp & _ & _ & _ & Hc & _).
  split; [exact Hp | exact Hc].
Defined.

